(** * Luxury travel agent: deal scoring, search fallback, webhook and sender

    A shallow embedding of the flight, hotel and restaurant widgets
    (src/tools/widgets), of the WhatsApp sender (src/tools/whatsapp_sender.py),
    of the webhook receiver (src/main.py) and of the MCP server
    (src/mcp_server.py), followed by the properties proved about them.

    Modelling conventions.
    - Python [float] values are modelled by exact rationals ([Q]).  Every
      finite binary64 value is a rational and Python compares floats with
      integers exactly, so every threshold test below is the test the code
      performs.  Products such as [price * 1.35] are taken without rounding;
      no property below depends on the last bit of such a product.
    - Python [int] is [Z]; [str] is [string] (ASCII text: [lower], [upper]
      and [title] act on the letters A-Z and a-z).
    - A provider call, the random generator and the clock are inputs: the
      outcome of the call, the number drawn and the time read are arguments
      of the function that uses them.
    - [try: ... except Exception] is modelled with [option] or a sum: the
      body evaluates to a value or to an exception, and the handler maps
      the exception to the value the [except] branch returns. *)

From Stdlib Require Import ZArith QArith String Ascii List Bool Lia DecimalString.
From stdpp Require Import base option list gmap strings sorting.

Import ListNotations.
Local Open Scope string_scope.
Local Open Scope list_scope.
Local Open Scope Z_scope.

(** ** Python built-ins used by the widgets *)

Module Py.

Definition is_upper (c : ascii) : bool :=
  let n := nat_of_ascii c in (65 <=? n)%nat && (n <=? 90)%nat.

Definition is_lower (c : ascii) : bool :=
  let n := nat_of_ascii c in (97 <=? n)%nat && (n <=? 122)%nat.

Definition is_digit (c : ascii) : bool :=
  let n := nat_of_ascii c in (48 <=? n)%nat && (n <=? 57)%nat.

Definition is_alpha (c : ascii) : bool := is_upper c || is_lower c.

Definition lower_char (c : ascii) : ascii :=
  if is_upper c then ascii_of_nat (nat_of_ascii c + 32) else c.

Definition upper_char (c : ascii) : ascii :=
  if is_lower c then ascii_of_nat (nat_of_ascii c - 32) else c.

Fixpoint str_map (f : ascii -> ascii) (s : string) : string :=
  match s with
  | EmptyString => EmptyString
  | String c s' => String (f c) (str_map f s')
  end.

(** [s.lower()] and [s.upper()]. *)
Definition lower : string -> string := str_map lower_char.
Definition upper : string -> string := str_map upper_char.

(** [s.title()]: a letter that follows a letter is lowered, any other
    letter is raised. *)
Fixpoint title_from (prev_cased : bool) (s : string) : string :=
  match s with
  | EmptyString => EmptyString
  | String c s' =>
      if is_alpha c
      then String (if prev_cased then lower_char c else upper_char c)
                  (title_from true s')
      else String c (title_from false s')
  end.

Definition title : string -> string := title_from false.

(** The characters [str.strip()] removes: space, tab, newline, vertical
    tab, form feed, carriage return and the four ASCII separators. *)
Definition is_space (c : ascii) : bool :=
  let n := nat_of_ascii c in
  (n =? 32)%nat || ((9 <=? n)%nat && (n <=? 13)%nat)
  || ((28 <=? n)%nat && (n <=? 31)%nat).

Fixpoint lstrip (s : string) : string :=
  match s with
  | EmptyString => EmptyString
  | String c s' => if is_space c then lstrip s' else s
  end.

Definition str_rev (s : string) : string :=
  string_of_list_ascii (rev (list_ascii_of_string s)).

Definition strip (s : string) : string :=
  str_rev (lstrip (str_rev (lstrip s))).

(** [s[:n]] for a literal [n >= 0]. *)
Fixpoint str_take (n : nat) (s : string) : string :=
  match n, s with
  | O, _ => EmptyString
  | S _, EmptyString => EmptyString
  | S k, String c s' => String c (str_take k s')
  end.

Fixpoint str_drop (n : nat) (s : string) : string :=
  match n, s with
  | O, _ => s
  | S _, EmptyString => EmptyString
  | S k, String _ s' => str_drop k s'
  end.

(** [s[-n:]] for a literal [n > 0]: the last [n] characters, or all of [s]
    when it is shorter. *)
Definition str_last (n : nat) (s : string) : string :=
  str_drop (String.length s - n) s.

(** [s.startswith(p)]. *)
Fixpoint startswith (p s : string) : bool :=
  match p, s with
  | EmptyString, _ => true
  | String a p', String b s' => Ascii.eqb a b && startswith p' s'
  | String _ _, EmptyString => false
  end.

(** [s.replace(old, new)] for a non-empty [old]: leftmost occurrences,
    not overlapping.  [skip] counts the characters of a match still to be
    dropped. *)
Fixpoint replace_from (old new : string) (skip : nat) (s : string) : string :=
  match s with
  | EmptyString => EmptyString
  | String c s' =>
      match skip with
      | S k => replace_from old new k s'
      | O =>
          if startswith old s
          then new +:+ replace_from old new (String.length old - 1) s'
          else String c (replace_from old new O s')
      end
  end.

Definition replace (old new s : string) : string := replace_from old new O s.

(** [str(n)] and [f"{n}"] for an int. *)
Definition str_of_Z (z : Z) : string := NilZero.string_of_int (Z.to_int z).

(** [int(x)] for a float: truncation toward zero. *)
Definition int_of_float (q : Q) : Z := Z.quot (Qnum q) (Z.pos (Qden q)).

(** [float(n)] / the implicit conversion of an int operand. *)
Definition float_of_int (z : Z) : Q := inject_Z z.

(** Rounding of [format(x, ".0f")]: to the nearest integer, ties to even. *)
Definition round_half_even (q : Q) : Z :=
  let d := Z.pos (Qden q) in
  let fl := Qnum q / d in
  let r := Qnum q mod d in
  match 2 * r ?= d with
  | Lt => fl
  | Gt => fl + 1
  | Eq => if Z.even fl then fl else fl + 1
  end.

(** Digits grouped in threes from the right, as the [","] format option
    does. *)
Fixpoint group3 (n : nat) (rev_digits : list ascii) : list ascii :=
  match rev_digits with
  | [] => []
  | c :: cs =>
      match n, cs with
      | _, [] => [c]
      | O, _ => c :: ","%char :: group3 2 cs
      | S k, _ => c :: group3 k cs
      end
  end.

(** [f"{x:,.0f}"]. *)
Definition format_comma_0f (q : Q) : string :=
  let n := round_half_even q in
  let digits := list_ascii_of_string (str_of_Z (Z.abs n)) in
  let body := string_of_list_ascii (rev (group3 2 (rev digits))) in
  if Qlt_le_dec q 0 then "-" +:+ body else body.

Definition hex_digit (n : nat) : ascii :=
  if (n <? 10)%nat then ascii_of_nat (48 + n) else ascii_of_nat (55 + n).

(** [urllib.parse.quote(s)]: letters, digits and [_.-~/] are kept, every
    other byte becomes [%XX]. *)
Definition quote_keeps (c : ascii) : bool :=
  is_alpha c || is_digit c
  || existsb (Ascii.eqb c) ["_"; "."; "-"; "~"; "/"]%char.

Fixpoint quote (s : string) : string :=
  match s with
  | EmptyString => EmptyString
  | String c s' =>
      if quote_keeps c then String c (quote s')
      else
        let n := nat_of_ascii c in
        String "%" (String (hex_digit (n / 16)) (String (hex_digit (n mod 16)) (quote s')))
  end.

(** [l[:n]] for an int [n] of either sign. *)
Definition slice_to {A} (n : Z) (l : list A) : list A :=
  if 0 <=? n then take (Z.to_nat n) l
  else take (Z.to_nat (Z.of_nat (length l) + n)) l.

(** [dict.get(key)] on a table written as a list of pairs with distinct
    keys. *)
Fixpoint assoc {K V} (eqb : K -> K -> bool) (k : K) (l : list (K * V)) : option V :=
  match l with
  | [] => None
  | (k', v) :: l' => if eqb k k' then Some v else assoc eqb k l'
  end.

(** [list.sort(key=...)] is stable: elements whose keys compare equal keep
    their order.  [leb x y] says that the key of [x] is at most the key of
    [y]; an element is inserted in front of the first element it does not
    exceed. *)
Section Sort.
Context {A : Type} (leb : A -> A -> bool).

Fixpoint insert_sorted (x : A) (l : list A) : list A :=
  match l with
  | [] => [x]
  | y :: l' => if leb x y then x :: l else y :: insert_sorted x l'
  end.

Definition sort_by (l : list A) : list A := foldr insert_sorted [] l.
End Sort.

End Py.

(** A field read with [float(d.get(key, default))]: the key may be absent,
    hold a finite number (or its decimal text), or hold something [float]
    raises on.  A text that [float] reads as [nan] or as an infinity is
    none of the three: the records below have no such field. *)
Inductive raw_num : Type :=
  | Absent
  | Num (q : Q)
  | Malformed.

Definition float_of (default : Q) (r : raw_num) : option Q :=
  match r with
  | Absent => Some default
  | Num q => Some q
  | Malformed => None
  end.

(** What a provider client's [search] coroutine does: it returns the raw
    records or it raises. *)
Inductive outcome (A : Type) : Type :=
  | Returned (records : list A)
  | Raised (err : string).
Arguments Returned {A} records.
Arguments Raised {A} err.

(** [max(1, min(10, n))]. *)
Definition clamp_score (n : Z) : Z := Z.max 1 (Z.min 10 n).

(** ** Flights (src/tools/widgets/flight_widget.py) *)

Module Flight.

Inductive CabinClass : Type := ECONOMY | PREMIUM_ECONOMY | BUSINESS | FIRST.

(** [CabinClass.value]. *)
Definition cabin_value (c : CabinClass) : string :=
  match c with
  | ECONOMY => "ECONOMY"
  | PREMIUM_ECONOMY => "PREMIUM_ECONOMY"
  | BUSINESS => "BUSINESS"
  | FIRST => "FIRST"
  end.

Inductive DealUrgency : Type := LOW | MEDIUM | HIGH | CRITICAL.

(** [DealUrgency.value]. *)
Definition urgency_value (u : DealUrgency) : string :=
  match u with
  | LOW => "low"
  | MEDIUM => "medium"
  | HIGH => "high"
  | CRITICAL => "critical"
  end.

Record FlightSearchParams : Type := {
  origin : string;
  destination : string;
  departure_date : string;
  return_date : option string;
  adults : Z;
  cabin_class : CabinClass;
  max_results : Z;
  max_price : option Q
}.

Record FlightDeal : Type := {
  id : string;
  deal_origin : string;
  deal_destination : string;
  route_display : string;
  price : Q;
  original_price : option Q;
  currency : string;
  deal_cabin_class : string;
  airline : string;
  airline_name : string;
  deal_departure_date : string;
  deal_return_date : option string;
  departure_time : string;
  arrival_time : string;
  duration : string;
  stops : Z;
  deal_score : Z;
  savings_percent : option Z;
  urgency : DealUrgency;
  (** seconds since the epoch; the source stores the ISO text of the same
      instant *)
  expires_at : option Z;
  is_mistake_fare : bool;
  source : string;
  deep_link : string;
  booking_url : option string;
  image_url : option string
}.

(** The parts of an Amadeus flight offer that [_parse_amadeus_results]
    reads.  [None] is a key that is absent, for which the code supplies a
    default.  Each field that is present has the JSON type the provider
    documents for it: a segment list is a list, a time is a string. *)
Record Segment : Type := {
  carrierCode : option string;
  departure_at : option string;
  arrival_at : option string
}.

Record Itinerary : Type := {
  segments : option (list Segment);
  itinerary_duration : option string
}.

Record Offer : Type := {
  offer_id : option string;
  price_total : raw_num;
  itineraries : option (list Itinerary)
}.

(** [{}] read as a segment and as an itinerary. *)
Definition empty_segment : Segment :=
  {| carrierCode := None; departure_at := None; arrival_at := None |}.

Definition empty_itinerary : Itinerary :=
  {| segments := None; itinerary_duration := None |}.

(** [FlightWidget.AIRLINES]. *)
Definition AIRLINES : list (string * string) :=
  [ ("AA", "American Airlines"); ("UA", "United Airlines");
    ("DL", "Delta Air Lines"); ("AF", "Air France");
    ("BA", "British Airways"); ("LH", "Lufthansa"); ("EK", "Emirates");
    ("SQ", "Singapore Airlines"); ("QF", "Qantas"); ("NH", "ANA");
    ("JL", "Japan Airlines"); ("CX", "Cathay Pacific");
    ("QR", "Qatar Airways"); ("TK", "Turkish Airlines");
    ("EY", "Etihad Airways"); ("VS", "Virgin Atlantic");
    ("AC", "Air Canada"); ("KL", "KLM"); ("IB", "Iberia");
    ("AZ", "ITA Airways"); ("LX", "SWISS"); ("OS", "Austrian");
    ("SK", "SAS"); ("AY", "Finnair"); ("SU", "Aeroflot");
    ("KE", "Korean Air"); ("OZ", "Asiana Airlines");
    ("CI", "China Airlines"); ("BR", "EVA Air");
    ("MH", "Malaysia Airlines"); ("TG", "Thai Airways");
    ("GA", "Garuda Indonesia"); ("NZ", "Air New Zealand");
    ("LA", "LATAM"); ("AM", "Aeromexico"); ("AS", "Alaska Airlines");
    ("WN", "Southwest Airlines"); ("B6", "JetBlue");
    ("F9", "Frontier Airlines"); ("NK", "Spirit Airlines") ].

(** The threshold table of [_calculate_deal_score]:
    (excellent, good, average). *)
Definition thresholds (cabin : CabinClass) : Z * Z * Z :=
  match cabin with
  | BUSINESS => (2000, 3000, 4500)
  | FIRST => (4000, 6000, 9000)
  | ECONOMY => (400, 600, 900)
  | PREMIUM_ECONOMY => (800, 1200, 1800)
  end.

(** The [if]/[elif] chain of [_calculate_deal_score]. *)
Definition base_score (price : Q) (cabin : CabinClass) : Z :=
  let '(excellent, good, average) := thresholds cabin in
  if Qle_bool price (inject_Z excellent) then 9
  else if Qle_bool price (inject_Z good) then 7
  else if Qle_bool price (inject_Z average) then 5
  else 3.

(** [_calculate_deal_score]: [base_score -= stops * 0.5], then
    [max(1, min(10, int(base_score)))]. *)
Definition _calculate_deal_score (price : Q) (cabin : CabinClass) (stops : Z) : Z :=
  let score := (inject_Z (base_score price cabin) - inject_Z stops * (1 # 2))%Q in
  clamp_score (Py.int_of_float score).

(** [_determine_urgency]; the price argument is not read. *)
Definition _determine_urgency (deal_score : Z) (price : Q) : DealUrgency :=
  if 9 <=? deal_score then CRITICAL
  else if 7 <=? deal_score then HIGH
  else if 5 <=? deal_score then MEDIUM
  else LOW.

(** [_generate_sms_link]; [if price:] is false for [None] and for zero. *)
Definition _generate_sms_link (origin destination : string) (price : option Q) : string :=
  let message := "Book " +:+ origin +:+ "-" +:+ destination in
  let message :=
    match price with
    | Some p => if Qeq_bool p 0 then message
                else message +:+ " for $" +:+ Py.format_comma_0f p
    | None => message
    end in
  "sms://+1234567890?body=" +:+ Py.quote message.

Definition hours (n : Z) : Z := n * 3600.

(** The body of the [try] in [_parse_amadeus_results] for one offer:
    [None] when it raises ([float] on a malformed total, or [[0]] on an
    empty list of itineraries), in which case the offer is skipped.
    [now] is the clock reading of [datetime.now()]. *)
Definition parse_offer (now : Z) (params : FlightSearchParams) (offer : Offer)
  : option FlightDeal :=
  price ← float_of 0 (price_total offer);
  itinerary ← match itineraries offer with
              | None => Some empty_itinerary
              | Some [] => None
              | Some (it :: _) => Some it
              end;
  let segs := default [empty_segment] (segments itinerary) in
  let first_segment := default empty_segment (head segs) in
  let last_segment := default first_segment (last segs) in
  let airline := default "XX" (carrierCode first_segment) in
  let stops := Z.of_nat (length segs) - 1 in
  let deal_score := _calculate_deal_score price (cabin_class params) stops in
  let urgency := _determine_urgency deal_score price in
  Some {|
    id := "amadeus_" +:+ default "" (offer_id offer);
    deal_origin := origin params;
    deal_destination := destination params;
    route_display := origin params +:+ " -> " +:+ destination params;
    price := price;
    original_price := if 7 <=? deal_score then Some (price * (135 # 100))%Q else None;
    currency := "USD";
    deal_cabin_class := cabin_value (cabin_class params);
    airline := airline;
    airline_name := default airline (Py.assoc String.eqb airline AIRLINES);
    deal_departure_date := departure_date params;
    deal_return_date := return_date params;
    departure_time := Py.str_last 5 (default "" (departure_at first_segment));
    arrival_time := Py.str_last 5 (default "" (arrival_at last_segment));
    duration := Py.lower (Py.replace "PT" "" (default "" (itinerary_duration itinerary)));
    stops := stops;
    deal_score := deal_score;
    savings_percent := if 7 <=? deal_score then Some 26 else None;
    urgency := urgency;
    expires_at := if 8 <=? deal_score then Some (now + hours 12) else None;
    is_mistake_fare := 9 <=? deal_score;
    source := "amadeus";
    deep_link := _generate_sms_link (origin params) (destination params) (Some price);
    booking_url := None;
    image_url := None
  |}.

(** [_parse_amadeus_results]: offers whose parse raises are logged and
    left out. *)
Definition _parse_amadeus_results (now : Z) (results : list Offer)
    (params : FlightSearchParams) : list FlightDeal :=
  omap (parse_offer now params) results.

(** One row of [mock_routes]. *)
Record MockRoute : Type := {
  mock_airline : string;
  mock_name : string;
  mock_price : Z;
  mock_duration : string
}.

Definition mock_routes : list (string * string * MockRoute) :=
  [ (("JFK", "CDG"), {| mock_airline := "AF"; mock_name := "Air France";
                        mock_price := 1847; mock_duration := "7h 15m" |});
    (("JFK", "LHR"), {| mock_airline := "BA"; mock_name := "British Airways";
                        mock_price := 2150; mock_duration := "7h 00m" |});
    (("LAX", "NRT"), {| mock_airline := "JL"; mock_name := "Japan Airlines";
                        mock_price := 2890; mock_duration := "11h 30m" |});
    (("LAX", "HND"), {| mock_airline := "NH"; mock_name := "ANA";
                        mock_price := 2750; mock_duration := "11h 45m" |});
    (("SFO", "HND"), {| mock_airline := "UA"; mock_name := "United Airlines";
                        mock_price := 2650; mock_duration := "10h 30m" |});
    (("MIA", "LHR"), {| mock_airline := "BA"; mock_name := "British Airways";
                        mock_price := 2350; mock_duration := "8h 45m" |});
    (("JFK", "DXB"), {| mock_airline := "EK"; mock_name := "Emirates";
                        mock_price := 3200; mock_duration := "12h 30m" |}) ].

Definition generic_route : MockRoute :=
  {| mock_airline := "AA"; mock_name := "American Airlines";
     mock_price := 2500; mock_duration := "8h 00m" |}.

Definition route_eqb (a b : string * string) : bool :=
  String.eqb (fst a) (fst b) && String.eqb (snd a) (snd b).

(** [_get_mock_deals].  [jitter] is the value of
    [random.randint(-200, 200)]; [now] the clock reading. *)
Definition _get_mock_deals (now jitter : Z) (params : FlightSearchParams)
  : list FlightDeal :=
  let route_key := (Py.upper (origin params), Py.upper (destination params)) in
  let data := default generic_route (Py.assoc route_eqb route_key mock_routes) in
  let base_price := mock_price data in
  let price := base_price + jitter in
  [ {| id := "amadeus_" +:+ origin params +:+ "_" +:+ destination params;
       deal_origin := origin params;
       deal_destination := destination params;
       route_display := origin params +:+ " -> " +:+ destination params;
       price := Py.float_of_int price;
       original_price :=
         Some (Py.float_of_int (Py.int_of_float (Py.float_of_int price * (135 # 100))%Q));
       currency := "USD";
       deal_cabin_class := cabin_value (cabin_class params);
       airline := mock_airline data;
       airline_name := mock_name data;
       deal_departure_date := departure_date params;
       deal_return_date := return_date params;
       departure_time := "18:30";
       arrival_time := "07:45";
       duration := mock_duration data;
       stops := 0;
       deal_score := 8;
       savings_percent := Some 26;
       urgency := HIGH;
       expires_at := Some (now + hours 6);
       is_mistake_fare := false;
       source := "amadeus";
       deep_link := _generate_sms_link (origin params) (destination params)
                      (Some (Py.float_of_int price));
       booking_url := None;
       image_url := None |} ].

(** The sort key [(-d.deal_score, d.price)], compared as tuples. *)
Definition key_leb (a b : FlightDeal) : bool :=
  (- deal_score a <? - deal_score b)
  || ((- deal_score a =? - deal_score b) && Qle_bool (price a) (price b)).

(** [self.amadeus]: [None] when the API key or secret is not set, else the
    client, whose [search_flights] returns offers or raises. *)
Record FlightWidget : Type := {
  amadeus : option (FlightSearchParams -> outcome Offer)
}.

(** [FlightWidget.search_flights]. *)
Definition search_flights (self : FlightWidget) (now jitter : Z)
    (params : FlightSearchParams) : list FlightDeal :=
  let deals :=
    match amadeus self with
    | Some client =>
        match client params with
        | Returned results => _parse_amadeus_results now results params
        | Raised _ => []
        end
    | None => []
    end in
  let deals :=
    match deals with
    | [] => _get_mock_deals now jitter params
    | _ :: _ => deals
    end in
  let deals := Py.sort_by key_leb deals in
  Py.slice_to (max_results params) deals.

End Flight.

(** ** Hotels (src/tools/widgets/hotel_widget.py) *)

Module Hotel.

Inductive HotelCategory : Type := LUXURY | BOUTIQUE | RESORT | BUSINESS | ALL.

(** [HotelCategory(value)]: [None] when the constructor raises
    [ValueError]. *)
Definition category_of_value (s : string) : option HotelCategory :=
  if String.eqb s "luxury" then Some LUXURY
  else if String.eqb s "boutique" then Some BOUTIQUE
  else if String.eqb s "resort" then Some RESORT
  else if String.eqb s "business" then Some BUSINESS
  else if String.eqb s "all" then Some ALL
  else None.

Inductive UrgencyLevel : Type := LOW | MEDIUM | HIGH | CRITICAL.

Definition urgency_value (u : UrgencyLevel) : string :=
  match u with
  | LOW => "low"
  | MEDIUM => "medium"
  | HIGH => "high"
  | CRITICAL => "critical"
  end.

(** [check_in] and [check_out] hold the day number that
    [datetime.strptime(text, "%Y-%m-%d")] yields, [None] when it raises. *)
Record HotelSearchParams : Type := {
  location : string;
  check_in : option Z;
  check_out : option Z;
  guests : Z;
  rooms : Z;
  min_rating : Q;
  max_price : option Q;
  category : HotelCategory;
  amenities : option (list string)
}.

Record HotelResult : Type := {
  id : string;
  name : string;
  brand : option string;
  hotel_location : string;
  city : string;
  country : string;
  rating : Q;
  review_count : Z;
  price_per_night : Q;
  original_price : option Q;
  total_price : Q;
  currency : string;
  hotel_category : HotelCategory;
  star_rating : Z;
  image_url : string;
  thumbnail_url : string;
  hotel_amenities : list string;
  highlights : list string;
  room_type : string;
  deal_score : Z;
  savings_percent : option Z;
  urgency : UrgencyLevel;
  source : string;
  deep_link : string;
  booking_url : option string;
  (** latitude and longitude *)
  coordinates : option (option Q * option Q)
}.

(** The parts of an Amadeus hotel offer that [_parse_amadeus_results]
    reads.  The name is text or absent here; a record whose name is
    present and not a string is in [HotelRaw], below. *)
Record HotelInfo : Type := {
  hotelId : option string;
  info_name : option string;
  chainCode : option string;
  info_rating : raw_num;
  latitude : option Q;
  longitude : option Q
}.

(** One entry of [offer["offers"]]: [price.total] and
    [room.description.text]. *)
Record OfferEntry : Type := {
  entry_total : raw_num;
  room_text : option string
}.

Record Offer : Type := {
  hotel : option HotelInfo;
  offers : option (list OfferEntry)
}.

Definition empty_info : HotelInfo :=
  {| hotelId := None; info_name := None; chainCode := None;
     info_rating := Absent; latitude := None; longitude := None |}.

Definition empty_entry : OfferEntry :=
  {| entry_total := Absent; room_text := None |}.

(** A record of the curated source, as [_parse_curated_results] reads
    it. *)
Record Curated : Type := {
  cur_id : option string;
  cur_name : option string;
  cur_brand : option string;
  cur_location : option string;
  cur_city : option string;
  cur_country : option string;
  cur_price : raw_num;
  cur_rating : raw_num;
  cur_reviewCount : option Z;
  cur_originalPrice : option Q;
  cur_category : option string;
  cur_stars : option Z;
  cur_imageUrl : option string;
  cur_thumbnailUrl : option string;
  cur_amenities : option (list string);
  cur_highlights : option (list string);
  cur_roomType : option string;
  cur_savingsPercent : option Z;
  cur_bookingUrl : option string;
  cur_coordinates : option (option Q * option Q)
}.

(** [HotelWidget.HOTEL_IMAGES]; the last argument of [get] is the
    ["default"] entry. *)
Definition default_image : string :=
  "https://images.unsplash.com/photo-1566073771259-6a8506099945?w=800".

Definition HOTEL_IMAGES : list (string * string) :=
  [ ("paris", "https://images.unsplash.com/photo-1551882547-ff40c63fe5fa?w=800");
    ("tokyo", "https://images.unsplash.com/photo-1590490360182-c33d57733427?w=800");
    ("dubai", "https://images.unsplash.com/photo-1582719508461-905c673771fd?w=800");
    ("maldives", "https://images.unsplash.com/photo-1439130490301-25e322d88054?w=800");
    ("bali", "https://images.unsplash.com/photo-1537996194471-e657df975ab4?w=800");
    ("miami", "https://images.unsplash.com/photo-1571896349842-33c89424de2d?w=800");
    ("london", "https://images.unsplash.com/photo-1520250497591-112f2f40a3f4?w=800");
    ("new york", "https://images.unsplash.com/photo-1542314831-068cd1dbfeeb?w=800");
    ("whistler", "https://images.unsplash.com/photo-1548802673-380ab8ebc7b7?w=800");
    ("vancouver", "https://images.unsplash.com/photo-1566073771259-6a8506099945?w=800");
    ("aspen", "https://images.unsplash.com/photo-1584132967334-10e028bd69f7?w=800");
    ("santorini", "https://images.unsplash.com/photo-1570077188670-e3a8d69ac5ff?w=800");
    ("amalfi", "https://images.unsplash.com/photo-1602002418082-a4443e081dd1?w=800");
    ("default", default_image) ].

(** [_get_hotel_image]. *)
Definition _get_hotel_image (location : string) : string :=
  default default_image (Py.assoc String.eqb (Py.lower location) HOTEL_IMAGES).

(** [_calculate_nights]: [max(1, (co - ci).days)], and 1 when a date does
    not parse. *)
Definition _calculate_nights (check_in check_out : option Z) : Z :=
  match check_in, check_out with
  | Some ci, Some co => Z.max 1 (co - ci)
  | _, _ => 1
  end.

(** [_calculate_deal_score]. *)
Definition _calculate_deal_score (price rating : Q) : Z :=
  let price_score :=
    if Qle_bool price 300 then 9
    else if Qle_bool price 500 then 7
    else if Qle_bool price 800 then 5
    else 3 in
  let rating_bonus := if Qle_bool 4 rating then ((rating - 4) * 2)%Q else 0%Q in
  clamp_score (Py.int_of_float (inject_Z price_score + rating_bonus)%Q).

(** [_determine_urgency]. *)
Definition _determine_urgency (deal_score : Z) : UrgencyLevel :=
  if 9 <=? deal_score then CRITICAL
  else if 7 <=? deal_score then HIGH
  else if 5 <=? deal_score then MEDIUM
  else LOW.

(** [_generate_sms_link]. *)
Definition _generate_sms_link (hotel_name : string) (price : Q) : string :=
  let message :=
    "Book " +:+ hotel_name +:+ " at $" +:+ Py.format_comma_0f price +:+ "/night" in
  "sms://+1234567890?body=" +:+ Py.quote message.

(** [x if x else None] on an optional number: zero is false. *)
Definition truthy_num (x : option Q) : bool :=
  match x with
  | Some q => negb (Qeq_bool q 0)
  | None => false
  end.

(** The body of the [try] in [_parse_amadeus_results] for one offer;
    [None] when it raises ([[0]] on an empty [offers] list, [float] on a
    malformed total or rating).  The quotient [price / nights] is the
    exact one. *)
Definition parse_offer (params : HotelSearchParams) (offer : Offer)
  : option HotelResult :=
  let hotel_info := default empty_info (hotel offer) in
  entry ← match offers offer with
          | None => Some empty_entry
          | Some [] => None
          | Some (e :: _) => Some e
          end;
  price ← float_of 0 (entry_total entry);
  let nights := _calculate_nights (check_in params) (check_out params) in
  let price_per_night :=
    if 0 <? nights then (price / inject_Z nights)%Q else price in
  rating ← float_of (45 # 10) (info_rating hotel_info);
  let deal_score := _calculate_deal_score price_per_night rating in
  let city := location params in
  let image_url := _get_hotel_image (Py.lower city) in
  Some {|
    id := "amadeus_" +:+ default "" (hotelId hotel_info);
    name := default "Luxury Hotel" (info_name hotel_info);
    brand := chainCode hotel_info;
    hotel_location := city;
    city := city;
    country := "";
    rating := rating;
    review_count := Py.int_of_float (rating * 100)%Q;
    price_per_night := price_per_night;
    original_price :=
      if 7 <=? deal_score then Some (price_per_night * (125 # 100))%Q else None;
    total_price := price;
    currency := "USD";
    hotel_category := LUXURY;
    star_rating := Py.int_of_float rating;
    image_url := image_url;
    thumbnail_url := Py.replace "w=800" "w=200" image_url;
    hotel_amenities := ["Spa"; "Pool"; "Restaurant"; "WiFi"; "Gym"];
    highlights := ["City Center"; "Luxury Amenities"];
    room_type := Py.str_take 50 (default "Deluxe Room" (room_text entry));
    deal_score := deal_score;
    savings_percent := if 7 <=? deal_score then Some 20 else None;
    urgency := _determine_urgency deal_score;
    source := "amadeus";
    deep_link := _generate_sms_link (default "hotel" (info_name hotel_info)) price_per_night;
    booking_url := None;
    coordinates :=
      if truthy_num (latitude hotel_info)
      then Some (latitude hotel_info, longitude hotel_info) else None
  |}.

Definition _parse_amadeus_results (results : list Offer)
    (params : HotelSearchParams) : list HotelResult :=
  omap (parse_offer params) results.

(** The body of the [try] in [_parse_curated_results] for one record;
    [None] when it raises ([float] on a malformed price or rating,
    [HotelCategory] on an unknown category). *)
Definition parse_curated (params : HotelSearchParams) (hotel_data : Curated)
  : option HotelResult :=
  price ← float_of 500 (cur_price hotel_data);
  rating ← float_of (48 # 10) (cur_rating hotel_data);
  let nights := _calculate_nights (check_in params) (check_out params) in
  let deal_score := _calculate_deal_score price rating in
  cat ← category_of_value (default "luxury" (cur_category hotel_data));
  Some {|
    id := "curated_" +:+ default "" (cur_id hotel_data);
    name := default "Luxury Hotel" (cur_name hotel_data);
    brand := cur_brand hotel_data;
    hotel_location := default (location params) (cur_location hotel_data);
    city := default (location params) (cur_city hotel_data);
    country := default "" (cur_country hotel_data);
    rating := rating;
    review_count := default 500 (cur_reviewCount hotel_data);
    price_per_night := price;
    original_price := cur_originalPrice hotel_data;
    total_price := (price * inject_Z nights)%Q;
    currency := "USD";
    hotel_category := cat;
    star_rating := default 5 (cur_stars hotel_data);
    image_url := default (_get_hotel_image "default") (cur_imageUrl hotel_data);
    thumbnail_url :=
      default (Py.replace "w=800" "w=200" (default "" (cur_imageUrl hotel_data)))
              (cur_thumbnailUrl hotel_data);
    hotel_amenities := default ["Spa"; "Pool"; "Restaurant"] (cur_amenities hotel_data);
    highlights := default ["Award-winning"] (cur_highlights hotel_data);
    room_type := default "Deluxe Suite" (cur_roomType hotel_data);
    deal_score := deal_score + 1;
    savings_percent := cur_savingsPercent hotel_data;
    urgency := _determine_urgency deal_score;
    source := "curated";
    deep_link := _generate_sms_link (default "hotel" (cur_name hotel_data)) price;
    booking_url := cur_bookingUrl hotel_data;
    coordinates := cur_coordinates hotel_data
  |}.

Definition _parse_curated_results (results : list Curated)
    (params : HotelSearchParams) : list HotelResult :=
  omap (parse_curated params) results.

(** One row of a [mock_data] list. *)
Record MockHotel : Type := {
  mock_name : string;
  mock_brand : string;
  mock_price : Z;
  mock_rating : Q
}.

Definition mk (n b : string) (p : Z) (r : Q) : MockHotel :=
  {| mock_name := n; mock_brand := b; mock_price := p; mock_rating := r |}.

Definition mock_data : list (string * list MockHotel) :=
  [ ("miami",
     [ mk "Faena Miami Beach" "Faena" 750 (48 # 10);
       mk "The Setai Miami Beach" "The Setai" 895 (49 # 10);
       mk "Four Seasons Surf Club" "Four Seasons" 1100 (49 # 10) ]);
    ("paris",
     [ mk "Four Seasons Hotel George V" "Four Seasons" 895 (49 # 10);
       mk "Le Bristol Paris" "Oetker Collection" 1050 (49 # 10);
       mk "Ritz Paris" "Ritz" 1200 (48 # 10) ]);
    ("tokyo",
     [ mk "Aman Tokyo" "Aman" 1100 (49 # 10);
       mk "Park Hyatt Tokyo" "Park Hyatt" 650 (48 # 10);
       mk "The Peninsula Tokyo" "Peninsula" 750 (48 # 10) ]);
    ("dubai",
     [ mk "Burj Al Arab Jumeirah" "Jumeirah" 1500 (49 # 10);
       mk "One&Only The Palm" "One&Only" 950 (48 # 10);
       mk "Armani Hotel Dubai" "Armani" 650 (47 # 10) ]);
    ("london",
     [ mk "Claridge's" "Maybourne" 850 (49 # 10);
       mk "The Connaught" "Maybourne" 950 (49 # 10);
       mk "The Savoy" "Fairmont" 750 (48 # 10) ]);
    ("new york",
     [ mk "The Mark" "The Mark" 1100 (49 # 10);
       mk "Aman New York" "Aman" 1800 (49 # 10);
       mk "The Carlyle" "Rosewood" 950 (48 # 10) ]);
    ("maldives",
     [ mk "Soneva Fushi" "Soneva" 2500 (49 # 10);
       mk "One&Only Reethi Rah" "One&Only" 2200 (49 # 10);
       mk "Cheval Blanc Randheli" "LVMH" 3000 (49 # 10) ]);
    ("whistler",
     [ mk "Four Seasons Resort Whistler" "Four Seasons" 895 (49 # 10);
       mk "Fairmont Chateau Whistler" "Fairmont" 650 (48 # 10);
       mk "Nita Lake Lodge" "Nita Lake" 450 (47 # 10) ]);
    ("vancouver",
     [ mk "Fairmont Pacific Rim" "Fairmont" 650 (49 # 10);
       mk "Rosewood Hotel Georgia" "Rosewood" 550 (48 # 10);
       mk "Shangri-La Vancouver" "Shangri-La" 480 (48 # 10) ]);
    ("aspen",
     [ mk "The Little Nell" "The Little Nell" 1200 (49 # 10);
       mk "St. Regis Aspen Resort" "St. Regis" 1100 (49 # 10);
       mk "The Limelight Hotel" "Limelight" 650 (47 # 10) ]);
    ("bali",
     [ mk "Aman Villas at Nusa Dua" "Aman" 1500 (49 # 10);
       mk "Four Seasons Resort Bali" "Four Seasons" 950 (49 # 10);
       mk "Bulgari Resort Bali" "Bulgari" 1200 (48 # 10) ]);
    ("santorini",
     [ mk "Canaves Oia Epitome" "Canaves" 1100 (49 # 10);
       mk "Mystique Santorini" "Luxury Collection" 950 (48 # 10);
       mk "Grace Hotel Santorini" "Auberge" 850 (48 # 10) ]);
    ("amalfi",
     [ mk "Belmond Hotel Caruso" "Belmond" 1200 (49 # 10);
       mk "Il San Pietro di Positano" "Independent" 1100 (49 # 10);
       mk "Le Sirenuse" "Independent" 950 (48 # 10) ]) ].

Definition code_map : list (string * string) :=
  [ ("mia", "miami"); ("par", "paris"); ("tyo", "tokyo"); ("dxb", "dubai");
    ("lon", "london"); ("nyc", "new york"); ("mle", "maldives"); ("lhr", "london");
    ("yvr", "vancouver"); ("yws", "whistler"); ("dps", "bali"); ("jtr", "santorini");
    ("nap", "amalfi"); ("ase", "aspen"); ("cdg", "paris"); ("hnd", "tokyo");
    ("nrt", "tokyo"); ("jfk", "new york"); ("lax", "los angeles");
    ("sfo", "san francisco") ].

(** One iteration of the loop that builds the mock results. *)
Definition mock_result (location_lower display_city : string) (nights : Z)
    (idx : nat) (data : MockHotel) : HotelResult :=
  {| id := "amadeus_" +:+ location_lower +:+ "_" +:+ Py.str_of_Z (Z.of_nat idx);
     name := mock_name data;
     brand := Some (mock_brand data);
     hotel_location := display_city;
     city := display_city;
     country := "";
     rating := mock_rating data;
     review_count := Py.int_of_float (mock_rating data * 500)%Q;
     price_per_night := Py.float_of_int (mock_price data);
     original_price :=
       Some (Py.float_of_int
               (Py.int_of_float (Py.float_of_int (mock_price data) * (125 # 100))%Q));
     total_price := Py.float_of_int (mock_price data * nights);
     currency := "USD";
     hotel_category := LUXURY;
     star_rating := 5;
     image_url := _get_hotel_image location_lower;
     thumbnail_url := Py.replace "w=800" "w=200" (_get_hotel_image location_lower);
     hotel_amenities := ["Spa"; "Pool"; "Fine Dining"; "Butler Service"; "Gym"];
     highlights := ["City Center"; "Award-winning Service"];
     room_type := "Deluxe Suite";
     deal_score := 8;
     savings_percent := Some 20;
     urgency := HIGH;
     source := "amadeus";
     deep_link := _generate_sms_link (mock_name data) (Py.float_of_int (mock_price data));
     booking_url := None;
     coordinates := None |}.

(** [_get_mock_hotels]. *)
Definition _get_mock_hotels (params : HotelSearchParams) : list HotelResult :=
  let location_lower := Py.strip (Py.lower (location params)) in
  let location_lower :=
    default location_lower (Py.assoc String.eqb location_lower code_map) in
  let hotels_data :=
    match Py.assoc String.eqb location_lower mock_data with
    | Some (d :: ds) => d :: ds
    | _ =>
        let display_name := Py.title (location params) in
        [ mk ("Four Seasons " +:+ display_name) "Four Seasons" 895 (49 # 10);
          mk ("Ritz-Carlton " +:+ display_name) "Ritz-Carlton" 750 (48 # 10);
          mk ("St. Regis " +:+ display_name) "St. Regis" 850 (48 # 10) ]
    end in
  let nights := _calculate_nights (check_in params) (check_out params) in
  let display_city :=
    match Py.assoc String.eqb location_lower mock_data with
    | Some _ => Py.title location_lower
    | None => Py.title (location params)
    end in
  imap (mock_result location_lower display_city nights) hotels_data.

(** The deduplication key [hotel.name.lower().replace(" ", "")[:20]]. *)
Definition name_key (h : HotelResult) : string :=
  Py.str_take 20 (Py.replace " " "" (Py.lower (name h))).

(** One iteration of the deduplication loop over [(seen_names,
    unique_results)]. *)
Definition dedupe_step (st : gset string * list HotelResult) (h : HotelResult)
  : gset string * list HotelResult :=
  let '(seen_names, unique_results) := st in
  if decide (name_key h ∈ seen_names) then st
  else ({[ name_key h ]} ∪ seen_names, unique_results ++ [h]).

Definition dedupe (results : list HotelResult) : list HotelResult :=
  (foldl dedupe_step (∅, []) results).2.

(** The sort key [(-h.deal_score, -h.rating)], compared as tuples. *)
Definition key_leb (a b : HotelResult) : bool :=
  (- deal_score a <? - deal_score b)
  || ((- deal_score a =? - deal_score b) && Qle_bool (- rating a) (- rating b)).

Record HotelWidget : Type := {
  amadeus : option (HotelSearchParams -> outcome Offer)
}.

(** [results] of [search_hotels] when the deduplication starts: what the
    provider gave, or the mock hotels when that is empty. *)
Definition candidates (self : HotelWidget) (params : HotelSearchParams)
  : list HotelResult :=
  let results :=
    match amadeus self with
    | Some client =>
        match client params with
        | Returned amadeus_results => _parse_amadeus_results amadeus_results params
        | Raised _ => []
        end
    | None => []
    end in
  match results with
  | [] => _get_mock_hotels params
  | _ :: _ => results
  end.

(** [HotelWidget.search_hotels] on records whose names are text or absent.
    [HotelRaw.search_hotels], below, is the search on any record; it
    returns this list where the two meet. *)
Definition search_hotels (self : HotelWidget) (params : HotelSearchParams)
  : list HotelResult :=
  let results := candidates self params in
  let unique_results := dedupe results in
  let unique_results := Py.sort_by key_leb unique_results in
  Py.slice_to 10 unique_results.

End Hotel.

(** ** Restaurants (src/tools/widgets/restaurant_widget.py) *)

Module Restaurant.

Inductive CuisineType : Type :=
  | FRENCH | ITALIAN | JAPANESE | AMERICAN | MEDITERRANEAN | SEAFOOD
  | STEAKHOUSE | ASIAN_FUSION | FINE_DINING | ALL.

Inductive PriceRange : Type := MODERATE | EXPENSIVE | VERY_EXPENSIVE.

Inductive AvailabilityStatus : Type := AVAILABLE | LIMITED | WAITLIST | SOLD_OUT.

Record RestaurantSearchParams : Type := {
  location : string;
  date : string;
  time : string;
  party_size : Z;
  cuisine : CuisineType;
  price_range : option PriceRange
}.

Record RestaurantResult : Type := {
  id : string;
  name : string;
  result_cuisine : string;
  cuisine_display : string;
  result_location : string;
  city : string;
  neighborhood : string;
  rating : Q;
  review_count : Z;
  result_price_range : string;
  michelin_stars : Z;
  image_url : string;
  thumbnail_url : string;
  description : string;
  highlights : list string;
  available_times : list string;
  availability_status : AvailabilityStatus;
  next_available : option string;
  source : string;
  deep_link : string;
  booking_url : option string;
  coordinates : option (Q * Q)
}.

(** [RestaurantWidget.CUISINE_IMAGES]. *)
Definition default_image : string :=
  "https://images.unsplash.com/photo-1517248135467-4c7edcad34c4?w=800".

Definition CUISINE_IMAGES : list (string * string) :=
  [ ("french", "https://images.unsplash.com/photo-1414235077428-338989a2e8c0?w=800");
    ("italian", "https://images.unsplash.com/photo-1551183053-bf91a1d81141?w=800");
    ("japanese", "https://images.unsplash.com/photo-1579871494447-9811cf80d66c?w=800");
    ("american", "https://images.unsplash.com/photo-1544025162-d76694265947?w=800");
    ("seafood", "https://images.unsplash.com/photo-1559339352-11d035aa65de?w=800");
    ("steakhouse", "https://images.unsplash.com/photo-1600891964092-4316c288032e?w=800");
    ("fine_dining", "https://images.unsplash.com/photo-1550966871-3ed3cdb5ed0c?w=800");
    ("mediterranean", "https://images.unsplash.com/photo-1544124499-58912cbddaad?w=800");
    ("default", default_image) ].

(** One row of a [mock_data] list. *)
Record MockRestaurant : Type := {
  m_name : string;
  m_cuisine : string;
  m_cuisine_display : string;
  m_neighborhood : string;
  m_rating : Q;
  m_reviews : Z;
  m_price : string;
  m_michelin : Z;
  m_description : string;
  m_highlights : list string
}.

Definition mk (n c cd nb : string) (r : Q) (rv : Z) (p : string) (m : Z)
    (d : string) (h : list string) : MockRestaurant :=
  {| m_name := n; m_cuisine := c; m_cuisine_display := cd; m_neighborhood := nb;
     m_rating := r; m_reviews := rv; m_price := p; m_michelin := m;
     m_description := d; m_highlights := h |}.

Definition paris_data : list MockRestaurant :=
  [ mk "Le Cinq" "french" "French Fine Dining" "8th arrondissement" (49 # 10) 2847
       "$$$$" 3 "Three Michelin star restaurant at Four Seasons George V"
       ["Michelin 3-Star"; "Tasting Menu"; "Wine Pairing"];
    mk "L'Ambroisie" "french" "Classic French" "Place des Vosges" (49 # 10) 1923
       "$$$$" 3 "Legendary three-star in historic Place des Vosges"
       ["Michelin 3-Star"; "Historic Setting"; "Classic Cuisine"];
    mk "Septime" "french" "Modern French" "11th arrondissement" (47 # 10) 3421
       "$$$" 1 "Innovative tasting menus in a minimalist setting"
       ["Michelin 1-Star"; "Seasonal Menu"; "Natural Wine"] ].

Definition mock_data : list (string * list MockRestaurant) :=
  [ ("paris", paris_data);
    ("tokyo",
     [ mk "Sukiyabashi Jiro" "japanese" "Omakase Sushi" "Ginza" (49 # 10) 1256
          "$$$$" 3 "World-famous sushi by Jiro Ono"
          ["Michelin 3-Star"; "Omakase Only"; "Reservation Required"];
       mk "Narisawa" "japanese" "Innovative Japanese" "Minami-Aoyama" (48 # 10) 2134
          "$$$$" 2 "Avant-garde cuisine celebrating nature"
          ["Michelin 2-Star"; "Sustainability"; "World's 50 Best"];
       mk "Den" "japanese" "Creative Japanese" "Jingumae" (48 # 10) 1876
          "$$$" 2 "Playful fine dining with Japanese soul"
          ["Michelin 2-Star"; "Inventive"; "Asia's 50 Best"] ]);
    ("new york",
     [ mk "Eleven Madison Park" "american" "Contemporary American" "Flatiron"
          (48 # 10) 4521 "$$$$" 3 "Plant-based tasting menu in Art Deco landmark"
          ["Michelin 3-Star"; "Plant-Based"; "World's Best"];
       mk "Le Bernardin" "seafood" "French Seafood" "Midtown" (49 # 10) 5234
          "$$$$" 3 "Eric Ripert's legendary seafood temple"
          ["Michelin 3-Star"; "Seafood"; "40 Years"];
       mk "Carbone" "italian" "Italian-American" "Greenwich Village" (46 # 10) 6789
          "$$$" 0 "Classic Italian-American in retro glamour"
          ["Celebrity Favorite"; "Spicy Rigatoni"; "Tableside Service"] ]);
    ("miami",
     [ mk "Fiola Miami" "italian" "Modern Italian" "Coral Gables" (47 # 10) 1823
          "$$$$" 0 "Fabio Trabocchi's Italian excellence"
          ["James Beard Award"; "Pasta"; "Wine List"];
       mk "Ariete" "american" "New American" "Coconut Grove" (46 # 10) 2134
          "$$$" 0 "Farm-to-table with Latin influences"
          ["Local Sourcing"; "Cocktails"; "Brunch"];
       mk "Stubborn Seed" "american" "Creative American" "South Beach" (47 # 10) 1567
          "$$$$" 0 "Top Chef winner Jeremy Ford's flagship"
          ["Top Chef Winner"; "Tasting Menu"; "South Beach"] ]);
    ("london",
     [ mk "Restaurant Gordon Ramsay" "french" "French Fine Dining" "Chelsea"
          (48 # 10) 2345 "$$$$" 3 "Gordon Ramsay's flagship three-star"
          ["Michelin 3-Star"; "Classic French"; "Intimate"];
       mk "The Ledbury" "french" "Modern European" "Notting Hill" (48 # 10) 1987
          "$$$$" 2 "Brett Graham's innovative cuisine"
          ["Michelin 2-Star"; "Game Dishes"; "Tasting Menu"];
       mk "Dishoom" "indian" "Bombay Cafe" "Covent Garden" (46 # 10) 8765
          "$$" 0 "Beloved Bombay-style cafe and bar"
          ["Iconic Breakfast"; "Black Daal"; "No Reservations"] ]) ].

Definition base_times : list string :=
  ["18:00"; "18:30"; "19:00"; "19:30"; "20:00"; "20:30"; "21:00"].

(** One iteration of the loop of [_get_mock_restaurants].  [sample] is the
    list that [random.sample(base_times, 4)] returned in this iteration. *)
Definition mock_result (params : RestaurantSearchParams) (location_lower : string)
    (sample : list string) (idx : nat) (data : MockRestaurant) : RestaurantResult :=
  let cuisine := m_cuisine data in
  let image := default default_image (Py.assoc String.eqb cuisine CUISINE_IMAGES) in
  let available_times := Py.sort_by String.leb sample in
  let slug := Py.replace " " "-" (Py.lower (m_name data)) in
  {| id := "opentable_" +:+ location_lower +:+ "_" +:+ Py.str_of_Z (Z.of_nat idx);
     name := m_name data;
     result_cuisine := cuisine;
     cuisine_display := m_cuisine_display data;
     result_location := m_neighborhood data +:+ ", " +:+ Py.title (location params);
     city := Py.title (location params);
     neighborhood := m_neighborhood data;
     rating := m_rating data;
     review_count := m_reviews data;
     result_price_range := m_price data;
     michelin_stars := m_michelin data;
     image_url := image;
     thumbnail_url := Py.replace "w=800" "w=200" image;
     description := m_description data;
     highlights := m_highlights data;
     available_times := available_times;
     availability_status :=
       match available_times with [] => LIMITED | _ :: _ => AVAILABLE end;
     next_available := head available_times;
     source := "opentable";
     deep_link := "opentable://reserve?restaurant=" +:+ slug;
     booking_url := Some ("https://opentable.com/r/" +:+ slug);
     coordinates := None |}.

(** [_get_mock_restaurants].  [samples idx] is the draw of iteration
    [idx]; nothing is assumed of it. *)
Definition _get_mock_restaurants (samples : nat -> list string)
    (params : RestaurantSearchParams) : list RestaurantResult :=
  let location_lower := Py.lower (location params) in
  let restaurants_data :=
    default paris_data (Py.assoc String.eqb location_lower mock_data) in
  imap (fun idx data => mock_result params location_lower (samples idx) idx data)
       restaurants_data.

(** The sort key [(-r.michelin_stars, -r.rating)]. *)
Definition key_leb (a b : RestaurantResult) : bool :=
  (- michelin_stars a <? - michelin_stars b)
  || ((- michelin_stars a =? - michelin_stars b) && Qle_bool (- rating a) (- rating b)).

(** [RestaurantWidget.search_restaurants]. *)
Definition search_restaurants (samples : nat -> list string)
    (params : RestaurantSearchParams) : list RestaurantResult :=
  let results := _get_mock_restaurants samples params in
  let results := Py.sort_by key_leb results in
  Py.slice_to 10 results.

End Restaurant.

(** ** JSON values, as [json.loads] and [response.json()] produce them

    An object lists each of its keys once. *)

#[warnings="-register-all"]
Inductive json : Type :=
  | JNull
  | JBool (b : bool)
  | JNum (q : Q)
  | JStr (s : string)
  | JArr (items : list json)
  | JObj (fields : list (string * json)).

(** ** The outbound sender (src/tools/whatsapp_sender.py) *)

Module WhatsApp.

Definition API_URL : string := "https://graph.facebook.com/v18.0".

(** The three environment variables read by [__init__]; [None] when a
    variable is not set. *)
Record WhatsAppClient : Type := {
  access_token : option string;
  phone_number_id : option string;
  business_account_id : option string
}.

(** Truth value of an optional string: [None] and [""] are false. *)
Definition truthy (s : option string) : bool :=
  match s with
  | Some s => negb (String.eqb s "")
  | None => false
  end.

(** The [is_configured] property. *)
Definition is_configured (self : WhatsAppClient) : bool :=
  truthy (access_token self) && truthy (phone_number_id self).

(** The request [client.post] sends. *)
Record Request : Type := {
  url : string;
  authorization : string;
  content_type : string;
  payload : json
}.

(** What comes back: [response_json] is the value of [response.json()],
    or the text of the exception it raises. *)
Record Response : Type := {
  status_code : Z;
  text : string;
  response_json : string + json
}.

(** The network as seen by [_send_message]: a request is answered, or the
    client raises (time-out, connection error, ...) with the given text. *)
Inductive exchange : Type :=
  | Answered (r : Response)
  | Failed (err : string).

(** The dict [_send_message] returns; a key that is not in the dict is
    [None]. *)
Record SendResult : Type := {
  success : bool;
  mock : option bool;
  message : option string;
  preview : option json;
  response : option json;
  error : option string
}.

Definition mock_result (msg : json) : SendResult :=
  {| success := true; mock := Some true;
     message := Some "WhatsApp not configured - showing preview";
     preview := Some msg; response := None; error := None |}.

Definition sent_result (r : json) : SendResult :=
  {| success := true; mock := None; message := None; preview := None;
     response := Some r; error := None |}.

Definition failure_result (err : string) : SendResult :=
  {| success := false; mock := None; message := None; preview := None;
     response := None; error := Some err |}.

(** The request of [client.post(...)]; an f-string prints [None] as
    ["None"]. *)
Definition request_for (self : WhatsAppClient) (msg : json) : Request :=
  {| url := API_URL +:+ "/" +:+ default "None" (phone_number_id self) +:+ "/messages";
     authorization := "Bearer " +:+ default "None" (access_token self);
     content_type := "application/json";
     payload := msg |}.

(** The body of the [try]: the requests sent, and a result or the text of
    the exception raised. *)
Definition try_send (self : WhatsAppClient) (network : Request -> exchange)
    (msg : json) : list Request * (string + SendResult) :=
  let request := request_for self msg in
  ([request],
   match network request with
   | Failed err => inl err
   | Answered r =>
       if status_code r =? 200
       then match response_json r with
            | inr j => inr (sent_result j)
            | inl err => inl err
            end
       else inr (failure_result (text r))
   end).

(** [_send_message]: the requests sent, and what the coroutine does:
    [inr] when it returns, [inl] when an exception leaves it. *)
Definition _send_message (self : WhatsAppClient) (network : Request -> exchange)
    (msg : json) : list Request * (string + SendResult) :=
  if negb (is_configured self) then ([], inr (mock_result msg))
  else
    let '(sent, r) := try_send self network msg in
    match r with
    | inr result => (sent, inr result)
    | inl err => (sent, inr (failure_result err))
    end.

End WhatsApp.

(** ** The webhook receiver (src/main.py, [whatsapp_incoming]) *)

Module Webhook.

(** The exceptions the handler's [try] can see. *)
Inductive exn : Type :=
  | HTTPException (status_code : Z) (detail : string)
  | UnicodeDecodeError
  | JSONDecodeError
  | AttributeError
  | IndexError
  | KeyError
  | TypeError.

(** What the handler writes to the log. *)
Inductive event : Type :=
  | InvalidSignature
  | WebhookReceived
  | TextMessage (from_number text : json)
  | ButtonClick (from_number button_id : json)
  | BookingRequest (button_id : string)
  | DetailsRequest (button_id : string)
  | AddToCart (button_id : string)
  | StatusUpdate (recipient msg_status : json)
  | WebhookError (e : exn).

(** The library functions the handler calls. *)
Record Lib : Type := {
  (** [hmac.new(key, body, hashlib.sha256).hexdigest()] *)
  hmac_sha256_hexdigest : string -> string -> string;
  (** [body.decode('utf-8')]; [None] when it raises *)
  utf8_decode : string -> option string;
  (** [json.loads]; [None] when it raises *)
  json_loads : string -> option json
}.

Record Request : Type := {
  (** the [X-Hub-Signature-256] header, [None] when it is not sent *)
  x_hub_signature_256 : option string;
  (** the raw bytes of the body *)
  body : string
}.

(** The dict the handler returns: [{"status": "received"}], or
    [{"status": "error", "message": str(e)}]. *)
Inductive reply : Type :=
  | Received
  | Error (e : exn).

(** The HTTP response: FastAPI answers 200 with the returned dict, and
    with the status of an [HTTPException] that leaves the handler. *)
Record Response : Type := {
  http_status : Z;
  content : reply
}.

(** Computations of the handler: the log written so far, and a value or
    the exception raised. *)
Definition M (A : Type) : Type := list event * (exn + A).

Definition ret {A} (a : A) : M A := ([], inr a).
Definition raise {A} (e : exn) : M A := ([], inl e).
Definition log (ev : event) : M unit := ([ev], inr tt).
Definition lift {A} (x : exn + A) : M A := ([], x).

Definition bind {A B} (m : M A) (f : A -> M B) : M B :=
  match m with
  | (l, inl e) => (l, inl e)
  | (l, inr a) => let '(l', r) := f a in (l ++ l', r)
  end.

Notation "x <- m ;; k" := (bind m (fun x => k))
  (at level 100, m at next level, right associativity).
Notation "m ;;; k" := (bind m (fun _ => k))
  (at level 100, right associativity).

(** [for x in xs: body]. *)
Fixpoint for_each {A} (xs : list A) (body : A -> M unit) : M unit :=
  match xs with
  | [] => ret tt
  | x :: xs' => body x ;;; for_each xs' body
  end.

(** [d.get(key, default)]: only a dict has [get]. *)
Definition get (d : json) (key : string) (default_value : json) : exn + json :=
  match d with
  | JObj fields => inr (default default_value (Py.assoc String.eqb key fields))
  | _ => inl AttributeError
  end.

(** [v[0]]. *)
Definition index0 (v : json) : exn + json :=
  match v with
  | JArr [] => inl IndexError
  | JArr (x :: _) => inr x
  | JStr EmptyString => inl IndexError
  | JStr (String c _) => inr (JStr (String c EmptyString))
  | JObj _ => inl KeyError
  | _ => inl TypeError
  end.

(** The elements [for x in v] visits. *)
Definition iterate (v : json) : exn + list json :=
  match v with
  | JArr items => inr items
  | JObj fields => inr (map (fun kv => JStr kv.1) fields)
  | JStr s => inr (map (fun c => JStr (String c EmptyString)) (list_ascii_of_string s))
  | _ => inl TypeError
  end.

(** The receiver of [button_id.startswith(...)]: only a string has
    [startswith]. *)
Definition as_str (v : json) : exn + string :=
  match v with
  | JStr s => inr s
  | _ => inl AttributeError
  end.

Definition is_str (v : json) (s : string) : bool :=
  match v with
  | JStr s' => String.eqb s' s
  | _ => false
  end.

(** The body of [for message in messages]. *)
Definition handle_message (message : json) : M unit :=
  from_number <- lift (get message "from" JNull) ;;
  msg_type <- lift (get message "type" JNull) ;;
  if is_str msg_type "text" then
    t <- lift (get message "text" (JObj [])) ;;
    text <- lift (get t "body" (JStr "")) ;;
    log (TextMessage from_number text)
  else if is_str msg_type "interactive" then
    interactive <- lift (get message "interactive" (JObj [])) ;;
    button_reply <- lift (get interactive "button_reply" (JObj [])) ;;
    button_id <- lift (get button_reply "id" (JStr "")) ;;
    log (ButtonClick from_number button_id) ;;;
    s <- lift (as_str button_id) ;;
    if Py.startswith "book_" s then log (BookingRequest s)
    else if Py.startswith "details_" s then log (DetailsRequest s)
    else if Py.startswith "cart_" s then log (AddToCart s)
    else ret tt
  else ret tt.

(** The body of [for status in statuses]. *)
Definition handle_status (status : json) : M unit :=
  msg_status <- lift (get status "status" JNull) ;;
  recipient <- lift (get status "recipient_id" JNull) ;;
  log (StatusUpdate recipient msg_status).

(** Everything the handler does with the parsed payload. *)
Definition process (payload : json) : M reply :=
  log WebhookReceived ;;;
  e <- lift (get payload "entry" (JArr [JObj []])) ;;
  entry <- lift (index0 e) ;;
  c <- lift (get entry "changes" (JArr [JObj []])) ;;
  changes <- lift (index0 c) ;;
  value <- lift (get changes "value" (JObj [])) ;;
  messages <- lift (get value "messages" (JArr [])) ;;
  ms <- lift (iterate messages) ;;
  for_each ms handle_message ;;;
  statuses <- lift (get value "statuses" (JArr [])) ;;
  ss <- lift (iterate statuses) ;;
  for_each ss handle_status ;;;
  ret Received.

Definition is_ascii (s : string) : bool :=
  forallb (fun c => (nat_of_ascii c <? 128)%nat) (list_ascii_of_string s).

(** [hmac.compare_digest(a, b)] on two [str]: it raises [TypeError] unless
    both are ASCII; otherwise it says whether they are equal.  (That it
    takes the same time whatever the strings is not visible here.) *)
Definition compare_digest (a b : string) : exn + bool :=
  if is_ascii a && is_ascii b then inr (String.eqb a b) else inl TypeError.

(** The value [expected_sig] of the handler. *)
Definition expected_sig (lib : Lib) (APP_SECRET : string) (body : string) : string :=
  "sha256=" +:+ hmac_sha256_hexdigest lib APP_SECRET body.

(** [request.headers.get("X-Hub-Signature-256", "")]. *)
Definition signature (request : Request) : string :=
  default "" (x_hub_signature_256 request).

(** The signature check: [if APP_SECRET and signature: ...]. *)
Definition check_signature (lib : Lib) (APP_SECRET : string) (request : Request)
  : M unit :=
  let signature := signature request in
  if negb (String.eqb APP_SECRET "") && negb (String.eqb signature "") then
    same <- lift (compare_digest signature (expected_sig lib APP_SECRET (body request))) ;;
    if negb same then
      log InvalidSignature ;;;
      raise (HTTPException 401 "Invalid signature")
    else ret tt
  else ret tt.

(** [body.decode('utf-8')]. *)
Definition decode (lib : Lib) (request : Request) : M string :=
  lift (match utf8_decode lib (body request) with
        | Some s => inr s
        | None => inl UnicodeDecodeError
        end).

(** [json.loads(body_str)]. *)
Definition loads (lib : Lib) (body_str : string) : M json :=
  lift (match json_loads lib body_str with
        | Some j => inr j
        | None => inl JSONDecodeError
        end).

(** The body of the handler's [try]. *)
Definition try_body (lib : Lib) (APP_SECRET : string) (request : Request) : M reply :=
  body_str <- decode lib request ;;
  check_signature lib APP_SECRET request ;;;
  payload <- loads lib body_str ;;
  process payload.

(** [whatsapp_incoming]: the log written and the response sent.
    [except Exception] catches every exception of the body,
    [HTTPException] included, and the handler then returns a dict, which
    FastAPI sends with status 200. *)
Definition respond (m : M reply) : list event * Response :=
  match m with
  | (l, inr r) => (l, {| http_status := 200; content := r |})
  | (l, inl e) =>
      (l ++ [WebhookError e], {| http_status := 200; content := Error e |})
  end.

Definition whatsapp_incoming (lib : Lib) (APP_SECRET : string) (request : Request)
  : list event * Response :=
  respond (try_body lib APP_SECRET request).

(** The handler with the signature check taken out: what it does with a
    request it accepts. *)
Definition accept (lib : Lib) (request : Request) : list event * Response :=
  respond (body_str <- decode lib request ;;
           payload <- loads lib body_str ;;
           process payload).

End Webhook.

(** ** The hotel search on any provider record
    (src/tools/widgets/hotel_widget.py, [search_hotels])

    [_parse_amadeus_results] stores [hotel_info.get("name", ...)] as it
    comes, and the deduplication loop of [search_hotels] calls
    [hotel.name.lower()] outside every [try]. *)

Module HotelRaw.

(** A name that is present and is not a string. *)
Inductive other_name : Type :=
  | NameNull
  | NameBool (b : bool)
  | NameNum (q : Q)
  | NameArr (items : list json)
  | NameObj (fields : list (string * json)).

(** A provider record: one whose name is text or absent, or one whose
    name is [name] and whose other fields are those of [offer]. *)
Inductive Offer : Type :=
  | Named (offer : Hotel.Offer)
  | Misnamed (name : other_name) (offer : Hotel.Offer).

(** A parsed record as the deduplication loop meets it: a result whose
    name is a string, or one whose [name] is not. *)
Inductive Parsed : Type :=
  | Result (h : Hotel.HotelResult)
  | NoText (name : other_name).

(** The body of the [try] of [_parse_amadeus_results]: the name is
    stored, and printed into the deep link, whatever it is; whether the
    record is skipped depends on the other fields. *)
Definition parse_offer (params : Hotel.HotelSearchParams) (offer : Offer)
  : option Parsed :=
  match offer with
  | Named o => Result <$> Hotel.parse_offer params o
  | Misnamed name o => (fun _ => NoText name) <$> Hotel.parse_offer params o
  end.

Definition _parse_amadeus_results (results : list Offer)
    (params : Hotel.HotelSearchParams) : list Parsed :=
  omap (parse_offer params) results.

Record HotelWidget : Type := {
  amadeus : option (Hotel.HotelSearchParams -> outcome Offer)
}.

(** [results] when the deduplication starts. *)
Definition candidates (self : HotelWidget) (params : Hotel.HotelSearchParams)
  : list Parsed :=
  let results :=
    match amadeus self with
    | Some client =>
        match client params with
        | Returned amadeus_results => _parse_amadeus_results amadeus_results params
        | Raised _ => []
        end
    | None => []
    end in
  match results with
  | [] => Result <$> Hotel._get_mock_hotels params
  | _ :: _ => results
  end.

(** The deduplication loop from the state [(seen_names, unique_results)]:
    [hotel.name.lower()] raises [AttributeError] at the first name that
    is not a string. *)
Fixpoint dedupe_loop (st : gset string * list Hotel.HotelResult)
    (results : list Parsed) : Webhook.exn + list Hotel.HotelResult :=
  match results with
  | [] => inr st.2
  | NoText _ :: _ => inl Webhook.AttributeError
  | Result h :: rest => dedupe_loop (Hotel.dedupe_step st h) rest
  end.

(** [HotelWidget.search_hotels]: the list returned, or the exception that
    leaves it. *)
Definition search_hotels (self : HotelWidget) (params : Hotel.HotelSearchParams)
  : Webhook.exn + list Hotel.HotelResult :=
  match dedupe_loop (∅, []) (candidates self params) with
  | inl e => inl e
  | inr unique_results =>
      inr (Py.slice_to 10 (Py.sort_by Hotel.key_leb unique_results))
  end.

(** Every hotel the search starts from has a string as its name. *)
Definition names_are_text (self : HotelWidget) (params : Hotel.HotelSearchParams)
  : Prop :=
  Forall (fun p => exists h, p = Result h) (candidates self params).

(** The widget whose provider sends the records of [self], all of them
    with a text name or none. *)
Definition of_typed (self : Hotel.HotelWidget) : HotelWidget :=
  {| amadeus :=
       (fun client params =>
          match client params with
          | Returned results => Returned (Named <$> results)
          | Raised err => Raised err
          end) <$> Hotel.amadeus self |}.

Definition unconfigured : HotelWidget := {| amadeus := None |}.

(** The typed part of a record, and the widget whose provider sends the
    typed parts. *)
Definition typed (offer : Offer) : Hotel.Offer :=
  match offer with
  | Named o => o
  | Misnamed _ o => o
  end.

Definition forget (self : HotelWidget) : Hotel.HotelWidget :=
  {| Hotel.amadeus :=
       (fun client params =>
          match client params with
          | Returned results => Returned (typed <$> results)
          | Raised err => Raised err
          end) <$> amadeus self |}.

End HotelRaw.

(** ** The scoring rules as the specification words them *)

Module Spec.

(** The table of cabin thresholds: excellent, good, average. *)
Definition excellent (c : Flight.CabinClass) : Q :=
  match c with
  | Flight.ECONOMY => 400
  | Flight.PREMIUM_ECONOMY => 800
  | Flight.BUSINESS => 2000
  | Flight.FIRST => 4000
  end.

Definition good (c : Flight.CabinClass) : Q :=
  match c with
  | Flight.ECONOMY => 600
  | Flight.PREMIUM_ECONOMY => 1200
  | Flight.BUSINESS => 3000
  | Flight.FIRST => 6000
  end.

Definition average (c : Flight.CabinClass) : Q :=
  match c with
  | Flight.ECONOMY => 900
  | Flight.PREMIUM_ECONOMY => 1800
  | Flight.BUSINESS => 4500
  | Flight.FIRST => 9000
  end.

(** "score = 9/7/5/3 respectively for excellent/good/average/else". *)
Definition class_score (price : Q) (c : Flight.CabinClass) : Q :=
  if Qle_bool price (excellent c) then 9
  else if Qle_bool price (good c) then 7
  else if Qle_bool price (average c) then 5
  else 3.

(** "clamp to [1,10]", on the fractional score. *)
Definition clamp (x : Q) : Q :=
  if Qle_bool x 1 then 1 else if Qle_bool 10 x then 10 else x.

(** "truncate to integer". *)
Definition truncate (x : Q) : Z := Z.quot (Qnum x) (Z.pos (Qden x)).

(** "then score -= 0.5 * stopCount, clamp to [1,10], truncate to
    integer". *)
Definition flight_score (price : Q) (c : Flight.CabinClass) (stopCount : Z) : Z :=
  truncate (clamp (class_score price c - (5 # 10) * inject_Z stopCount)%Q).

(** The urgency table: "score>=9 -> critical, >=7 -> high, >=5 -> medium,
    else -> low", as text. *)
Definition urgency (score : Z) : string :=
  if 9 <=? score then "critical"
  else if 7 <=? score then "high"
  else if 5 <=? score then "medium"
  else "low".

(** The order low < medium < high < critical of the tiers. *)
Definition tier_rank (tier : string) : Z :=
  if String.eqb tier "critical" then 3
  else if String.eqb tier "high" then 2
  else if String.eqb tier "medium" then 1
  else 0.

End Spec.

(** ** What the claims say of a result, and the inputs used as examples *)

Module Inv.

(** A flight deal is scored on the 1-10 scale and its urgency is the tier
    the table gives for its score. *)
Definition flight_scored (d : Flight.FlightDeal) : Prop :=
  1 <= Flight.deal_score d <= 10
  /\ Flight.urgency_value (Flight.urgency d) = Spec.urgency (Flight.deal_score d).

Definition hotel_scored (h : Hotel.HotelResult) : Prop :=
  1 <= Hotel.deal_score h <= 10
  /\ Hotel.urgency_value (Hotel.urgency h) = Spec.urgency (Hotel.deal_score h).

(** Savings, original price and a score of 7 or more go together. *)
Definition flight_savings_agree (d : Flight.FlightDeal) : Prop :=
  (is_Some (Flight.savings_percent d) <-> is_Some (Flight.original_price d))
  /\ (is_Some (Flight.original_price d) <-> 7 <= Flight.deal_score d)
  /\ (is_Some (Flight.savings_percent d) <-> 7 <= Flight.deal_score d).

Definition hotel_savings_agree (h : Hotel.HotelResult) : Prop :=
  (is_Some (Hotel.savings_percent h) <-> is_Some (Hotel.original_price h))
  /\ (is_Some (Hotel.original_price h) <-> 7 <= Hotel.deal_score h)
  /\ (is_Some (Hotel.savings_percent h) <-> 7 <= Hotel.deal_score h).

(** The original price is the marked-up price, exactly ... *)
Definition flight_markup_exact (d : Flight.FlightDeal) : Prop :=
  forall o, Flight.original_price d = Some o -> o = (Flight.price d * (135 # 100))%Q.

Definition hotel_markup_exact (h : Hotel.HotelResult) : Prop :=
  forall o, Hotel.original_price h = Some o -> o = (Hotel.price_per_night h * (125 # 100))%Q.

(** ... or cut to its integer part, as the mock generators do. *)
Definition flight_markup_truncated (d : Flight.FlightDeal) : Prop :=
  Flight.original_price d
  = Some (inject_Z (Py.int_of_float (Flight.price d * (135 # 100))%Q)).

Definition hotel_markup_truncated (h : Hotel.HotelResult) : Prop :=
  Hotel.original_price h
  = Some (inject_Z (Py.int_of_float (Hotel.price_per_night h * (125 # 100))%Q)).

(** The source tag and the identifier prefix of the flight and hotel
    paths. *)
Definition flight_tagged (d : Flight.FlightDeal) : Prop :=
  Flight.source d = "amadeus"
  /\ Py.startswith "amadeus_" (Flight.id d) = true
  /\ Flight.source d <> "mock".

Definition hotel_tagged (h : Hotel.HotelResult) : Prop :=
  Hotel.source h = "amadeus"
  /\ Py.startswith "amadeus_" (Hotel.id h) = true
  /\ Hotel.source h <> "mock".

Definition restaurant_tagged (r : Restaurant.RestaurantResult) : Prop :=
  Restaurant.source r = "opentable" /\ Restaurant.source r <> "mock".

(** A mock deal with the four fields that follow the draw and the clock
    blanked: the price, the original price, the deep link, which quotes
    the price, and the expiry time. *)
Definition settled (d : Flight.FlightDeal) : Flight.FlightDeal :=
  {| Flight.id := Flight.id d;
     Flight.deal_origin := Flight.deal_origin d;
     Flight.deal_destination := Flight.deal_destination d;
     Flight.route_display := Flight.route_display d;
     Flight.price := 0;
     Flight.original_price := None;
     Flight.currency := Flight.currency d;
     Flight.deal_cabin_class := Flight.deal_cabin_class d;
     Flight.airline := Flight.airline d;
     Flight.airline_name := Flight.airline_name d;
     Flight.deal_departure_date := Flight.deal_departure_date d;
     Flight.deal_return_date := Flight.deal_return_date d;
     Flight.departure_time := Flight.departure_time d;
     Flight.arrival_time := Flight.arrival_time d;
     Flight.duration := Flight.duration d;
     Flight.stops := Flight.stops d;
     Flight.deal_score := Flight.deal_score d;
     Flight.savings_percent := Flight.savings_percent d;
     Flight.urgency := Flight.urgency d;
     Flight.expires_at := None;
     Flight.is_mistake_fare := Flight.is_mistake_fare d;
     Flight.source := Flight.source d;
     Flight.deep_link := "";
     Flight.booking_url := Flight.booking_url d;
     Flight.image_url := Flight.image_url d |}.

(** The deduplication loop read as a recursion over the names seen. *)
Fixpoint dedupe_from (seen : gset string) (l : list Hotel.HotelResult)
  : list Hotel.HotelResult :=
  match l with
  | [] => []
  | h :: t =>
      if decide (Hotel.name_key h ∈ seen) then dedupe_from seen t
      else h :: dedupe_from ({[ Hotel.name_key h ]} ∪ seen) t
  end.

(** The first result of a list whose name has the given key. *)
Fixpoint first_with_key (k : string) (l : list Hotel.HotelResult)
  : option Hotel.HotelResult :=
  match l with
  | [] => None
  | h :: t => if decide (Hotel.name_key h = k) then Some h else first_with_key k t
  end.

(** A widget with no provider configured. *)
Definition flights_unconfigured : Flight.FlightWidget := {| Flight.amadeus := None |}.
Definition hotels_unconfigured : Hotel.HotelWidget := {| Hotel.amadeus := None |}.

(** The search of the specification's example: JFK to CDG, business
    class, leaving on 2025-06-01, the other parameters at their
    defaults. *)
Definition jfk_cdg : Flight.FlightSearchParams :=
  {| Flight.origin := "JFK"; Flight.destination := "CDG";
     Flight.departure_date := "2025-06-01"; Flight.return_date := None;
     Flight.adults := 1; Flight.cabin_class := Flight.BUSINESS;
     Flight.max_results := 10; Flight.max_price := None |}.

(** The same search with a result cap of zero. *)
Definition jfk_cdg_cap0 : Flight.FlightSearchParams :=
  {| Flight.origin := "JFK"; Flight.destination := "CDG";
     Flight.departure_date := "2025-06-01"; Flight.return_date := None;
     Flight.adults := 1; Flight.cabin_class := Flight.BUSINESS;
     Flight.max_results := 0; Flight.max_price := None |}.

(** Three nights in Paris, day numbers 20240 to 20243. *)
Definition paris_stay : Hotel.HotelSearchParams :=
  {| Hotel.location := "Paris"; Hotel.check_in := Some 20240;
     Hotel.check_out := Some 20243; Hotel.guests := 2; Hotel.rooms := 1;
     Hotel.min_rating := 4; Hotel.max_price := None;
     Hotel.category := Hotel.LUXURY; Hotel.amenities := None |}.

(** A curated record that gives only a price and a rating. *)
Definition curated (price rating : Q) (savings : option Z) : Hotel.Curated :=
  {| Hotel.cur_id := Some "c1"; Hotel.cur_name := Some "Maison Test";
     Hotel.cur_brand := None; Hotel.cur_location := None; Hotel.cur_city := None;
     Hotel.cur_country := None; Hotel.cur_price := Num price;
     Hotel.cur_rating := Num rating; Hotel.cur_reviewCount := None;
     Hotel.cur_originalPrice := None; Hotel.cur_category := None;
     Hotel.cur_stars := None; Hotel.cur_imageUrl := None;
     Hotel.cur_thumbnailUrl := None; Hotel.cur_amenities := None;
     Hotel.cur_highlights := None; Hotel.cur_roomType := None;
     Hotel.cur_savingsPercent := savings; Hotel.cur_bookingUrl := None;
     Hotel.cur_coordinates := None |}.

(** An Amadeus hotel offer that gives a name and a total price. *)
Definition hotel_offer (hotel_name : string) (total : Q) : Hotel.Offer :=
  {| Hotel.hotel :=
       Some {| Hotel.hotelId := Some hotel_name; Hotel.info_name := Some hotel_name;
               Hotel.chainCode := None; Hotel.info_rating := Absent;
               Hotel.latitude := None; Hotel.longitude := None |};
     Hotel.offers := Some [ {| Hotel.entry_total := Num total; Hotel.room_text := None |} ] |}.

(** A provider that returns the given offers. *)
Definition hotels_from (results : list Hotel.Offer) : Hotel.HotelWidget :=
  {| Hotel.amadeus := Some (fun _ => Returned results) |}.

(** Ten hotels at 200 a night, then two at 1000 a night whose names agree
    on the first twenty letters. *)
Definition twelve_offers : list Hotel.Offer :=
  [ hotel_offer "Hotel A" 600; hotel_offer "Hotel B" 600; hotel_offer "Hotel C" 600;
    hotel_offer "Hotel D" 600; hotel_offer "Hotel E" 600; hotel_offer "Hotel F" 600;
    hotel_offer "Hotel G" 600; hotel_offer "Hotel H" 600; hotel_offer "Hotel I" 600;
    hotel_offer "Hotel J" 600;
    hotel_offer "Grand Plaza Paris Centre North" 3000;
    hotel_offer "Grand Plaza Paris Centre South" 3000 ].

(** Two offers whose names agree on the first twenty letters: the first
    at 1000 a night, the second at 200 a night. *)
Definition two_offers : list Hotel.Offer :=
  [ hotel_offer "Grand Plaza Paris Centre North" 3000;
    hotel_offer "Grand Plaza Paris Centre South" 600 ].

(** The handler rejected the request: it logged the invalid signature,
    which it does just before it raises the [HTTPException] with status
    401. *)
Definition rejected (r : list Webhook.event * Webhook.Response) : Prop :=
  Webhook.InvalidSignature ∈ r.1.

(** A computation of the handler that logs no invalid signature. *)
Definition quiet {A} (m : Webhook.M A) : Prop :=
  Webhook.InvalidSignature ∉ m.1.

(** The library with another [json.loads]. *)
Definition with_loads (lib : Webhook.Lib) (f : string -> option json) : Webhook.Lib :=
  {| Webhook.hmac_sha256_hexdigest := Webhook.hmac_sha256_hexdigest lib;
     Webhook.utf8_decode := Webhook.utf8_decode lib;
     Webhook.json_loads := f |}.

(** A payload with one text message. *)
Definition text_payload : json :=
  JObj [("entry", JArr [JObj [("changes", JArr [JObj [("value",
    JObj [("messages",
           JArr [JObj [("from", JStr "15550001"); ("type", JStr "text");
                       ("text", JObj [("body", JStr "hi")])]])])]])]])].

(** Stand-ins for the library: a digest that is always ["abcd"], a
    decoder that accepts every body, and a parser that returns
    [text_payload]. *)
Definition sample_lib : Webhook.Lib :=
  {| Webhook.hmac_sha256_hexdigest := fun _ _ => "abcd";
     Webhook.utf8_decode := Some;
     Webhook.json_loads := fun _ => Some text_payload |}.

Definition unsigned_request : Webhook.Request :=
  {| Webhook.x_hub_signature_256 := None; Webhook.body := "{...}" |}.

Definition missigned_request : Webhook.Request :=
  {| Webhook.x_hub_signature_256 := Some "sha256=0000"; Webhook.body := "{...}" |}.

End Inv.

(** ** Orders and shapes used to state further properties *)

Module Ext.

(** [a] may stand before [b] in the result of a hotel search: a higher
    deal score, or the same score and a rating that is not lower. *)
Definition hotel_before (a b : Hotel.HotelResult) : Prop :=
  Hotel.deal_score b < Hotel.deal_score a
  \/ (Hotel.deal_score a = Hotel.deal_score b
      /\ (Hotel.rating b <= Hotel.rating a)%Q).

(** And for restaurants: more Michelin stars, or as many and a rating that
    is not lower. *)
Definition restaurant_before (a b : Restaurant.RestaurantResult) : Prop :=
  Restaurant.michelin_stars b < Restaurant.michelin_stars a
  \/ (Restaurant.michelin_stars a = Restaurant.michelin_stars b
      /\ (Restaurant.rating b <= Restaurant.rating a)%Q).

(** An Air France segment. *)
Definition af_segment : Flight.Segment :=
  {| Flight.carrierCode := Some "AF";
     Flight.departure_at := Some "2025-06-01T18:30";
     Flight.arrival_at := Some "2025-06-02T07:45" |}.

(** An offer at 1500 with two segments, so one stop. *)
Definition one_stop_offer : Flight.Offer :=
  {| Flight.offer_id := Some "1"; Flight.price_total := Num 1500;
     Flight.itineraries :=
       Some [ {| Flight.segments := Some [af_segment; af_segment];
                 Flight.itinerary_duration := Some "PT9H40M" |} ] |}.

(** A nonstop offer that names no price. *)
Definition unpriced_offer : Flight.Offer :=
  {| Flight.offer_id := Some "2"; Flight.price_total := Absent;
     Flight.itineraries :=
       Some [ {| Flight.segments := Some [af_segment];
                 Flight.itinerary_duration := Some "PT7H15M" |} ] |}.

(** What a mock hotel shows besides its name and price. *)
Definition mock_hotel_shape (h : Hotel.HotelResult) : Prop :=
  Hotel.deal_score h = 8
  /\ Hotel.urgency h = Hotel.HIGH
  /\ Hotel.star_rating h = 5
  /\ Hotel.savings_percent h = Some 20
  /\ Hotel.hotel_category h = Hotel.LUXURY.

(** A webhook delivery with the given messages and statuses. *)
Definition delivery (messages statuses : list json) : json :=
  JObj [("entry", JArr [JObj [("changes", JArr [JObj [("value",
    JObj [("messages", JArr messages); ("statuses", JArr statuses)])]])]])].

(** A computation of the handler whose log entries all satisfy [P] and
    whose exception, if it raises one, satisfies [E]. *)
Definition keeps {A} (P : Webhook.event -> Prop) (E : Webhook.exn -> Prop)
    (m : Webhook.M A) : Prop :=
  Forall P m.1 /\ (forall e, m.2 = inl e -> E e).

Definition not_status (ev : Webhook.event) : Prop :=
  forall recipient msg_status, ev <> Webhook.StatusUpdate recipient msg_status.

(** A search for a table in a city the mock table does not know. *)
Definition berlin_dinner : Restaurant.RestaurantSearchParams :=
  {| Restaurant.location := "Berlin"; Restaurant.date := "2025-06-01";
     Restaurant.time := "19:00"; Restaurant.party_size := 2;
     Restaurant.cuisine := Restaurant.ALL; Restaurant.price_range := None |}.

End Ext.

(** ** The Amadeus hotel client (src/tools/widgets/hotel_widget.py,
    [AmadeusHotelClient]) *)

Module HotelClient.

(** [s.isupper()]: there is a cased character and no lowercase one. *)
Definition isupper (s : string) : bool :=
  let cs := list_ascii_of_string s in
  existsb Py.is_upper cs && negb (existsb Py.is_lower cs).

(** The table [city_map] of [_get_city_code]. *)
Definition city_map : list (string * string) :=
  [ ("new york", "NYC"); ("nyc", "NYC"); ("london", "LON"); ("paris", "PAR");
    ("tokyo", "TYO"); ("dubai", "DXB"); ("singapore", "SIN");
    ("hong kong", "HKG"); ("los angeles", "LAX"); ("miami", "MIA");
    ("san francisco", "SFO"); ("chicago", "CHI"); ("rome", "ROM");
    ("barcelona", "BCN"); ("sydney", "SYD"); ("maldives", "MLE");
    ("bali", "DPS") ].

(** [_get_city_code]: the table is searched with the lowered and stripped
    location; the two fallbacks read the location as it was given. *)
Definition _get_city_code (location : string) : string :=
  let lower := Py.strip (Py.lower location) in
  match Py.assoc String.eqb lower city_map with
  | Some code => code
  | None =>
      if (String.length location =? 3)%nat && isupper location then location
      else Py.upper (Py.str_take 3 location)
  end.

End HotelClient.

(** ** Widget data for flights (src/tools/widgets/flight_widget.py,
    [FlightDeal.to_widget_format] and [FlightWidget.get_widget_data]) *)

Module FlightFeed.

(** [FlightDeal.DESTINATION_IMAGES]. *)
Definition DESTINATION_IMAGES : list (string * string) :=
  [ ("CDG", "https://images.unsplash.com/photo-1502602898657-3e91760cbb34?w=800");
    ("PAR", "https://images.unsplash.com/photo-1502602898657-3e91760cbb34?w=800");
    ("LHR", "https://images.unsplash.com/photo-1513635269975-59663e0ac1ad?w=800");
    ("LON", "https://images.unsplash.com/photo-1513635269975-59663e0ac1ad?w=800");
    ("NRT", "https://images.unsplash.com/photo-1536098561742-ca998e48cbcc?w=800");
    ("HND", "https://images.unsplash.com/photo-1536098561742-ca998e48cbcc?w=800");
    ("TYO", "https://images.unsplash.com/photo-1536098561742-ca998e48cbcc?w=800");
    ("DXB", "https://images.unsplash.com/photo-1512453979798-5ea266f8880c?w=800");
    ("MIA", "https://images.unsplash.com/photo-1533106497176-45ae19e68ba2?w=800");
    ("LAX", "https://images.unsplash.com/photo-1534190760961-74e8c1c5c3da?w=800");
    ("SFO", "https://images.unsplash.com/photo-1501594907352-04cda38ebc29?w=800");
    ("JFK", "https://images.unsplash.com/photo-1496442226666-8d4d0e62e6e9?w=800");
    ("NYC", "https://images.unsplash.com/photo-1496442226666-8d4d0e62e6e9?w=800");
    ("SIN", "https://images.unsplash.com/photo-1525625293386-3f8f99389edd?w=800");
    ("HKG", "https://images.unsplash.com/photo-1536599018102-9f803c140fc1?w=800");
    ("SYD", "https://images.unsplash.com/photo-1506973035872-a4ec16b8e8d9?w=800");
    ("FCO", "https://images.unsplash.com/photo-1552832230-c0197dd311b5?w=800");
    ("ROM", "https://images.unsplash.com/photo-1552832230-c0197dd311b5?w=800");
    ("BCN", "https://images.unsplash.com/photo-1583422409516-2895a77efded?w=800");
    ("AMS", "https://images.unsplash.com/photo-1534351590666-13e3e96b5017?w=800");
    ("YVR", "https://images.unsplash.com/photo-1559511260-66a68e5c81b5?w=800");
    ("MLE", "https://images.unsplash.com/photo-1514282401047-d79a71a590e8?w=800");
    ("DPS", "https://images.unsplash.com/photo-1537996194471-e657df975ab4?w=800") ].

Definition default_image : string :=
  "https://images.unsplash.com/photo-1436491865332-7a61a109cc05?w=800".

(** [self.image_url or DESTINATION_IMAGES.get(self.destination, default)]:
    [None] and the empty string give way to the table. *)
Definition image_of (self : Flight.FlightDeal) : string :=
  let by_destination :=
    default default_image
      (Py.assoc String.eqb (Flight.deal_destination self) DESTINATION_IMAGES) in
  match Flight.image_url self with
  | Some u => if String.eqb u "" then by_destination else u
  | None => by_destination
  end.

(** The value of a dict entry that holds [None] or a string / a number. *)
Definition str_or_none (o : option string) : json := from_option JStr JNull o.
Definition int_or_none (o : option Z) : json :=
  from_option (fun n => JNum (inject_Z n)) JNull o.

(** ["Nonstop" if stops == 0 else f"{stops} stop{'s' if stops > 1 else ''}"]. *)
Definition stops_display (stops : Z) : string :=
  if stops =? 0 then "Nonstop"
  else Py.str_of_Z stops +:+ " stop" +:+ (if 1 <? stops then "s" else "").

(** [DEFAULT_ROUTES]: origin, destination, name. *)
Definition DEFAULT_ROUTES : list (string * string * string) :=
  [ ("JFK", "CDG", "NYC -> Paris");
    ("LAX", "NRT", "LA -> Tokyo");
    ("MIA", "LHR", "Miami -> London");
    ("SFO", "HND", "SF -> Tokyo");
    ("JFK", "DXB", "NYC -> Dubai") ].

(** What [get_widget_data] reads from the clock and from the random
    generator. *)
Record Readings : Type := {
  (** [departure.strftime("%Y-%m-%d")], thirty days from now *)
  departure : string;
  (** [return_dt.strftime("%Y-%m-%d")], seven days later *)
  return_dt : string;
  (** the clock reading and the number drawn in the search of the i-th
      route *)
  search_reading : nat -> Z * Z;
  (** the three clock readings of [_create_mock_deal] *)
  mock_departure : string;
  mock_return : string;
  mock_now : Z;
  (** the clock readings for [lastUpdated] and for [nextRefresh] *)
  updated_at : Z;
  refresh_from : Z
}.

(** The search parameters of one default route. *)
Definition route_params (r : Readings) (route : string * string * string)
  : Flight.FlightSearchParams :=
  {| Flight.origin := route.1.1;
     Flight.destination := route.1.2;
     Flight.departure_date := departure r;
     Flight.return_date := Some (return_dt r);
     Flight.adults := 1;
     Flight.cabin_class := Flight.BUSINESS;
     Flight.max_results := 1;
     Flight.max_price := None |}.

(** [_create_mock_deal]. *)
Definition _create_mock_deal (r : Readings) : Flight.FlightDeal :=
  {| Flight.id := "amadeus_JFK_CDG";
     Flight.deal_origin := "JFK";
     Flight.deal_destination := "CDG";
     Flight.route_display := "NYC -> Paris";
     Flight.price := 1847;
     Flight.original_price := Some 2497%Q;
     Flight.currency := "USD";
     Flight.deal_cabin_class := "BUSINESS";
     Flight.airline := "AF";
     Flight.airline_name := "Air France";
     Flight.deal_departure_date := mock_departure r;
     Flight.deal_return_date := Some (mock_return r);
     Flight.departure_time := "18:30";
     Flight.arrival_time := "07:45";
     Flight.duration := "7h 15m";
     Flight.stops := 0;
     Flight.deal_score := 8;
     Flight.savings_percent := Some 26;
     Flight.urgency := Flight.HIGH;
     Flight.expires_at := Some (mock_now r + Flight.hours 6);
     Flight.is_mistake_fare := false;
     Flight.source := "amadeus";
     Flight.deep_link := "sms://+1234567890?body=Book%20JFK-CDG%20for%20%241%2C847";
     Flight.booking_url := None;
     Flight.image_url := None |}.

(** The loop of [get_widget_data] from the i-th route on: the first deal
    of each search is appended, and the loop is left as soon as
    [max_deals] deals are there.  (Nothing in the body raises:
    [search_flights] handles the failures of the provider itself.) *)
Fixpoint collect (self : Flight.FlightWidget) (r : Readings) (max_deals : Z)
    (i : nat) (routes : list (string * string * string))
    (deals : list Flight.FlightDeal) : list Flight.FlightDeal :=
  match routes with
  | [] => deals
  | route :: rest =>
      let '(now, jitter) := search_reading r i in
      let route_deals := Flight.search_flights self now jitter (route_params r route) in
      let deals :=
        match route_deals with
        | d :: _ => deals ++ [d]
        | [] => deals
        end in
      if max_deals <=? Z.of_nat (length deals) then deals
      else collect self r max_deals (S i) rest deals
  end.

(** The list [deals] when [get_widget_data] builds its result. *)
Definition widget_deals (self : Flight.FlightWidget) (r : Readings) (max_deals : Z)
  : list Flight.FlightDeal :=
  match collect self r max_deals 0 (Py.slice_to (max_deals + 2) DEFAULT_ROUTES) [] with
  | [] => [_create_mock_deal r]
  | deals => deals
  end.

Section Format.
(** [t.isoformat()] for an instant given in seconds. *)
Variable isoformat : Z -> string.

(** [FlightDeal.to_widget_format]. *)
Definition to_widget_format (self : Flight.FlightDeal) : json :=
  JObj
    [ ("id", JStr (Flight.id self));
      ("route", JStr (Flight.route_display self));
      ("routeCode", JStr (Flight.deal_origin self +:+ "->" +:+ Flight.deal_destination self));
      ("price", JStr ("$" +:+ Py.format_comma_0f (Flight.price self)));
      ("priceNumeric", JNum (Flight.price self));
      ("originalPrice",
       match Flight.original_price self with
       | Some p => if Qeq_bool p 0 then JNull
                   else JStr ("$" +:+ Py.format_comma_0f p)
       | None => JNull
       end);
      ("cabin", JStr (Flight.deal_cabin_class self));
      ("airline", JStr (Flight.airline self));
      ("airlineName", JStr (Flight.airline_name self));
      ("savings",
       match Flight.savings_percent self with
       | Some n => if n =? 0 then JNull else JStr (Py.str_of_Z n +:+ "% off")
       | None => JNull
       end);
      ("savingsPercent", int_or_none (Flight.savings_percent self));
      ("dealScore", JNum (inject_Z (Flight.deal_score self)));
      ("urgency", JStr (Flight.urgency_value (Flight.urgency self)));
      ("expires", str_or_none (isoformat <$> Flight.expires_at self));
      ("isMistakeFare", JBool (Flight.is_mistake_fare self));
      ("departureDate", JStr (Flight.deal_departure_date self));
      ("returnDate", str_or_none (Flight.deal_return_date self));
      ("departureTime", JStr (Flight.departure_time self));
      ("arrivalTime", JStr (Flight.arrival_time self));
      ("duration", JStr (Flight.duration self));
      ("stops", JNum (inject_Z (Flight.stops self)));
      ("stopsDisplay", JStr (stops_display (Flight.stops self)));
      ("source", JStr (Flight.source self));
      ("deepLink", JStr (Flight.deep_link self));
      ("bookingUrl", str_or_none (Flight.booking_url self));
      ("imageUrl", JStr (image_of self));
      ("action", JStr "tap_to_book") ].

(** [FlightWidget.get_widget_data]; [user_id] is not read. *)
Definition get_widget_data (self : Flight.FlightWidget) (r : Readings)
    (user_id : option string) (max_deals : Z) : json :=
  let deals := widget_deals self r max_deals in
  JObj
    [ ("widgetType", JStr "flight_deal_tracker");
      ("size", JStr "medium_2x2");
      ("topDeal", match deals with
                  | d :: _ => to_widget_format d
                  | [] => JNull
                  end);
      ("allDeals", JArr (to_widget_format <$> Py.slice_to max_deals deals));
      ("watchedRoutes", JArr []);
      ("activeAlerts", JNum 0);
      ("lastUpdated", JStr (isoformat (updated_at r)));
      ("nextRefresh", JStr (isoformat (refresh_from r + Flight.hours 2)));
      ("refreshInterval", JNum 7200);
      ("deepLinkScheme", JStr "sms://") ].
(** [CabinClass(s)]: the member whose value is [s]; [None] when there is
    none and the constructor raises [ValueError]. *)
Definition cabin_of_value (s : string) : option Flight.CabinClass :=
  if String.eqb s "ECONOMY" then Some Flight.ECONOMY
  else if String.eqb s "PREMIUM_ECONOMY" then Some Flight.PREMIUM_ECONOMY
  else if String.eqb s "BUSINESS" then Some Flight.BUSINESS
  else if String.eqb s "FIRST" then Some Flight.FIRST
  else None.

(** [search_flights_tool]; [widget] is the [FlightWidget()] it builds from
    the environment.  [None] when [CabinClass(...)] raises. *)
Definition search_flights_tool (widget : Flight.FlightWidget) (now jitter : Z)
    (origin destination departure_date : string) (return_date : option string)
    (adults : Z) (cabin_class : string) (max_results : Z) : option json :=
  cabin ← cabin_of_value (Py.upper cabin_class);
  let params :=
    {| Flight.origin := Py.upper origin;
       Flight.destination := Py.upper destination;
       Flight.departure_date := departure_date;
       Flight.return_date := return_date;
       Flight.adults := adults;
       Flight.cabin_class := cabin;
       Flight.max_results := max_results;
       Flight.max_price := None |} in
  let deals := Flight.search_flights widget now jitter params in
  Some (JObj [ ("success", JBool true);
               ("count", JNum (inject_Z (Z.of_nat (length deals))));
               ("deals", JArr (to_widget_format <$> deals)) ]).

(** [get_flight_widget_data_tool]. *)
Definition get_flight_widget_data_tool (widget : Flight.FlightWidget) (r : Readings)
    (user_id : option string) (max_deals : Z) : json :=
  get_widget_data widget r user_id max_deals.
End Format.

End FlightFeed.

(** ** The MCP server (src/mcp_server.py) *)

Module MCP.

(** Computations that return a value or raise. *)
#[global] Instance exn_ret : MRet (sum Webhook.exn) := fun A a => inr a.
#[global] Instance exn_bind : MBind (sum Webhook.exn) :=
  fun A B f m => match m with inl e => inl e | inr a => f a end.

(** The truth value of a JSON value: [None], [False], zero and the empty
    string, list and dict are false. *)
Definition truthy (v : json) : bool :=
  match v with
  | JNull => false
  | JBool b => b
  | JNum q => negb (Qeq_bool q 0)
  | JStr s => negb (String.eqb s "")
  | JArr items => match items with [] => false | _ => true end
  | JObj fields => match fields with [] => false | _ => true end
  end.

(** [len(v)]. *)
Definition len (v : json) : Webhook.exn + json :=
  match v with
  | JArr items => inr (JNum (inject_Z (Z.of_nat (length items))))
  | JObj fields => inr (JNum (inject_Z (Z.of_nat (length fields))))
  | JStr s => inr (JNum (inject_Z (Z.of_nat (String.length s))))
  | _ => inl Webhook.TypeError
  end.

(** [v > 0] for the values that compare with an int. *)
Definition positive (v : json) : Webhook.exn + bool :=
  match v with
  | JNum q => inr (negb (Qle_bool q 0))
  | JBool b => inr b
  | _ => inl Webhook.TypeError
  end.

(** [d.get(key, default)] once [d] is known to be a dict. *)
Definition field (fields : list (string * json)) (key : string) (default_value : json)
  : json :=
  default default_value (Py.assoc String.eqb key fields).

(** The receiver of a first [.get]: a dict, or [AttributeError]. *)
Definition as_dict (v : json) : Webhook.exn + list (string * json) :=
  match v with
  | JObj fields => inr fields
  | _ => inl Webhook.AttributeError
  end.

(** [for x in items: ...] where the body yields one entry and at most one
    image, or raises. *)
Fixpoint format_each (entry : json -> Webhook.exn + json * list json)
    (items : list json) : Webhook.exn + list json * list json :=
  match items with
  | [] => inr ([], [])
  | x :: rest =>
      e ← entry x;
      r ← format_each entry rest;
      inr (e.1 :: r.1, e.2 ++ r.2)
  end.

Section Server.
(** [str(v)] for a value that is not a string, as an f-string prints it. *)
Variable str : json -> string.
(** [json.dumps(result, indent=2)]. *)
Variable dumps : json -> string.
(** What [d[:3]] raises for a dict [d]: [TypeError], or [KeyError] from
    Python 3.12 on, where a slice can be hashed. *)
Variable dict_slice_error : Webhook.exn.

(** A value inside an f-string. *)
Definition fmt (v : json) : string :=
  match v with
  | JStr s => s
  | _ => str v
  end.

(** The body of the loop of [_format_flights]. *)
Definition flight_entry (deal : json) : Webhook.exn + json * list json :=
  d ← as_dict deal;
  let flight :=
    [ ("airline", field d "airlineName" (JStr ""));
      ("route", field d "route" (JStr ""));
      ("cabin", field d "cabin" (JStr ""));
      ("departure", JStr (fmt (field d "departureDate" (JStr "")) +:+ " at "
                          +:+ fmt (field d "departureTime" (JStr ""))));
      ("arrival", field d "arrivalTime" (JStr ""));
      ("duration", field d "duration" (JStr ""));
      ("stops", field d "stopsDisplay" (JStr ""));
      ("price", field d "price" (JStr ""));
      ("original_price", field d "originalPrice" (JStr ""));
      ("savings", field d "savings" (JStr ""));
      ("deal_score", field d "dealScore" (JNum 0));
      ("urgency", field d "urgency" (JStr ""));
      ("image_url", field d "imageUrl" (JStr "")) ] in
  inr (JObj flight,
       if truthy (field d "imageUrl" JNull)
       then [JObj [ ("url", field d "imageUrl" JNull);
                    ("caption", JStr (fmt (field flight "airline" JNull) +:+ " - "
                                      +:+ fmt (field flight "route" JNull))) ]]
       else []).

(** [_format_flights]. *)
Definition _format_flights (result : json) : Webhook.exn + json :=
  deals ← Webhook.get result "deals" (JArr []);
  if negb (truthy deals)
  then inr (JObj [ ("formatted", JStr "No flights found.");
                   ("raw", result);
                   ("images", JArr []) ])
  else
    items ← Webhook.iterate deals;
    r ← format_each flight_entry items;
    inr (JObj [ ("type", JStr "flight_results");
                ("count", JNum (inject_Z (Z.of_nat (length r.1))));
                ("flights", JArr r.1);
                ("images", JArr (Py.slice_to 3 r.2)) ]).

(** The body of the loop of [_format_hotels]. *)
Definition hotel_entry (h : json) : Webhook.exn + json * list json :=
  d ← as_dict h;
  let hotel :=
    [ ("name", field d "name" (JStr ""));
      ("brand", field d "brand" (JStr ""));
      ("location", field d "city" (JStr ""));
      ("rating", field d "ratingDisplay" (JStr ""));
      ("reviews", field d "reviewsDisplay" (JStr ""));
      ("stars", field d "starsDisplay" (JStr ""));
      ("price_per_night", field d "pricePerNight" (JStr ""));
      ("original_price", field d "originalPrice" (JStr ""));
      ("total_price", field d "totalPrice" (JStr ""));
      ("savings", field d "savings" (JStr ""));
      ("amenities", field d "amenitiesDisplay" (JStr ""));
      ("room_type", field d "roomType" (JStr ""));
      ("image_url", field d "imageUrl" (JStr "")) ] in
  inr (JObj hotel,
       if truthy (field d "imageUrl" JNull)
       then [JObj [ ("url", field d "imageUrl" JNull);
                    ("caption", JStr (fmt (field hotel "name" JNull) +:+ " - "
                                      +:+ fmt (field hotel "location" JNull))) ]]
       else []).

(** [_format_hotels]. *)
Definition _format_hotels (result : json) : Webhook.exn + json :=
  hotels_data ← Webhook.get result "hotels" (JArr []);
  if negb (truthy hotels_data)
  then inr (JObj [ ("formatted", JStr "No hotels found.");
                   ("raw", result);
                   ("images", JArr []) ])
  else
    items ← Webhook.iterate hotels_data;
    r ← format_each hotel_entry items;
    inr (JObj [ ("type", JStr "hotel_results");
                ("count", JNum (inject_Z (Z.of_nat (length r.1))));
                ("hotels", JArr r.1);
                ("images", JArr (Py.slice_to 3 r.2)) ]).

(** The body of the loop of [_format_restaurants].  The Michelin stars
    are compared with 0 only for a restaurant that has an image. *)
Definition restaurant_entry (r : json) : Webhook.exn + json * list json :=
  d ← as_dict r;
  let restaurant :=
    [ ("name", field d "name" (JStr ""));
      ("cuisine", field d "cuisineDisplay" (JStr ""));
      ("location", field d "neighborhood" (JStr ""));
      ("city", field d "city" (JStr ""));
      ("rating", field d "ratingDisplay" (JStr ""));
      ("reviews", field d "reviewsDisplay" (JStr ""));
      ("price_range", field d "priceRange" (JStr ""));
      ("michelin_stars", field d "michelinStars" (JNum 0));
      ("michelin_display", field d "michelinDisplay" (JStr ""));
      ("description", field d "description" (JStr ""));
      ("highlights", field d "highlightsDisplay" (JStr ""));
      ("available_times", field d "availableTimes" (JArr []));
      ("image_url", field d "imageUrl" (JStr "")) ] in
  if truthy (field d "imageUrl" JNull)
  then
    starred ← positive (field d "michelinStars" (JNum 0));
    let michelin :=
      if starred : bool
      then " (" +:+ fmt (field d "michelinStars" (JNum 0)) +:+ "★ Michelin)"
      else "" in
    inr (JObj restaurant,
         [JObj [ ("url", field d "imageUrl" JNull);
                 ("caption", JStr (fmt (field restaurant "name" JNull) +:+ michelin)) ]])
  else inr (JObj restaurant, []).

(** [_format_restaurants]. *)
Definition _format_restaurants (result : json) : Webhook.exn + json :=
  restaurants_data ← Webhook.get result "restaurants" (JArr []);
  if negb (truthy restaurants_data)
  then inr (JObj [ ("formatted", JStr "No restaurants found.");
                   ("raw", result);
                   ("images", JArr []) ])
  else
    items ← Webhook.iterate restaurants_data;
    r ← format_each restaurant_entry items;
    inr (JObj [ ("type", JStr "restaurant_results");
                ("count", JNum (inject_Z (Z.of_nat (length r.1))));
                ("restaurants", JArr r.1);
                ("images", JArr (Py.slice_to 3 r.2)) ]).

(** [_response] and [_error]. *)
Definition _response (request_id result : json) : json :=
  JObj [ ("jsonrpc", JStr "2.0"); ("id", request_id); ("result", result) ].

Definition _error (request_id : json) (code : Z) (message : string) : json :=
  JObj [ ("jsonrpc", JStr "2.0"); ("id", request_id);
         ("error", JObj [ ("code", JNum (inject_Z code)); ("message", JStr message) ]) ].

(** The tool coroutines [_call_tool] awaits, each applied to its keyword
    arguments. *)
Record Tools : Type := {
  search_flights_tool : list (string * json) -> Webhook.exn + json;
  search_hotels_tool : list (string * json) -> Webhook.exn + json;
  get_flight_widget_data_tool : list (string * json) -> Webhook.exn + json;
  get_hotel_widget_data_tool : list (string * json) -> Webhook.exn + json;
  search_restaurants_tool : list (string * json) -> Webhook.exn + json;
  get_restaurant_widget_data_tool : list (string * json) -> Webhook.exn + json;
  send_flight_to_whatsapp : json -> json -> Webhook.exn + json;
  send_hotel_to_whatsapp : json -> json -> Webhook.exn + json;
  send_restaurant_to_whatsapp : json -> json -> Webhook.exn + json
}.

(** [{"<key>": result.get(all, []), "count": len(result.get(all, []))}]. *)
Definition recommended (key all : string) (result : json) : Webhook.exn + json :=
  items ← Webhook.get result all (JArr []);
  count ← len items;
  inr (JObj [ (key, items); ("count", count) ]).

(** [_call_tool]. *)
Definition _call_tool (tools : Tools) (tool_name arguments : json)
  : Webhook.exn + json :=
  if Webhook.is_str tool_name "search_flights" then
    a ← as_dict arguments;
    result ← search_flights_tool tools
      [ ("origin", field a "origin" (JStr "JFK"));
        ("destination", field a "destination" (JStr "CDG"));
        ("departure_date", field a "departure_date" JNull);
        ("return_date", field a "return_date" JNull);
        ("adults", field a "adults" (JNum 1));
        ("cabin_class", field a "cabin_class" (JStr "BUSINESS"));
        ("max_results", JNum 10) ];
    _format_flights result
  else if Webhook.is_str tool_name "search_hotels" then
    a ← as_dict arguments;
    result ← search_hotels_tool tools
      [ ("location", field a "location" JNull);
        ("check_in", field a "check_in" JNull);
        ("check_out", field a "check_out" JNull);
        ("guests", field a "guests" (JNum 2));
        ("rooms", JNum 1);
        ("category", field a "category" (JStr "luxury")) ];
    _format_hotels result
  else if Webhook.is_str tool_name "get_flight_deals" then
    a ← as_dict arguments;
    result ← get_flight_widget_data_tool tools
      [ ("max_deals", field a "max_deals" (JNum 3)) ];
    formatted ← recommended "deals" "allDeals" result;
    _format_flights formatted
  else if Webhook.is_str tool_name "get_hotel_recommendations" then
    a ← as_dict arguments;
    result ← get_hotel_widget_data_tool tools
      [ ("max_hotels", field a "max_hotels" (JNum 3)) ];
    formatted ← recommended "hotels" "allHotels" result;
    _format_hotels formatted
  else if Webhook.is_str tool_name "search_restaurants" then
    a ← as_dict arguments;
    result ← search_restaurants_tool tools
      [ ("location", field a "location" (JStr "Paris"));
        ("date", field a "date" JNull);
        ("time", field a "time" (JStr "19:00"));
        ("party_size", field a "party_size" (JNum 2));
        ("cuisine", field a "cuisine" (JStr "all")) ];
    _format_restaurants result
  else if Webhook.is_str tool_name "get_restaurant_recommendations" then
    a ← as_dict arguments;
    result ← get_restaurant_widget_data_tool tools
      [ ("location", field a "location" (JStr "Paris"));
        ("max_restaurants", field a "max_restaurants" (JNum 3)) ];
    formatted ← recommended "restaurants" "allRestaurants" result;
    _format_restaurants formatted
  else if Webhook.is_str tool_name "send_to_whatsapp" then
    a ← as_dict arguments;
    let phone := field a "phone" JNull in
    let item_type := field a "item_type" JNull in
    let item := field a "item" JNull in
    if Webhook.is_str item_type "flight" then send_flight_to_whatsapp tools phone item
    else if Webhook.is_str item_type "hotel" then send_hotel_to_whatsapp tools phone item
    else if Webhook.is_str item_type "restaurant"
    then send_restaurant_to_whatsapp tools phone item
    else inr (JObj [ ("error", JStr ("Unknown item type: " +:+ fmt item_type)) ])
  else inr (JObj [ ("error", JStr ("Unknown tool: " +:+ fmt tool_name)) ]).

(** [images[:3]] followed by the loop over it. *)
Definition first_three (images : json) : Webhook.exn + list json :=
  match images with
  | JArr items => inr (Py.slice_to 3 items)
  | JStr s =>
      inr (map (fun c => JStr (String c EmptyString))
               (list_ascii_of_string (Py.str_take 3 s)))
  | JObj _ => inl dict_slice_error
  | _ => inl Webhook.TypeError
  end.

Fixpoint image_blocks (images : list json) : Webhook.exn + list json :=
  match images with
  | [] => inr []
  | img :: rest =>
      url ← Webhook.get img "url" (JStr "");
      blocks ← image_blocks rest;
      inr (JObj [ ("type", JStr "image"); ("data", url);
                  ("mimeType", JStr "image/jpeg") ] :: blocks)
  end.

(** The server: [self.tools], one row per tool with its description and
    input schema, and the coroutines behind them. *)
Record MCPServer : Type := {
  tools : list (string * (json * json));
  coroutines : Tools
}.

(** [handle_request]: the response, or [None] where the method returns
    [None]. *)
Definition handle_request (self : MCPServer) (request : json)
  : Webhook.exn + option json :=
  method ← Webhook.get request "method" JNull;
  params ← Webhook.get request "params" (JObj []);
  request_id ← Webhook.get request "id" JNull;
  if Webhook.is_str method "initialize" then
    inr (Some (_response request_id
      (JObj [ ("protocolVersion", JStr "2024-11-05");
              ("capabilities", JObj [ ("tools", JObj []) ]);
              ("serverInfo", JObj [ ("name", JStr "luxury-travel-agent");
                                    ("version", JStr "1.0.0") ]) ])))
  else if Webhook.is_str method "tools/list" then
    let tools_list :=
      map (fun t => JObj [ ("name", JStr t.1); ("description", t.2.1);
                           ("inputSchema", t.2.2) ])
          (tools self) in
    inr (Some (_response request_id (JObj [ ("tools", JArr tools_list) ])))
  else if Webhook.is_str method "tools/call" then
    tool_name ← Webhook.get params "name" JNull;
    arguments ← Webhook.get params "arguments" (JObj []);
    result ← _call_tool (coroutines self) tool_name arguments;
    images ← Webhook.get result "images" (JArr []);
    shown ← first_three images;
    blocks ← image_blocks shown;
    let content := blocks ++ [JObj [ ("type", JStr "text"); ("text", JStr (dumps result)) ]] in
    inr (Some (_response request_id (JObj [ ("content", JArr content) ])))
  else if Webhook.is_str method "notifications/initialized" then inr None
  else inr (Some (_error request_id (-32601) ("Method not found: " +:+ fmt method))).

End Server.

End MCP.

(** ** The interactive cards (src/tools/whatsapp_sender.py,
    [send_flight_card] to [send_cart_summary])

    The pictographs in the texts are the UTF-8 bytes of the source. *)

Module Cards.

Definition nl : string := String (ascii_of_nat 10) EmptyString.

(** [to.replace("+", "").replace(" ", "")]. *)
Definition recipient (to : string) : string :=
  Py.replace " " "" (Py.replace "+" "" to).

(** One reply button. *)
Definition reply_button (id title : string) : json :=
  JObj [ ("type", JStr "reply");
         ("reply", JObj [ ("id", JStr id); ("title", JStr title) ]) ].

(** The message dict of a card with an image header and three buttons. *)
Definition button_message (to : string) (header : option json) (body footer : string)
    (buttons : list json) : json :=
  JObj
    [ ("messaging_product", JStr "whatsapp");
      ("recipient_type", JStr "individual");
      ("to", JStr (recipient to));
      ("type", JStr "interactive");
      ("interactive",
       JObj
         ((("type", JStr "button")
           :: match header with
              | Some link =>
                  [ ("header", JObj [ ("type", JStr "image");
                                      ("image", JObj [ ("link", link) ]) ]) ]
              | None => []
              end)
          ++ [ ("body", JObj [ ("text", JStr body) ]);
               ("footer", JObj [ ("text", JStr footer) ]);
               ("action", JObj [ ("buttons", JArr buttons) ]) ])) ].

Section Senders.
(** [str(v)] for a value that is not a string, as an f-string prints it. *)
Variable str : json -> string.
(** ['⭐' * v]: the stars, or the [TypeError] raised when [v] is not an
    int. *)
Variable stars_times : json -> Webhook.exn + string.
(** [', '.join(times[:3])], or what it raises. *)
Variable join_first_three : json -> Webhook.exn + string.
(** [f"{total:,.2f}"]. *)
Variable format_total : Q -> string.

(** A value inside an f-string. *)
Definition fmt (v : json) : string := MCP.fmt str v.

(** The message [send_flight_card] builds; [booking_url] is not read. *)
Definition flight_card (to : string) (flight : json) : Webhook.exn + json :=
  d ← MCP.as_dict flight;
  let get := MCP.field d in
  let body :=
    "✈️ *" +:+ fmt (get "route" (JStr "Flight Deal")) +:+ "*" +:+ nl +:+ nl
    +:+ "💺 " +:+ fmt (get "cabin" (JStr "Business Class")) +:+ nl
    +:+ "🛫 " +:+ fmt (get "airlineName" (get "airline" (JStr ""))) +:+ nl
    +:+ "📅 " +:+ fmt (get "departureDate" (JStr "")) +:+ " at "
    +:+ fmt (get "departureTime" (JStr "")) +:+ nl
    +:+ "⏱️ " +:+ fmt (get "duration" (JStr "")) +:+ " · "
    +:+ fmt (get "stopsDisplay" (JStr "Nonstop")) +:+ nl +:+ nl
    +:+ "💰 *" +:+ fmt (get "price" (JStr "")) +:+ "* per person" in
  let body :=
    if MCP.truthy (get "savings" JNull)
    then body +:+ nl +:+ "🏷️ " +:+ fmt (get "savings" JNull)
    else body in
  inr (button_message to
         (Some (JStr "https://images.unsplash.com/photo-1436491865332-7a61a109cc05?w=800"))
         body "LuxuryTravel.AI"
         [ reply_button ("book_flight_" +:+ fmt (get "id" (JStr "unknown"))) "Book Now";
           reply_button ("details_flight_" +:+ fmt (get "id" (JStr "unknown"))) "More Details";
           reply_button ("cart_flight_" +:+ fmt (get "id" (JStr "unknown"))) "Add to Cart" ]).

(** The message [send_hotel_card] builds. *)
Definition hotel_card (to : string) (hotel : json) : Webhook.exn + json :=
  d ← MCP.as_dict hotel;
  let get := MCP.field d in
  stars ← stars_times (get "stars" (JNum 5));
  let body :=
    "🏨 *" +:+ fmt (get "name" (JStr "Luxury Hotel")) +:+ "*" +:+ nl +:+ nl
    +:+ "📍 " +:+ fmt (get "city" (JStr "")) +:+ nl
    +:+ "⭐ " +:+ fmt (get "ratingDisplay" (get "rating" (JStr "4.9"))) +:+ "/5 · "
    +:+ fmt (get "reviewsDisplay" (JStr "")) +:+ nl
    +:+ stars +:+ " " +:+ fmt (get "stars" (JNum 5)) +:+ "-Star" +:+ nl +:+ nl
    +:+ "💰 *" +:+ fmt (get "pricePerNight" (get "price_per_night" (JStr "")))
    +:+ "* per night" in
  let body :=
    if MCP.truthy (get "savings" JNull)
    then body +:+ nl +:+ "🏷️ " +:+ fmt (get "savings" JNull)
    else body in
  let body :=
    if MCP.truthy (get "amenitiesDisplay" JNull)
    then body +:+ nl +:+ nl +:+ "✨ " +:+ fmt (get "amenitiesDisplay" JNull)
    else body in
  inr (button_message to
         (Some (get "imageUrl"
                  (get "image_url"
                     (JStr "https://images.unsplash.com/photo-1566073771259-6a8506099945?w=800"))))
         body "LuxuryTravel.AI"
         [ reply_button ("book_hotel_" +:+ fmt (get "id" (JStr "unknown"))) "Book Now";
           reply_button ("details_hotel_" +:+ fmt (get "id" (JStr "unknown"))) "View Rooms";
           reply_button ("cart_hotel_" +:+ fmt (get "id" (JStr "unknown"))) "Add to Cart" ]).

(** The message [send_restaurant_card] builds. *)
Definition restaurant_card (to : string) (restaurant : json) : Webhook.exn + json :=
  d ← MCP.as_dict restaurant;
  let get := MCP.field d in
  let michelin := get "michelinStars" (get "michelin_stars" (JNum 0)) in
  starred ← MCP.positive michelin;
  michelin_text ←
    (if starred : bool
     then stars ← stars_times michelin; inr (stars +:+ " Michelin")
     else inr "");
  let body :=
    "🍽️ *" +:+ fmt (get "name" (JStr "Restaurant")) +:+ "*" +:+ nl +:+ nl
    +:+ "🍴 " +:+ fmt (get "cuisineDisplay" (get "cuisine_display" (JStr ""))) +:+ nl
    +:+ "📍 " +:+ fmt (get "neighborhood" (JStr "")) +:+ nl
    +:+ "⭐ " +:+ fmt (get "ratingDisplay" (get "rating" (JStr "4.8"))) +:+ "/5" +:+ nl
    +:+ michelin_text +:+ nl +:+ nl
    +:+ "💰 " +:+ fmt (get "priceRange" (get "price_range" (JStr "$$$"))) in
  let times := get "availableTimes" (get "available_times" (JArr [])) in
  body ←
    (if MCP.truthy times
     then joined ← join_first_three times;
          inr (body +:+ nl +:+ nl +:+ "🕐 Available: " +:+ joined)
     else inr body);
  inr (button_message to
         (Some (get "imageUrl"
                  (get "image_url"
                     (JStr "https://images.unsplash.com/photo-1414235077428-338989a2e8c0?w=800"))))
         body "LuxuryTravel.AI"
         [ reply_button ("reserve_" +:+ fmt (get "id" (JStr "unknown"))) "Reserve Now";
           reply_button ("menu_" +:+ fmt (get "id" (JStr "unknown"))) "View Menu";
           reply_button ("cart_restaurant_" +:+ fmt (get "id" (JStr "unknown")))
             "Add to Trip" ]).

(** The line of one cart item. *)
Definition cart_line (item : json) : Webhook.exn + string :=
  d ← MCP.as_dict item;
  let get := MCP.field d in
  let item_type := get "type" (JStr "item") in
  if Webhook.is_str item_type "flight"
  then inr ("✈️ " +:+ fmt (get "route" (JStr "")) +:+ " - "
            +:+ fmt (get "price" (JStr "")) +:+ nl)
  else if Webhook.is_str item_type "hotel"
  then inr ("🏨 " +:+ fmt (get "name" (JStr "")) +:+ " - "
            +:+ fmt (get "totalPrice" (JStr "")) +:+ nl)
  else if Webhook.is_str item_type "restaurant"
  then inr ("🍽️ " +:+ fmt (get "name" (JStr "")) +:+ " - Reservation" +:+ nl)
  else inr "".

Fixpoint cart_lines (body : string) (cart_items : list json) : Webhook.exn + string :=
  match cart_items with
  | [] => inr body
  | item :: rest => line ← cart_line item; cart_lines (body +:+ line) rest
  end.

(** The message [send_cart_summary] builds. *)
Definition cart_summary (to : string) (cart_items : list json) (total : Q)
  : Webhook.exn + json :=
  body ← cart_lines ("🛒 *Your Travel Cart*" +:+ nl +:+ nl) cart_items;
  let body := body +:+ nl +:+ "💰 *Total: $" +:+ format_total total +:+ "*" in
  inr (button_message to None body "Ready to complete your booking?"
         [ reply_button "checkout_now" "Checkout";
           reply_button "modify_cart" "Modify Cart";
           reply_button "clear_cart" "Clear Cart" ]).

(** A sender: the message is built, which can raise, and handed to
    [_send_message]. *)
Definition send (self : WhatsApp.WhatsAppClient)
    (network : WhatsApp.Request -> WhatsApp.exchange) (message : Webhook.exn + json)
  : list WhatsApp.Request * (Webhook.exn + (string + WhatsApp.SendResult)) :=
  match message with
  | inl e => ([], inl e)
  | inr msg =>
      let '(sent, r) := WhatsApp._send_message self network msg in (sent, inr r)
  end.

Definition send_flight_card (self : WhatsApp.WhatsAppClient)
    (network : WhatsApp.Request -> WhatsApp.exchange) (to : string) (flight : json)
    (booking_url : option string) :=
  send self network (flight_card to flight).

Definition send_hotel_card (self : WhatsApp.WhatsAppClient)
    (network : WhatsApp.Request -> WhatsApp.exchange) (to : string) (hotel : json) :=
  send self network (hotel_card to hotel).

Definition send_restaurant_card (self : WhatsApp.WhatsAppClient)
    (network : WhatsApp.Request -> WhatsApp.exchange) (to : string) (restaurant : json) :=
  send self network (restaurant_card to restaurant).

Definition send_cart_summary (self : WhatsApp.WhatsAppClient)
    (network : WhatsApp.Request -> WhatsApp.exchange) (to : string)
    (cart_items : list json) (total : Q) :=
  send self network (cart_summary to cart_items total).
End Senders.

End Cards.

(** ** The OAuth token of the Amadeus clients
    (src/tools/widgets/flight_widget.py, [AmadeusClient._get_token];
    [AmadeusHotelClient._get_token] in hotel_widget.py has the same body)

    A datetime is the number of microseconds since 0001-01-01T00:00:00,
    the least one. *)

Module Token.

(** [self._access_token] holds whatever [data["access_token"]] was
    ([JNull] is [None]); [self._token_expiry] is a datetime or [None]. *)
Record AmadeusClient : Type := {
  _access_token : json;
  _token_expiry : option Z
}.

Inductive failure : Type :=
  | HTTPError (err : string)
  | KeyError (key : string)
  | TypeError
  | ValueError
  | OverflowError.

(** [datetime.max], 9999-12-31T23:59:59.999999. *)
Definition datetime_max : Z := 315537897599999999.

(** [timedelta(seconds=n)] for an int, in microseconds: it raises
    [OverflowError] when the days exceed 999999999 in magnitude. *)
Definition timedelta_seconds (n : Z) : failure + Z :=
  if Z.abs (n / 86400) <=? 999999999 then inr (n * 1000000)
  else inl OverflowError.

(** [t + d]: [OverflowError] outside the years 1 to 9999. *)
Definition datetime_add (t d : Z) : failure + Z :=
  if (0 <=? t + d) && (t + d <=? datetime_max) then inr (t + d)
  else inl OverflowError.

(** The value under [expires_in]: an int (a boolean counts as 1 or 0); a
    float [x], given by what [timedelta(seconds=x - 60)] evaluates to, in
    microseconds, or raises; or a value from which 60 cannot be
    subtracted (a string, null, a list, a dict). *)
Inductive expires_in_value : Type :=
  | IntSeconds (n : Z)
  | FloatSeconds (delta : failure + Z)
  | NotANumber.

(** [timedelta(seconds=data["expires_in"] - 60)]. *)
Definition validity (v : expires_in_value) : failure + Z :=
  match v with
  | IntSeconds n => timedelta_seconds (n - 60)
  | FloatSeconds delta => delta
  | NotANumber => inl TypeError
  end.

(** [datetime.now() + timedelta(seconds=data["expires_in"] - 60)]. *)
Definition expiry_at (now : Z) (v : expires_in_value) : failure + Z :=
  match validity v with
  | inl e => inl e
  | inr d => datetime_add now d
  end.

(** What the token request does: it raises ([client.post],
    [raise_for_status] or [response.json]), or it yields [data]: a value
    that is not a dict, or a dict, of which the two keys read may be
    absent. *)
Inductive reply : Type :=
  | PostRaised (err : string)
  | NoDict
  | Data (access_token : option json) (expires_in : option expires_in_value).

(** The test that opens [_get_token]; the clock is read only when a token
    and an expiry are there. *)
Definition cached (self : AmadeusClient) (now : Z) : option json :=
  match _token_expiry self with
  | Some expiry =>
      if MCP.truthy (_access_token self) && (now <? expiry)
      then Some (_access_token self)
      else None
  | None => None
  end.

(** [_get_token]: the client afterwards, whether the token request was
    sent, and the token returned or the exception raised.  [now_check] and
    [now_store] are the two readings of the clock.  The token is stored
    before the expiry is computed. *)
Definition _get_token (self : AmadeusClient) (now_check now_store : Z) (post : reply)
  : AmadeusClient * bool * (failure + json) :=
  match cached self now_check with
  | Some token => (self, false, inr token)
  | None =>
      match post with
      | PostRaised err => (self, true, inl (HTTPError err))
      | NoDict => (self, true, inl TypeError)
      | Data None _ => (self, true, inl (KeyError "access_token"))
      | Data (Some token) expires_in =>
          let stored :=
            {| _access_token := token; _token_expiry := _token_expiry self |} in
          match expires_in with
          | None => (stored, true, inl (KeyError "expires_in"))
          | Some v =>
              match expiry_at now_store v with
              | inl e => (stored, true, inl e)
              | inr expiry =>
                  ({| _access_token := token; _token_expiry := Some expiry |},
                   true, inr token)
              end
          end
      end
  end.

End Token.

(** ** Notions used to state the properties of the formatters *)

Module Obs.

Definition is_dict (v : json) : Prop := exists fields, v = JObj fields.

(** The image of a record: its [imageUrl], when that is there and not
    empty. *)
Definition image_url (v : json) : option json :=
  match v with
  | JObj d =>
      if MCP.truthy (MCP.field d "imageUrl" JNull)
      then Some (MCP.field d "imageUrl" JNull)
      else None
  | _ => None
  end.

(** The [url] of an entry of [images]. *)
Definition url_of (img : json) : json :=
  match img with
  | JObj fields => MCP.field fields "url" JNull
  | _ => JNull
  end.

(** A record whose [michelinStars] compare with a number: a number or a
    boolean, or absent. *)
Definition stars_compare (v : json) : Prop :=
  match v with
  | JObj d =>
      match MCP.field d "michelinStars" (JNum 0) with
      | JNum _ | JBool _ => True
      | _ => False
      end
  | _ => False
  end.

(** The tools whose result [_call_tool] passes through a formatter. *)
Definition formatted_tools : list string :=
  [ "search_flights"; "search_hotels"; "get_flight_deals";
    "get_hotel_recommendations"; "search_restaurants";
    "get_restaurant_recommendations" ].

(** An image block of a response. *)
Definition image_block (b : json) : Prop :=
  exists url,
    b = JObj [ ("type", JStr "image"); ("data", url); ("mimeType", JStr "image/jpeg") ].

(** The ids of the reply buttons of a message. *)
Definition reply_id (button : json) : json :=
  match button with
  | JObj b =>
      match MCP.field b "reply" JNull with
      | JObj r => MCP.field r "id" JNull
      | _ => JNull
      end
  | _ => JNull
  end.

Definition button_ids (msg : json) : list json :=
  match msg with
  | JObj m =>
      match MCP.field m "interactive" JNull with
      | JObj i =>
          match MCP.field i "action" JNull with
          | JObj a =>
              match MCP.field a "buttons" JNull with
              | JArr buttons => reply_id <$> buttons
              | _ => []
              end
          | _ => []
          end
      | _ => []
      end
  | _ => []
  end.

(** The message the webhook receives when the button [button_id] is
    pressed, as the handler reads it. *)
Definition click (from_number button_id : json) : json :=
  JObj [ ("from", from_number);
         ("type", JStr "interactive");
         ("interactive",
          JObj [ ("type", JStr "button_reply");
                 ("button_reply", JObj [ ("id", button_id) ]) ]) ].

(** A server whose flight search returns one deal; the other tools
    raise. *)
Definition sample_tools : MCP.Tools :=
  {| MCP.search_flights_tool := fun _ =>
       inr (JObj [ ("success", JBool true); ("count", JNum 1);
                   ("deals", JArr [ JObj [ ("route", JStr "JFK -> CDG");
                                           ("imageUrl", JStr "https://example.org/cdg.jpg") ] ]) ]);
     MCP.search_hotels_tool := fun _ => inl Webhook.TypeError;
     MCP.get_flight_widget_data_tool := fun _ => inl Webhook.TypeError;
     MCP.get_hotel_widget_data_tool := fun _ => inl Webhook.TypeError;
     MCP.search_restaurants_tool := fun _ => inl Webhook.TypeError;
     MCP.get_restaurant_widget_data_tool := fun _ => inl Webhook.TypeError;
     MCP.send_flight_to_whatsapp := fun _ _ => inl Webhook.TypeError;
     MCP.send_hotel_to_whatsapp := fun _ _ => inl Webhook.TypeError;
     MCP.send_restaurant_to_whatsapp := fun _ _ => inl Webhook.TypeError |}.

Definition sample_server : MCP.MCPServer :=
  {| MCP.tools := []; MCP.coroutines := sample_tools |}.

(** A call of the flight search. *)
Definition sample_call : list (string * json) :=
  [ ("jsonrpc", JStr "2.0"); ("id", JNum 7); ("method", JStr "tools/call");
    ("params", JObj [ ("name", JStr "search_flights");
                      ("arguments", JObj [ ("origin", JStr "JFK") ]) ]) ].

End Obs.

(** * Properties *)

(** ** Lists: sorting and slicing keep what the results satisfy *)

Section SortFacts.
Context {A : Type} (leb : A -> A -> bool).

Lemma insert_sorted_perm (x : A) (l : list A) :
  Py.insert_sorted leb x l ≡ₚ x :: l.
Proof.
  induction l as [|y l IH]; simpl; [done|].
  destruct (leb x y); [done|].
  rewrite IH. apply Permutation_swap.
Qed.

Lemma sort_by_perm (l : list A) : Py.sort_by leb l ≡ₚ l.
Proof.
  induction l as [|x l IH]; simpl; [done|].
  rewrite insert_sorted_perm. by rewrite IH.
Qed.

Lemma sort_by_length (l : list A) : length (Py.sort_by leb l) = length l.
Proof. by rewrite sort_by_perm. Qed.

Lemma sort_by_Forall (P : A -> Prop) (l : list A) :
  Forall P l -> Forall P (Py.sort_by leb l).
Proof. intros H. by rewrite sort_by_perm. Qed.
End SortFacts.

Lemma slice_to_sublist {A} (n : Z) (l : list A) : Py.slice_to n l `sublist_of` l.
Proof. unfold Py.slice_to. destruct (0 <=? n); apply sublist_take. Qed.

Lemma sublist_Forall {A} (P : A -> Prop) (l1 l2 : list A) :
  l1 `sublist_of` l2 -> Forall P l2 -> Forall P l1.
Proof.
  rewrite !Forall_forall. intros Hs H x Hx. apply H.
  by eapply elem_of_sublist.
Qed.

Lemma slice_to_Forall {A} (P : A -> Prop) (n : Z) (l : list A) :
  Forall P l -> Forall P (Py.slice_to n l).
Proof. intros H. unfold Py.slice_to. destruct (0 <=? n); by apply Forall_take. Qed.

Lemma slice_to_length_pos {A} (n : Z) (l : list A) :
  1 <= n -> (0 < length l)%nat -> (0 < length (Py.slice_to n l))%nat.
Proof.
  intros Hn Hl. unfold Py.slice_to.
  destruct (Z.leb_spec 0 n); [|lia].
  rewrite length_take. lia.
Qed.

Lemma slice_to_short {A} (n : Z) (l : list A) :
  Z.of_nat (length l) <= n -> Py.slice_to n l = l.
Proof.
  intros Hn. unfold Py.slice_to.
  destruct (Z.leb_spec 0 n); [|lia].
  apply take_ge. lia.
Qed.

Lemma omap_Forall {A B} (f : A -> option B) (P : B -> Prop) (l : list A) :
  (forall a b, f a = Some b -> P b) -> Forall P (omap f l).
Proof.
  intros Hf. induction l as [|a l IH]; simpl; [constructor|].
  destruct (f a) eqn:E; [constructor; eauto | done].
Qed.

Lemma imap_Forall {A B} (f : nat -> A -> B) (P : B -> Prop) (l : list A) :
  (forall i a, P (f i a)) -> Forall P (imap f l).
Proof.
  intros Hf. revert f Hf.
  induction l as [|a l IH]; intros f Hf; simpl; constructor; auto.
  apply IH. intros i b. apply Hf.
Qed.

(** ** Scores and urgency *)

Lemma clamp_score_range (n : Z) : 1 <= clamp_score n <= 10.
Proof. unfold clamp_score. lia. Qed.

Lemma flight_score_range (price : Q) (cabin : Flight.CabinClass) (stops : Z) :
  1 <= Flight._calculate_deal_score price cabin stops <= 10.
Proof. apply clamp_score_range. Qed.

Lemma hotel_score_range (price rating : Q) :
  1 <= Hotel._calculate_deal_score price rating <= 10.
Proof. apply clamp_score_range. Qed.

Lemma flight_urgency_table (s : Z) (p : Q) :
  Flight.urgency_value (Flight._determine_urgency s p) = Spec.urgency s.
Proof.
  unfold Flight._determine_urgency, Spec.urgency.
  repeat case_match; reflexivity.
Qed.

Lemma hotel_urgency_table (s : Z) :
  Hotel.urgency_value (Hotel._determine_urgency s) = Spec.urgency s.
Proof.
  unfold Hotel._determine_urgency, Spec.urgency.
  repeat case_match; reflexivity.
Qed.

Lemma urgency_monotone (s t : Z) :
  s <= t -> Spec.tier_rank (Spec.urgency s) <= Spec.tier_rank (Spec.urgency t).
Proof.
  intros H. unfold Spec.urgency.
  repeat (case_match; try lia); vm_compute; congruence.
Qed.

(** The base score of the code is the class score of the table. *)
Lemma base_score_class (price : Q) (cabin : Flight.CabinClass) :
  Spec.class_score price cabin = inject_Z (Flight.base_score price cabin).
Proof.
  unfold Spec.class_score, Flight.base_score.
  destruct cabin; simpl; unfold inject_Z;
    repeat (case_match; try congruence); reflexivity.
Qed.

(** Truncating after clamping a half-integer is clamping its truncation. *)
Lemma truncate_clamp_halves (b s : Z) :
  Spec.truncate (Spec.clamp (inject_Z b - (5 # 10) * inject_Z s)%Q)
  = clamp_score (Py.int_of_float (inject_Z b - inject_Z s * (1 # 2))%Q).
Proof.
  unfold Spec.clamp, Qle_bool, Spec.truncate, Py.int_of_float, clamp_score.
  repeat case_match;
    repeat match goal with
           | H : (_ <=? _) = true |- _ => apply Z.leb_le in H
           | H : (_ <=? _) = false |- _ => apply Z.leb_gt in H
           end;
    cbn [Qnum Qden Qminus Qplus Qopp Qmult inject_Z] in *;
    rewrite ?Z.mul_1_r, ?Pos.mul_1_l in *;
    change (Z.pos (10 * 1)) with 10 in *; change (Z.pos (1 * 2)) with 2 in *;
    change (Z.pos 1) with 1 in *; change (Z.pos 10) with 10 in *;
    rewrite ?Z.quot_1_r;
    Z.to_euclidean_division_equations; lia.
Qed.

(** C4: the flight deal score of the code is the score the specification
    describes -- the class score 9/7/5/3 of the cabin's thresholds, less
    0.5 per stop, clamped to [1,10] and truncated -- for every price,
    every cabin class and every stop count (in particular for every price
    and stop count that is not negative). *)
Theorem flight_score_as_specified (price : Q) (cabin : Flight.CabinClass) (stops : Z) :
  Flight._calculate_deal_score price cabin stops = Spec.flight_score price cabin stops.
Proof.
  unfold Flight._calculate_deal_score, Spec.flight_score.
  rewrite base_score_class. symmetry. apply truncate_clamp_halves.
Qed.

(** ** The deduplication loop *)

Lemma dedupe_loop (l : list Hotel.HotelResult) (seen : gset string)
    (acc : list Hotel.HotelResult) :
  (foldl Hotel.dedupe_step (seen, acc) l).2 = acc ++ Inv.dedupe_from seen l.
Proof.
  revert seen acc. induction l as [|h t IH]; intros seen acc; simpl.
  - by rewrite app_nil_r.
  - destruct (decide (Hotel.name_key h ∈ seen)); rewrite IH; [done|].
    by rewrite <- app_assoc.
Qed.

Lemma dedupe_recursive (l : list Hotel.HotelResult) :
  Hotel.dedupe l = Inv.dedupe_from ∅ l.
Proof. unfold Hotel.dedupe. by rewrite dedupe_loop. Qed.

Lemma dedupe_from_sublist (l : list Hotel.HotelResult) (seen : gset string) :
  Inv.dedupe_from seen l `sublist_of` l.
Proof.
  revert seen. induction l as [|h t IH]; intros seen; simpl; [done|].
  destruct (decide _); [apply sublist_cons | apply sublist_skip]; apply IH.
Qed.

Lemma dedupe_from_fresh (l : list Hotel.HotelResult) (seen : gset string) :
  Forall (fun h => Hotel.name_key h ∉ seen) (Inv.dedupe_from seen l).
Proof.
  revert seen. induction l as [|h t IH]; intros seen; simpl; [constructor|].
  destruct (decide _) as [|Hn]; [apply IH|].
  constructor; [done|].
  eapply Forall_impl; [apply IH|]. simpl. intros x Hx. set_solver.
Qed.

Lemma dedupe_from_NoDup (l : list Hotel.HotelResult) (seen : gset string) :
  NoDup (Hotel.name_key <$> Inv.dedupe_from seen l).
Proof.
  revert seen. induction l as [|h t IH]; intros seen; simpl; [constructor|].
  destruct (decide _) as [|Hn]; [apply IH|].
  rewrite fmap_cons. constructor; [|apply IH].
  intros (x & Hk & Hx)%list_elem_of_fmap.
  pose proof (dedupe_from_fresh t ({[Hotel.name_key h]} ∪ seen)) as Hf.
  rewrite Forall_forall in Hf. specialize (Hf x Hx). set_solver.
Qed.

Lemma dedupe_from_first (k : string) (l : list Hotel.HotelResult) (seen : gset string) :
  k ∉ seen ->
  Inv.first_with_key k (Inv.dedupe_from seen l) = Inv.first_with_key k l.
Proof.
  revert seen. induction l as [|h t IH]; intros seen Hk; simpl; [done|].
  destruct (decide (Hotel.name_key h ∈ seen)) as [Hin|Hn].
  - rewrite decide_False by (intros <-; done). by apply IH.
  - simpl. destruct (decide (Hotel.name_key h = k)); [done|].
    apply IH. apply not_elem_of_union. split; [|done].
    by apply not_elem_of_singleton.
Qed.

Lemma first_with_key_unique (l : list Hotel.HotelResult) (h : Hotel.HotelResult) :
  NoDup (Hotel.name_key <$> l) -> h ∈ l ->
  Inv.first_with_key (Hotel.name_key h) l = Some h.
Proof.
  induction l as [|x t IH]; intros Hnd Hin; [by apply elem_of_nil in Hin|].
  rewrite fmap_cons in Hnd. apply NoDup_cons in Hnd as [Hx Hnd].
  simpl. apply elem_of_cons in Hin as [->|Hin].
  - by rewrite decide_True.
  - rewrite decide_False; [by apply IH|].
    intros Heq. apply Hx. apply list_elem_of_fmap. by exists h.
Qed.

Lemma dedupe_length_pos (l : list Hotel.HotelResult) :
  (0 < length l)%nat -> (0 < length (Hotel.dedupe l))%nat.
Proof.
  rewrite dedupe_recursive. destruct l as [|h t]; simpl; [lia|].
  intros _. rewrite decide_False by set_solver. simpl. lia.
Qed.

(** ** What a search returns comes from a parsed offer or from the mock
    generator *)

Lemma flight_candidates_Forall (P : Flight.FlightDeal -> Prop)
    (self : Flight.FlightWidget) (now jitter : Z) (params : Flight.FlightSearchParams) :
  (forall offer d, Flight.parse_offer now params offer = Some d -> P d) ->
  Forall P (Flight._get_mock_deals now jitter params) ->
  Forall P (Flight.search_flights self now jitter params).
Proof.
  intros Hparse Hmock. unfold Flight.search_flights.
  apply slice_to_Forall, sort_by_Forall.
  assert (forall rs, Forall P (Flight._parse_amadeus_results now rs params)) as Hrs.
  { intros rs. by apply omap_Forall. }
  destruct (Flight.amadeus self) as [client|]; [|done].
  destruct (client params) as [rs|e]; [|done].
  specialize (Hrs rs). by destruct (Flight._parse_amadeus_results now rs params).
Qed.

Lemma hotel_candidates_Forall (P : Hotel.HotelResult -> Prop)
    (self : Hotel.HotelWidget) (params : Hotel.HotelSearchParams) :
  (forall offer h, Hotel.parse_offer params offer = Some h -> P h) ->
  Forall P (Hotel._get_mock_hotels params) ->
  Forall P (Hotel.candidates self params).
Proof.
  intros Hparse Hmock. unfold Hotel.candidates.
  assert (forall rs, Forall P (Hotel._parse_amadeus_results rs params)) as Hrs.
  { intros rs. by apply omap_Forall. }
  destruct (Hotel.amadeus self) as [client|]; [|done].
  destruct (client params) as [rs|e]; [|done].
  specialize (Hrs rs). by destruct (Hotel._parse_amadeus_results rs params).
Qed.

Lemma hotel_search_Forall (P : Hotel.HotelResult -> Prop)
    (self : Hotel.HotelWidget) (params : Hotel.HotelSearchParams) :
  Forall P (Hotel.candidates self params) ->
  Forall P (Hotel.search_hotels self params).
Proof.
  intros H. unfold Hotel.search_hotels.
  apply slice_to_Forall, sort_by_Forall. rewrite dedupe_recursive.
  eapply sublist_Forall; [apply dedupe_from_sublist | exact H].
Qed.

(** The fields of a parsed flight offer that the claims speak of. *)
Lemma parse_offer_fields (now : Z) (params : Flight.FlightSearchParams)
    (offer : Flight.Offer) (d : Flight.FlightDeal) :
  Flight.parse_offer now params offer = Some d ->
  let s := Flight._calculate_deal_score (Flight.price d) (Flight.cabin_class params)
             (Flight.stops d) in
  Flight.deal_score d = s
  /\ Flight.urgency d = Flight._determine_urgency s (Flight.price d)
  /\ Flight.original_price d
     = (if 7 <=? s then Some (Flight.price d * (135 # 100))%Q else None)
  /\ Flight.savings_percent d = (if 7 <=? s then Some 26 else None)
  /\ Flight.is_mistake_fare d = (9 <=? s)
  /\ Flight.source d = "amadeus"
  /\ Flight.id d = "amadeus_" +:+ default "" (Flight.offer_id offer).
Proof.
  unfold Flight.parse_offer. intros H.
  destruct (float_of 0 (Flight.price_total offer)) as [price|]; [|done].
  simpl in H.
  destruct (Flight.itineraries offer) as [[|it its]|]; simplify_eq/=; done.
Qed.

(** The same for a parsed hotel offer. *)
Lemma parse_hotel_offer_fields (params : Hotel.HotelSearchParams)
    (offer : Hotel.Offer) (h : Hotel.HotelResult) :
  Hotel.parse_offer params offer = Some h ->
  let s := Hotel._calculate_deal_score (Hotel.price_per_night h) (Hotel.rating h) in
  Hotel.deal_score h = s
  /\ Hotel.urgency h = Hotel._determine_urgency s
  /\ Hotel.original_price h
     = (if 7 <=? s then Some (Hotel.price_per_night h * (125 # 100))%Q else None)
  /\ Hotel.savings_percent h = (if 7 <=? s then Some 20 else None)
  /\ Hotel.source h = "amadeus"
  /\ Hotel.id h
     = "amadeus_" +:+ default "" (Hotel.hotelId (default Hotel.empty_info (Hotel.hotel offer))).
Proof.
  unfold Hotel.parse_offer. intros H.
  destruct (Hotel.offers offer) as [[|e es]|]; simplify_option_eq; done.
Qed.

(** ** Deal scores and urgency of the results *)

Lemma parsed_flight_scored (now : Z) (params : Flight.FlightSearchParams)
    (offer : Flight.Offer) (d : Flight.FlightDeal) :
  Flight.parse_offer now params offer = Some d -> Inv.flight_scored d.
Proof.
  intros (Hs & Hu & _)%parse_offer_fields. unfold Inv.flight_scored.
  rewrite Hu, Hs. split; [apply flight_score_range | apply flight_urgency_table].
Qed.

Lemma parsed_hotel_scored (params : Hotel.HotelSearchParams)
    (offer : Hotel.Offer) (h : Hotel.HotelResult) :
  Hotel.parse_offer params offer = Some h -> Inv.hotel_scored h.
Proof.
  intros (Hs & Hu & _)%parse_hotel_offer_fields. unfold Inv.hotel_scored.
  rewrite Hu, Hs. split; [apply hotel_score_range | apply hotel_urgency_table].
Qed.

(** On the paths the search uses -- Amadeus offers and the mock
    generators -- every result has a score between 1 and 10 and the
    urgency of the table. *)
Lemma search_results_scored :
  (forall self now jitter params,
      Forall Inv.flight_scored (Flight.search_flights self now jitter params))
  /\ (forall self params,
      Forall Inv.hotel_scored (Hotel.search_hotels self params)).
Proof.
  split.
  - intros. apply flight_candidates_Forall; [apply parsed_flight_scored|].
    constructor; [|constructor]. split; [simpl; lia | reflexivity].
  - intros. apply hotel_search_Forall, hotel_candidates_Forall;
      [apply parsed_hotel_scored|].
    apply imap_Forall. intros i a. split; [simpl; lia | reflexivity].
Qed.

(** C1: the curated path leaves the scale.  A curated record priced 200
    with rating 5.0 gets the deal score 11, and one priced 400 with rating
    4.5 gets the deal score 9 with urgency "high", where the table gives
    "critical" for 9: the boost is added after the clamp and after the
    urgency was chosen. *)
Theorem curated_score_leaves_scale :
  Hotel.deal_score <$> Hotel.parse_curated Inv.paris_stay (Inv.curated 200 5 None)
  = Some 11
  /\ Hotel.deal_score <$> Hotel.parse_curated Inv.paris_stay (Inv.curated 400 (45 # 10) None)
     = Some 9
  /\ (fun h => Hotel.urgency_value (Hotel.urgency h))
       <$> Hotel.parse_curated Inv.paris_stay (Inv.curated 400 (45 # 10) None)
     = Some "high"
  /\ Spec.urgency 9 = "critical".
Proof. split_and!; vm_compute; reflexivity. Qed.

(** ** Savings and original price *)

Lemma parsed_flight_savings (now : Z) (params : Flight.FlightSearchParams)
    (offer : Flight.Offer) (d : Flight.FlightDeal) :
  Flight.parse_offer now params offer = Some d ->
  Inv.flight_savings_agree d /\ Inv.flight_markup_exact d.
Proof.
  intros (Hs & _ & Ho & Hp & _)%parse_offer_fields.
  unfold Inv.flight_savings_agree, Inv.flight_markup_exact.
  rewrite Ho, Hp, Hs.
  destruct (Z.leb_spec 7 (Flight._calculate_deal_score (Flight.price d)
                            (Flight.cabin_class params) (Flight.stops d))).
  - repeat split; intros; simplify_eq; eauto.
  - repeat split; intros; simplify_eq; try lia;
      repeat match goal with H : is_Some None |- _ => by destruct H end.
Qed.

Lemma parsed_hotel_savings (params : Hotel.HotelSearchParams)
    (offer : Hotel.Offer) (h : Hotel.HotelResult) :
  Hotel.parse_offer params offer = Some h ->
  Inv.hotel_savings_agree h /\ Inv.hotel_markup_exact h.
Proof.
  intros (Hs & _ & Ho & Hp & _)%parse_hotel_offer_fields.
  unfold Inv.hotel_savings_agree, Inv.hotel_markup_exact.
  rewrite Ho, Hp, Hs.
  destruct (Z.leb_spec 7 (Hotel._calculate_deal_score (Hotel.price_per_night h)
                            (Hotel.rating h))).
  - repeat split; intros; simplify_eq; eauto.
  - repeat split; intros; simplify_eq; try lia;
      repeat match goal with H : is_Some None |- _ => by destruct H end.
Qed.

Lemma mock_flight_savings (now jitter : Z) (params : Flight.FlightSearchParams) :
  Forall (fun d => Inv.flight_savings_agree d /\ Inv.flight_markup_truncated d)
         (Flight._get_mock_deals now jitter params).
Proof.
  repeat constructor; simpl; intros; eauto; lia.
Qed.

Lemma mock_hotel_savings (params : Hotel.HotelSearchParams) :
  Forall (fun h => Inv.hotel_savings_agree h /\ Inv.hotel_markup_truncated h)
         (Hotel._get_mock_hotels params).
Proof.
  apply imap_Forall. intros i a.
  repeat split; simpl; intros; eauto; lia.
Qed.

(** C2 (as the code has it): every result parsed from an Amadeus offer has
    its savings percent set exactly when its original price is set, and
    exactly when its deal score is 7 or more, and the original price is
    then the price times 1.35 (flights) or the nightly price times 1.25
    (hotels); every mock result has all three, with the original price
    cut to the integer part of that product; so the three conditions go
    together for every result of a flight or hotel search.  A result
    parsed from a curated record has the original price and the savings
    percent of the record, whatever its score. *)
Theorem savings_follow_score :
  (forall now results params,
      Forall (fun d => Inv.flight_savings_agree d /\ Inv.flight_markup_exact d)
             (Flight._parse_amadeus_results now results params))
  /\ (forall results params,
      Forall (fun h => Inv.hotel_savings_agree h /\ Inv.hotel_markup_exact h)
             (Hotel._parse_amadeus_results results params))
  /\ (forall now jitter params,
      Forall (fun d => Inv.flight_savings_agree d /\ Inv.flight_markup_truncated d)
             (Flight._get_mock_deals now jitter params))
  /\ (forall params,
      Forall (fun h => Inv.hotel_savings_agree h /\ Inv.hotel_markup_truncated h)
             (Hotel._get_mock_hotels params))
  /\ (forall self now jitter params,
      Forall Inv.flight_savings_agree (Flight.search_flights self now jitter params))
  /\ (forall self params,
      Forall Inv.hotel_savings_agree (Hotel.search_hotels self params))
  /\ (forall params hotel_data h,
      Hotel.parse_curated params hotel_data = Some h ->
      Hotel.original_price h = Hotel.cur_originalPrice hotel_data
      /\ Hotel.savings_percent h = Hotel.cur_savingsPercent hotel_data).
Proof.
  split; [|split; [|split; [|split; [|split; [|split]]]]].
  - intros. apply omap_Forall. apply parsed_flight_savings.
  - intros. apply omap_Forall. apply parsed_hotel_savings.
  - apply mock_flight_savings.
  - apply mock_hotel_savings.
  - intros. apply flight_candidates_Forall.
    + intros offer d H. by apply parsed_flight_savings in H as [? _].
    + eapply Forall_impl; [apply mock_flight_savings|]. by intros d [? _].
  - intros. apply hotel_search_Forall, hotel_candidates_Forall.
    + intros offer h H. by apply parsed_hotel_savings in H as [? _].
    + eapply Forall_impl; [apply mock_hotel_savings|]. by intros h [? _].
  - intros params hotel_data h H. unfold Hotel.parse_curated in H.
    by simplify_option_eq.
Qed.

(** The curated record with a savings percent of 15 and no original
    price. *)
Lemma savings_follow_score_witness :
  exists h,
    Hotel.parse_curated Inv.paris_stay (Inv.curated 900 4 (Some 15)) = Some h
    /\ Hotel.original_price h = None
    /\ Hotel.savings_percent h = Some 15.
Proof.
  eexists. split; [vm_compute; reflexivity|].
  destruct savings_follow_score as (_ & _ & _ & _ & _ & _ & H).
  apply (H Inv.paris_stay (Inv.curated 900 4 (Some 15))).
  vm_compute. reflexivity.
Defined.

(** C2 fails as stated: a curated record with a savings percent and no
    original price keeps both as they are, whatever its score (here 4);
    and the mock deal priced 1847 has the original price 2493, below
    1847 times 1.35. *)
Lemma curated_savings_ignore_score :
  (exists h,
      Hotel.parse_curated Inv.paris_stay (Inv.curated 900 4 (Some 15)) = Some h
      /\ Hotel.savings_percent h = Some 15
      /\ Hotel.original_price h = None
      /\ Hotel.deal_score h = 4)
  /\ (exists d,
      Flight.search_flights Inv.flights_unconfigured 0 0 Inv.jfk_cdg = [d]
      /\ Flight.price d = 1847%Q
      /\ Flight.original_price d = Some 2493%Q
      /\ (2493 < 1847 * (135 # 100))%Q).
Proof.
  split; eexists; (split; [vm_compute; reflexivity|]); repeat split.
Qed.

(** ** The mock fallback *)

Lemma mock_hotels_length_pos (params : Hotel.HotelSearchParams) :
  (0 < length (Hotel._get_mock_hotels params))%nat.
Proof.
  unfold Hotel._get_mock_hotels. rewrite length_imap.
  destruct (Py.assoc String.eqb _ Hotel.mock_data) as [[|d ds]|]; simpl; lia.
Qed.

Lemma flight_search_length_pos (self : Flight.FlightWidget) (now jitter : Z)
    (params : Flight.FlightSearchParams) :
  1 <= Flight.max_results params ->
  (0 < length (Flight.search_flights self now jitter params))%nat.
Proof.
  intros Hcap. unfold Flight.search_flights.
  apply slice_to_length_pos; [done|]. rewrite sort_by_length.
  destruct (Flight.amadeus self) as [client|]; [|simpl; lia].
  destruct (client params) as [rs|e]; [|simpl; lia].
  destruct (Flight._parse_amadeus_results now rs params); simpl; lia.
Qed.

(** Whether every candidate is a result can be decided. *)
Lemma Forall_dec_names (ps : list HotelRaw.Parsed) :
  Forall (fun p => exists h, p = HotelRaw.Result h) ps
  \/ ~ Forall (fun p => exists h, p = HotelRaw.Result h) ps.
Proof.
  induction ps as [|[h|name] ps [IH|IH]].
  - left. constructor.
  - left. constructor; [by eexists|done].
  - right. intros H. by apply Forall_cons in H as [_ H].
  - right. intros H. by apply Forall_cons in H as [[h [=]] _].
  - right. intros H. by apply Forall_cons in H as [[h [=]] _].
Qed.

(** A run of the loop that meets only results is the typed loop. *)
Lemma raw_dedupe_results (l : list Hotel.HotelResult)
    (st : gset string * list Hotel.HotelResult) :
  HotelRaw.dedupe_loop st (HotelRaw.Result <$> l) = inr (foldl Hotel.dedupe_step st l).2.
Proof. revert st. induction l as [|h l IH]; intros st; simpl; [done|]. apply IH. Qed.

Lemma raw_results_inv (ps : list HotelRaw.Parsed) :
  Forall (fun p => exists h, p = HotelRaw.Result h) ps ->
  exists l, ps = HotelRaw.Result <$> l.
Proof.
  induction 1 as [|p ps [h ->] _ [l ->]]; [by exists []|]. by exists (h :: l).
Qed.

(** The search returns when every name it meets is a string. *)
Lemma raw_search_returns (self : HotelRaw.HotelWidget)
    (params : Hotel.HotelSearchParams) :
  HotelRaw.names_are_text self params ->
  exists hotels,
    HotelRaw.search_hotels self params = inr hotels /\ (0 < length hotels)%nat.
Proof.
  intros Hnames. unfold HotelRaw.search_hotels.
  assert (0 < length (HotelRaw.candidates self params))%nat as Hpos.
  { unfold HotelRaw.candidates.
    pose proof (mock_hotels_length_pos params).
    destruct (HotelRaw.amadeus self) as [client|]; [|by rewrite length_fmap].
    destruct (client params) as [rs|e]; [|by rewrite length_fmap].
    destruct (HotelRaw._parse_amadeus_results rs params);
      [by rewrite length_fmap | simpl; lia]. }
  destruct (raw_results_inv _ Hnames) as [l Hl]. rewrite Hl in Hpos |- *.
  rewrite length_fmap in Hpos. rewrite raw_dedupe_results.
  eexists. split; [reflexivity|].
  apply slice_to_length_pos; [lia|]. rewrite sort_by_length.
  by apply dedupe_length_pos.
Qed.

(** It raises when a parsed record has a name that is not a string. *)
Lemma misnamed_hotel_raises (self : HotelRaw.HotelWidget)
    (params : Hotel.HotelSearchParams) :
  ~ HotelRaw.names_are_text self params ->
  HotelRaw.search_hotels self params = inl Webhook.AttributeError.
Proof.
  unfold HotelRaw.names_are_text, HotelRaw.search_hotels.
  generalize (HotelRaw.candidates self params) as ps.
  generalize (∅ : gset string, [] : list Hotel.HotelResult) as st.
  intros st ps. revert st.
  induction ps as [|[h|name] ps IH]; intros st Hbad.
  - destruct Hbad. constructor.
  - cbn [HotelRaw.dedupe_loop]. apply IH. intros H. apply Hbad.
    constructor; [by eexists|done].
  - reflexivity.
Qed.

(** A record without fields parses; with a name that is null the search
    raises. *)
Lemma null_name_raises :
  HotelRaw.search_hotels
    {| HotelRaw.amadeus :=
         Some (fun _ => Returned [ HotelRaw.Misnamed HotelRaw.NameNull
                                     {| Hotel.hotel := None; Hotel.offers := None |} ]) |}
    Inv.paris_stay
  = inl Webhook.AttributeError.
Proof. reflexivity. Qed.

(** On records with a text name or none, the search is the typed one. *)
Lemma raw_search_typed (self : Hotel.HotelWidget) (params : Hotel.HotelSearchParams) :
  HotelRaw.search_hotels (HotelRaw.of_typed self) params
  = inr (Hotel.search_hotels self params).
Proof.
  assert (HotelRaw.candidates (HotelRaw.of_typed self) params
          = HotelRaw.Result <$> Hotel.candidates self params) as Hc.
  { unfold HotelRaw.candidates, Hotel.candidates, HotelRaw.of_typed.
    cbn [HotelRaw.amadeus].
    destruct (Hotel.amadeus self) as [client|]; [|done]. cbn [fmap option_fmap option_map].
    destruct (client params) as [rs|e]; [|done].
    assert (HotelRaw._parse_amadeus_results (HotelRaw.Named <$> rs) params
            = HotelRaw.Result <$> Hotel._parse_amadeus_results rs params) as ->.
    { unfold HotelRaw._parse_amadeus_results, Hotel._parse_amadeus_results.
      induction rs as [|r rs IH]; [done|].
      cbn [fmap list_fmap omap list_omap HotelRaw.parse_offer].
      destruct (Hotel.parse_offer params r); cbn [fmap option_fmap option_map];
        [cbn [list_fmap]; f_equal|]; exact IH. }
    by destruct (Hotel._parse_amadeus_results rs params). }
  unfold HotelRaw.search_hotels. by rewrite Hc, raw_dedupe_results.
Qed.

Lemma raw_dedupe_returns (ps : list HotelRaw.Parsed)
    (st : gset string * list Hotel.HotelResult) (l : list Hotel.HotelResult) :
  HotelRaw.dedupe_loop st ps = inr l ->
  Forall (fun p => exists h, p = HotelRaw.Result h) ps.
Proof.
  revert st. induction ps as [|[h|name] ps IH]; intros st H.
  - constructor.
  - constructor; [by eexists|]. by eapply IH.
  - discriminate H.
Qed.

(** A list the search returns is the list the typed search returns for
    the same records, read without the names that were not text: those
    records were all skipped. *)
Lemma raw_search_is_typed (self : HotelRaw.HotelWidget)
    (params : Hotel.HotelSearchParams) (hotels : list Hotel.HotelResult) :
  HotelRaw.search_hotels self params = inr hotels ->
  hotels = Hotel.search_hotels (HotelRaw.forget self) params.
Proof.
  unfold HotelRaw.search_hotels.
  destruct (HotelRaw.dedupe_loop _ _) as [e|unique] eqn:Hloop; [done|].
  intros [= <-].
  pose proof (raw_dedupe_returns _ _ _ Hloop) as Hnames.
  assert (HotelRaw.candidates self params
          = HotelRaw.Result <$> Hotel.candidates (HotelRaw.forget self) params) as Hc.
  { revert Hnames. clear Hloop.
    unfold HotelRaw.candidates, Hotel.candidates, HotelRaw.forget.
    cbn [Hotel.amadeus].
    destruct (HotelRaw.amadeus self) as [client|]; [|done].
    cbn [fmap option_fmap option_map].
    destruct (client params) as [rs|e]; [|done].
    assert (Forall (fun p => exists h, p = HotelRaw.Result h)
                   (HotelRaw._parse_amadeus_results rs params) ->
            HotelRaw._parse_amadeus_results rs params
            = HotelRaw.Result
              <$> Hotel._parse_amadeus_results (HotelRaw.typed <$> rs) params) as Hrs.
    { unfold HotelRaw._parse_amadeus_results, Hotel._parse_amadeus_results.
      induction rs as [|[o|name o] rs IH];
        cbn [fmap list_fmap omap list_omap HotelRaw.parse_offer HotelRaw.typed];
        [done| |].
      - destruct (Hotel.parse_offer params o); cbn [fmap option_fmap option_map list_fmap].
        + intros [_ H]%Forall_cons. f_equal. by apply IH.
        + exact IH.
      - destruct (Hotel.parse_offer params o); cbn [fmap option_fmap option_map list_fmap].
        + by intros [[h' [=]] _]%Forall_cons.
        + exact IH. }
    intros Hnames.
    assert (Forall (fun p => exists h, p = HotelRaw.Result h)
                   (HotelRaw._parse_amadeus_results rs params)) as Hall.
    { destruct (HotelRaw._parse_amadeus_results rs params); [constructor|done]. }
    rewrite (Hrs Hall).
    by destruct (Hotel._parse_amadeus_results (HotelRaw.typed <$> rs) params). }
  rewrite Hc, raw_dedupe_results in Hloop. injection Hloop as <-.
  reflexivity.
Qed.


(** C3 (as the code has it): a flight search returns at least one deal
    whenever the result cap [max_results] is at least 1, and a hotel
    search returns at least one hotel whenever every hotel it starts from
    has a string as its name -- which is so with no provider configured,
    with a provider that raises, and with one whose records carry text
    names or none.  A provider that raises is not seen by the caller: the
    search returns what it returns with no provider configured. *)
Theorem search_falls_back_to_mock :
  (forall self now jitter params,
      1 <= Flight.max_results params ->
      (0 < length (Flight.search_flights self now jitter params))%nat)
  /\ (forall self params,
      HotelRaw.names_are_text self params ->
      exists hotels,
        HotelRaw.search_hotels self params = inr hotels
        /\ (0 < length hotels)%nat)
  /\ (forall client err now jitter params,
      client params = Raised err ->
      Flight.search_flights {| Flight.amadeus := Some client |} now jitter params
      = Flight.search_flights Inv.flights_unconfigured now jitter params)
  /\ (forall client err params,
      client params = Raised err ->
      HotelRaw.search_hotels {| HotelRaw.amadeus := Some client |} params
      = HotelRaw.search_hotels HotelRaw.unconfigured params
      /\ HotelRaw.names_are_text {| HotelRaw.amadeus := Some client |} params)
  /\ (forall params, HotelRaw.names_are_text HotelRaw.unconfigured params)
  /\ (forall self params,
      HotelRaw.names_are_text (HotelRaw.of_typed self) params
      /\ HotelRaw.search_hotels (HotelRaw.of_typed self) params
         = inr (Hotel.search_hotels self params)).
Proof.
  assert (forall params, HotelRaw.names_are_text HotelRaw.unconfigured params) as Hmock.
  { intros params. unfold HotelRaw.names_are_text, HotelRaw.candidates.
    cbn [HotelRaw.amadeus HotelRaw.unconfigured].
    apply Forall_fmap, Forall_true. intros h. by eexists. }
  split_and!.
  - apply flight_search_length_pos.
  - apply raw_search_returns.
  - intros client err now jitter params H.
    unfold Flight.search_flights. simpl. by rewrite H.
  - intros client err params H.
    assert (HotelRaw.candidates {| HotelRaw.amadeus := Some client |} params
            = HotelRaw.candidates HotelRaw.unconfigured params) as Hc.
    { unfold HotelRaw.candidates. cbn [HotelRaw.amadeus HotelRaw.unconfigured].
      by rewrite H. }
    unfold HotelRaw.search_hotels, HotelRaw.names_are_text. rewrite Hc.
    split; [done|apply Hmock].
  - exact Hmock.
  - intros self params. split; [|apply raw_search_typed].
    destruct (HotelRaw.search_hotels (HotelRaw.of_typed self) params) eqn:E.
    + by rewrite raw_search_typed in E.
    + destruct (Forall_dec_names (HotelRaw.candidates (HotelRaw.of_typed self) params))
        as [Hok|Hbad]; [done|].
      apply misnamed_hotel_raises in Hbad. congruence.
Qed.

(** The searches of the example return a result when the provider
    raises. *)
Lemma search_falls_back_to_mock_witness :
  1 <= Flight.max_results Inv.jfk_cdg
  /\ (0 < length (Flight.search_flights
                    {| Flight.amadeus := Some (fun _ => Raised "503") |}
                    0 0 Inv.jfk_cdg))%nat
  /\ HotelRaw.names_are_text
       {| HotelRaw.amadeus := Some (fun _ => Raised "503") |} Inv.paris_stay
  /\ exists hotels,
       HotelRaw.search_hotels
         {| HotelRaw.amadeus := Some (fun _ => Raised "503") |} Inv.paris_stay
       = inr hotels
       /\ (0 < length hotels)%nat.
Proof.
  destruct search_falls_back_to_mock as (Hflights & Hhotels & _ & Hraised & _).
  assert (HotelRaw.names_are_text
            {| HotelRaw.amadeus := Some (fun _ => Raised "503") |} Inv.paris_stay)
    as Hnames by exact (proj2 (Hraised (fun _ => Raised "503") "503" Inv.paris_stay eq_refl)).
  split; [vm_compute; discriminate|].
  split; [apply Hflights; vm_compute; discriminate|].
  split; [exact Hnames|]. exact (Hhotels _ _ Hnames).
Defined.

(** C3 fails as stated: with a result cap of zero the flight search
    returns the empty list. *)
Lemma flight_search_empty_at_cap_zero :
  Flight.search_flights Inv.flights_unconfigured 0 0 Inv.jfk_cdg_cap0 = [].
Proof. vm_compute. reflexivity. Qed.

(** ** Source tags *)

Ltac tag_solve :=
  unfold Inv.flight_tagged, Inv.hotel_tagged, Inv.restaurant_tagged;
  repeat match goal with
         | |- _ /\ _ => split
         | |- _ = _ => reflexivity
         | |- _ <> _ => simpl; discriminate
         end.

(** C10: every result of a flight search and of a hotel search carries the
    source "amadeus" and an identifier that starts with "amadeus_", the
    results of the mock generators included; every restaurant result
    carries the source "opentable"; no result carries the source
    "mock". *)
Theorem results_carry_provider_tag :
  (forall self now jitter params,
      Forall Inv.flight_tagged (Flight.search_flights self now jitter params))
  /\ (forall now jitter params,
      Forall Inv.flight_tagged (Flight._get_mock_deals now jitter params))
  /\ (forall self params,
      Forall Inv.hotel_tagged (Hotel.search_hotels self params))
  /\ (forall params,
      Forall Inv.hotel_tagged (Hotel._get_mock_hotels params))
  /\ (forall samples params,
      Forall Inv.restaurant_tagged (Restaurant.search_restaurants samples params)).
Proof.
  assert (forall now jitter params,
             Forall Inv.flight_tagged (Flight._get_mock_deals now jitter params)) as Hmf.
  { intros. constructor; [|constructor]. tag_solve. }
  assert (forall params, Forall Inv.hotel_tagged (Hotel._get_mock_hotels params)) as Hmh.
  { intros. apply imap_Forall. intros i a. tag_solve. }
  split; [|split; [|split; [|split]]]; try done.
  - intros. apply flight_candidates_Forall; [|apply Hmf].
    intros offer d (_ & _ & _ & _ & _ & Hsrc & Hid)%parse_offer_fields.
    unfold Inv.flight_tagged. rewrite Hsrc, Hid. tag_solve.
  - intros. apply hotel_search_Forall, hotel_candidates_Forall; [|apply Hmh].
    intros offer h (_ & _ & _ & _ & Hsrc & Hid)%parse_hotel_offer_fields.
    unfold Inv.hotel_tagged. rewrite Hsrc, Hid. tag_solve.
  - intros. unfold Restaurant.search_restaurants.
    apply slice_to_Forall, sort_by_Forall, imap_Forall.
    intros i a. tag_solve.
Qed.

(** ** The mock deal of the example search *)

Lemma unconfigured_search_is_mock (now jitter : Z) (params : Flight.FlightSearchParams) :
  1 <= Flight.max_results params ->
  Flight.search_flights Inv.flights_unconfigured now jitter params
  = Flight._get_mock_deals now jitter params.
Proof.
  intros Hcap. unfold Flight.search_flights. simpl.
  apply slice_to_short. simpl. lia.
Qed.

(** C7 (as the code has it): with no provider configured, a search from
    JFK to CDG in business class with a result cap of at least 1 returns
    exactly one deal; its price is 1847 plus the number drawn, so within
    200 of 1847; its deal score is 8, its urgency "high", it has no stops
    and is not a mistake fare.  The original price (the integer part of
    1.35 times the price), the deep link (which quotes the price) and the
    expiry time (six hours after the clock reading) follow the draw and
    the clock; every other field is the same for every draw and every
    clock reading. *)
Theorem jfk_cdg_mock_deal (now jitter : Z) (params : Flight.FlightSearchParams) :
  Flight.origin params = "JFK" ->
  Flight.destination params = "CDG" ->
  Flight.cabin_class params = Flight.BUSINESS ->
  1 <= Flight.max_results params ->
  -200 <= jitter <= 200 ->
  exists d,
    Flight.search_flights Inv.flights_unconfigured now jitter params = [d]
    /\ Flight.price d = inject_Z (1847 + jitter)
    /\ (1647 <= Flight.price d <= 2047)%Q
    /\ Flight.deal_score d = 8
    /\ Flight.urgency_value (Flight.urgency d) = "high"
    /\ Flight.stops d = 0
    /\ Flight.is_mistake_fare d = false
    /\ Inv.flight_markup_truncated d
    /\ Flight.deep_link d = Flight._generate_sms_link "JFK" "CDG" (Some (Flight.price d))
    /\ Flight.expires_at d = Some (now + Flight.hours 6)
    /\ forall now' jitter',
        Inv.settled <$> Flight.search_flights Inv.flights_unconfigured now' jitter' params
        = [Inv.settled d].
Proof.
  intros Ho Hd Hc Hcap Hj.
  rewrite unconfigured_search_is_mock by done.
  unfold Flight._get_mock_deals. rewrite Ho, Hd. simpl.
  eexists. split; [reflexivity|]. simpl.
  repeat split.
  - unfold Qle, Py.float_of_int. simpl. lia.
  - unfold Qle, Py.float_of_int. simpl. lia.
  - intros now' jitter'. rewrite unconfigured_search_is_mock by done.
    unfold Flight._get_mock_deals. rewrite Ho, Hd. reflexivity.
Qed.

(** The search of the example, at the draw 0 and the clock reading 0. *)
Lemma jfk_cdg_mock_deal_witness :
  exists d,
    Flight.search_flights Inv.flights_unconfigured 0 0 Inv.jfk_cdg = [d]
    /\ Flight.price d = inject_Z (1847 + 0)
    /\ (1647 <= Flight.price d <= 2047)%Q
    /\ Flight.deal_score d = 8
    /\ Flight.urgency_value (Flight.urgency d) = "high"
    /\ Flight.stops d = 0
    /\ Flight.is_mistake_fare d = false
    /\ Inv.flight_markup_truncated d
    /\ Flight.deep_link d = Flight._generate_sms_link "JFK" "CDG" (Some (Flight.price d))
    /\ Flight.expires_at d = Some (0 + Flight.hours 6)
    /\ forall now' jitter',
        Inv.settled <$> Flight.search_flights Inv.flights_unconfigured now' jitter' Inv.jfk_cdg
        = [Inv.settled d].
Proof.
  apply (jfk_cdg_mock_deal 0 0 Inv.jfk_cdg); try reflexivity.
  - vm_compute. discriminate.
  - split; vm_compute; discriminate.
Defined.

(** C7 fails as stated: the price is not the only field that follows the
    draw.  At the draws 0 and 200 the original prices are 2493 and 2763
    and the deep links quote 1,847 and 2,047. *)
Lemma mock_original_price_follows_draw :
  Flight.original_price <$> Flight.search_flights Inv.flights_unconfigured 0 0 Inv.jfk_cdg
  = [Some 2493%Q]
  /\ Flight.original_price <$> Flight.search_flights Inv.flights_unconfigured 0 200 Inv.jfk_cdg
     = [Some 2763%Q]
  /\ Flight.deep_link <$> Flight.search_flights Inv.flights_unconfigured 0 0 Inv.jfk_cdg
     = ["sms://+1234567890?body=Book%20JFK-CDG%20for%20%241%2C847"]
  /\ Flight.deep_link <$> Flight.search_flights Inv.flights_unconfigured 0 200 Inv.jfk_cdg
     = ["sms://+1234567890?body=Book%20JFK-CDG%20for%20%242%2C047"].
Proof. split_and!; vm_compute; reflexivity. Qed.

(** ** Hotel deduplication *)

Lemma dedupe_first (k : string) (l : list Hotel.HotelResult) :
  Inv.first_with_key k (Hotel.dedupe l) = Inv.first_with_key k l.
Proof. rewrite dedupe_recursive. apply dedupe_from_first. set_solver. Qed.

Lemma dedupe_NoDup (l : list Hotel.HotelResult) :
  NoDup (Hotel.name_key <$> Hotel.dedupe l).
Proof. rewrite dedupe_recursive. apply dedupe_from_NoDup. Qed.

Lemma search_hotels_sublist (self : Hotel.HotelWidget) (params : Hotel.HotelSearchParams) :
  Hotel.search_hotels self params
    `sublist_of` Py.sort_by Hotel.key_leb (Hotel.dedupe (Hotel.candidates self params)).
Proof. apply slice_to_sublist. Qed.

(** C6 (as the code has it): the deduplication keeps, for every name key
    (the name in lower case, spaces removed, cut to 20 characters), the
    first result of the input with that key and no other, whatever the
    deal scores.  So the list a hotel search returns has at most one
    result for a key, and a result it has is the first one with its key
    in the order before deduplication; when at most ten results are left
    after deduplication, the first result of every key is returned. *)
Theorem dedupe_keeps_first_occurrence
    (self : Hotel.HotelWidget) (params : Hotel.HotelSearchParams) :
  let input := Hotel.candidates self params in
  let output := Hotel.search_hotels self params in
  NoDup (Hotel.name_key <$> Hotel.dedupe input)
  /\ (forall k, Inv.first_with_key k (Hotel.dedupe input) = Inv.first_with_key k input)
  /\ NoDup (Hotel.name_key <$> output)
  /\ Forall (fun h => Inv.first_with_key (Hotel.name_key h) input = Some h) output
  /\ ((length (Hotel.dedupe input) <= 10)%nat -> output ≡ₚ Hotel.dedupe input).
Proof.
  intros input output.
  assert (NoDup (Hotel.name_key <$> Py.sort_by Hotel.key_leb (Hotel.dedupe input))) as Hnd.
  { rewrite sort_by_perm. apply dedupe_NoDup. }
  split; [apply dedupe_NoDup|].
  split; [intros k; apply dedupe_first|].
  split; [|split].
  - eapply sublist_NoDup; [exact Hnd | apply fmap_sublist, search_hotels_sublist].
  - apply Forall_forall. intros h Hh.
    rewrite <- dedupe_first. apply first_with_key_unique; [apply dedupe_NoDup|].
    rewrite <- (sort_by_perm Hotel.key_leb).
    eapply elem_of_sublist; [exact Hh | apply search_hotels_sublist].
  - intros Hlen. subst output. unfold Hotel.search_hotels. fold input.
    rewrite slice_to_short; [apply sort_by_perm|].
    rewrite sort_by_length. lia.
Qed.

(** Two offers that share a key: one result is left after
    deduplication, and it is the one returned. *)
Lemma dedupe_keeps_first_occurrence_witness :
  (length (Hotel.dedupe (Hotel.candidates (Inv.hotels_from Inv.two_offers)
                           Inv.paris_stay)) <= 10)%nat
  /\ Hotel.search_hotels (Inv.hotels_from Inv.two_offers) Inv.paris_stay
     ≡ₚ Hotel.dedupe (Hotel.candidates (Inv.hotels_from Inv.two_offers) Inv.paris_stay).
Proof.
  assert (length (Hotel.dedupe (Hotel.candidates (Inv.hotels_from Inv.two_offers)
                                  Inv.paris_stay)) <= 10)%nat as Hlen.
  { vm_compute. lia. }
  split; [exact Hlen|].
  by apply (dedupe_keeps_first_occurrence (Inv.hotels_from Inv.two_offers) Inv.paris_stay).
Defined.

(** Of two offers whose names share the key, the first is the one
    returned, although the second has the better score (10 against 4). *)
Lemma first_duplicate_wins :
  Hotel.name_key <$> Hotel.candidates (Inv.hotels_from Inv.two_offers) Inv.paris_stay
  = ["grandplazapariscentr"; "grandplazapariscentr"]
  /\ Hotel.deal_score <$> Hotel.candidates (Inv.hotels_from Inv.two_offers) Inv.paris_stay
     = [4; 10]
  /\ Hotel.name <$> Hotel.search_hotels (Inv.hotels_from Inv.two_offers) Inv.paris_stay
     = ["Grand Plaza Paris Centre North"].
Proof. split_and!; vm_compute; reflexivity. Qed.

(** C6 fails as stated: of twelve results, the eleventh and the twelfth
    share a key and rank last; the ten results returned include neither
    of them. *)
Lemma duplicates_cut_by_the_cap :
  (Hotel.name <$> Hotel.candidates (Inv.hotels_from Inv.twelve_offers) Inv.paris_stay) !! 10%nat
  = Some "Grand Plaza Paris Centre North"
  /\ (Hotel.name <$> Hotel.candidates (Inv.hotels_from Inv.twelve_offers) Inv.paris_stay) !! 11%nat
     = Some "Grand Plaza Paris Centre South"
  /\ (Hotel.name_key <$> Hotel.candidates (Inv.hotels_from Inv.twelve_offers) Inv.paris_stay) !! 10%nat
     = (Hotel.name_key <$> Hotel.candidates (Inv.hotels_from Inv.twelve_offers) Inv.paris_stay) !! 11%nat
  /\ Hotel.name <$> Hotel.search_hotels (Inv.hotels_from Inv.twelve_offers) Inv.paris_stay
     = [ "Hotel A"; "Hotel B"; "Hotel C"; "Hotel D"; "Hotel E";
         "Hotel F"; "Hotel G"; "Hotel H"; "Hotel I"; "Hotel J" ].
Proof. split_and!; vm_compute; reflexivity. Qed.

(** ** The outbound sender *)

(** C8: [_send_message] returns for every client, every network and every
    message: no exception leaves it.  Without an access token or without
    a phone number id it sends nothing and returns the dict with
    [success] true, [mock] true and the message as [preview]; with both,
    it sends one request, and a network error, a response that is not
    200, or a 200 response whose body does not parse give a dict with
    [success] false, the error text as [error] and no other key; a 200
    response that parses gives [success] true and the parsed body as
    [response]. *)
Theorem send_message_never_raises
    (self : WhatsApp.WhatsAppClient) (network : WhatsApp.Request -> WhatsApp.exchange)
    (msg : json) :
  (exists result, (WhatsApp._send_message self network msg).2 = inr result)
  /\ (WhatsApp.is_configured self = false ->
      WhatsApp._send_message self network msg = ([], inr (WhatsApp.mock_result msg))
      /\ WhatsApp.success (WhatsApp.mock_result msg) = true
      /\ WhatsApp.mock (WhatsApp.mock_result msg) = Some true
      /\ WhatsApp.preview (WhatsApp.mock_result msg) = Some msg)
  /\ (WhatsApp.is_configured self = true ->
      (WhatsApp._send_message self network msg).1 = [WhatsApp.request_for self msg]
      /\ (forall err,
             network (WhatsApp.request_for self msg) = WhatsApp.Failed err ->
             (WhatsApp._send_message self network msg).2
             = inr (WhatsApp.failure_result err))
      /\ (forall r,
             network (WhatsApp.request_for self msg) = WhatsApp.Answered r ->
             WhatsApp.status_code r <> 200 ->
             (WhatsApp._send_message self network msg).2
             = inr (WhatsApp.failure_result (WhatsApp.text r)))
      /\ (forall r err,
             network (WhatsApp.request_for self msg) = WhatsApp.Answered r ->
             WhatsApp.status_code r = 200 ->
             WhatsApp.response_json r = inl err ->
             (WhatsApp._send_message self network msg).2
             = inr (WhatsApp.failure_result err))
      /\ (forall r j,
             network (WhatsApp.request_for self msg) = WhatsApp.Answered r ->
             WhatsApp.status_code r = 200 ->
             WhatsApp.response_json r = inr j ->
             (WhatsApp._send_message self network msg).2
             = inr (WhatsApp.sent_result j)))
  /\ (forall err,
      WhatsApp.failure_result err
      = {| WhatsApp.success := false; WhatsApp.mock := None;
           WhatsApp.message := None; WhatsApp.preview := None;
           WhatsApp.response := None; WhatsApp.error := Some err |})
  /\ (forall j,
      WhatsApp.sent_result j
      = {| WhatsApp.success := true; WhatsApp.mock := None;
           WhatsApp.message := None; WhatsApp.preview := None;
           WhatsApp.response := Some j; WhatsApp.error := None |})
  /\ (forall result,
      (WhatsApp._send_message self network msg).2 = inr result ->
      WhatsApp.success result = false ->
      WhatsApp.is_configured self = true
      /\ exists err, WhatsApp.error result = Some err
                     /\ WhatsApp.response result = None
                     /\ WhatsApp.preview result = None).
Proof.
  unfold WhatsApp._send_message, WhatsApp.try_send.
  destruct (WhatsApp.is_configured self); simpl.
  - split; [|split; [done|split; [intros _|]]].
    + destruct (network _) as [r|err]; [|by eexists].
      destruct (WhatsApp.status_code r =? 200); [|by eexists].
      destruct (WhatsApp.response_json r); by eexists.
    + split; [by destruct (network _) as [r|?]; repeat case_match|].
      split_and!.
      * intros err ->. reflexivity.
      * intros r -> Hs. apply Z.eqb_neq in Hs. by rewrite Hs.
      * intros r err -> -> ->. reflexivity.
      * intros r j -> -> ->. reflexivity.
    + split_and!; [done..|].
      intros result Hresult Hfalse. split; [done|].
      destruct (network _) as [r|err].
      * destruct (WhatsApp.status_code r =? 200).
        -- destruct (WhatsApp.response_json r); injection Hresult as <-;
             [by eexists|discriminate Hfalse].
        -- injection Hresult as <-. by eexists.
      * injection Hresult as <-. by eexists.
  - split; [by eexists|]. split; [|split; [done|]]; [by intros _|].
    split_and!; [done..|].
    intros result [= <-] Hfalse. discriminate Hfalse.
Qed.

(** A client without credentials sends nothing and returns the preview. *)
Lemma send_message_never_raises_witness :
  WhatsApp._send_message
    {| WhatsApp.access_token := None; WhatsApp.phone_number_id := Some "15550001";
       WhatsApp.business_account_id := None |}
    (fun _ => WhatsApp.Failed "unreachable") (JStr "hello")
  = ([], inr (WhatsApp.mock_result (JStr "hello")))
  /\ WhatsApp.success (WhatsApp.mock_result (JStr "hello")) = true
  /\ WhatsApp.mock (WhatsApp.mock_result (JStr "hello")) = Some true
  /\ WhatsApp.preview (WhatsApp.mock_result (JStr "hello")) = Some (JStr "hello").
Proof.
  apply (proj1 (proj2 (send_message_never_raises _ _ _))). reflexivity.
Defined.

(** ** The webhook receiver *)

Lemma bind_ret_l {A B} (a : A) (f : A -> Webhook.M B) :
  Webhook.bind (Webhook.ret a) f = f a.
Proof. unfold Webhook.bind, Webhook.ret. by destruct (f a). Qed.

Section Quiet.
Import Webhook.

Lemma quiet_ret {A} (a : A) : Inv.quiet (ret a).
Proof. apply not_elem_of_nil. Qed.

Lemma quiet_lift {A} (x : exn + A) : Inv.quiet (lift x).
Proof. apply not_elem_of_nil. Qed.

Lemma quiet_log (ev : event) : ev <> InvalidSignature -> Inv.quiet (log ev).
Proof.
  intros Hev. unfold Inv.quiet. simpl. intros Hin%list_elem_of_singleton.
  congruence.
Qed.

Lemma quiet_bind {A B} (m : M A) (f : A -> M B) :
  Inv.quiet m -> (forall a, Inv.quiet (f a)) -> Inv.quiet (bind m f).
Proof.
  unfold Inv.quiet. intros Hl Hf. destruct m as [l [e|a]]; simpl in *; [done|].
  specialize (Hf a). destruct (f a) as [l' r]. simpl in *.
  intros [?|?]%elem_of_app; done.
Qed.

Lemma quiet_for_each {A} (xs : list A) (body : A -> M unit) :
  (forall x, Inv.quiet (body x)) -> Inv.quiet (for_each xs body).
Proof.
  intros Hb. induction xs as [|x xs IH]; simpl; [apply quiet_ret|].
  apply quiet_bind; [apply Hb | intros _; apply IH].
Qed.

Ltac quiet_step :=
  first [ apply quiet_lift | apply quiet_ret
        | apply quiet_log; discriminate
        | apply quiet_bind; [|intros ?] ].

Lemma quiet_handle_message (message : json) : Inv.quiet (handle_message message).
Proof.
  unfold handle_message. repeat quiet_step.
  repeat (case_match; repeat quiet_step).
Qed.

Lemma quiet_handle_status (status : json) : Inv.quiet (handle_status status).
Proof. unfold handle_status. repeat quiet_step. Qed.

Lemma quiet_process (payload : json) : Inv.quiet (process payload).
Proof.
  unfold process.
  repeat first [ apply quiet_for_each; intros ?
               | apply quiet_handle_message | apply quiet_handle_status
               | quiet_step ].
Qed.

Lemma quiet_respond (m : M reply) : Inv.quiet m -> ~ Inv.rejected (respond m).
Proof.
  unfold Inv.quiet, Inv.rejected. destruct m as [l [e|r]]; simpl; [|done].
  intros Hl [?|Hin%list_elem_of_singleton]%elem_of_app; done.
Qed.

(** A request the handler accepts is never reported as rejected. *)
Lemma accept_not_rejected (lib : Lib) (request : Request) :
  ~ Inv.rejected (accept lib request).
Proof.
  apply quiet_respond. unfold decode, loads.
  repeat first [apply quiet_process | quiet_step].
Qed.

(** The handler, case by case. *)
Lemma incoming_cases (lib : Lib) (APP_SECRET : string) (request : Request) :
  whatsapp_incoming lib APP_SECRET request =
  match utf8_decode lib (body request) with
  | None =>
      ([WebhookError UnicodeDecodeError],
       {| http_status := 200; content := Error UnicodeDecodeError |})
  | Some _ =>
      if negb (String.eqb APP_SECRET "") && negb (String.eqb (signature request) "")
      then
        match compare_digest (signature request)
                (expected_sig lib APP_SECRET (body request)) with
        | inl e => ([WebhookError e], {| http_status := 200; content := Error e |})
        | inr false =>
            ([InvalidSignature; WebhookError (HTTPException 401 "Invalid signature")],
             {| http_status := 200;
                content := Error (HTTPException 401 "Invalid signature") |})
        | inr true => accept lib request
        end
      else accept lib request
  end.
Proof.
  unfold whatsapp_incoming, accept, try_body, check_signature, decode.
  destruct (utf8_decode lib (body request)) as [s|]; [|reflexivity].
  change (lift (inr s)) with (ret (A:=string) s). rewrite !bind_ret_l.
  destruct (negb _ && negb _); cbv iota; [|by rewrite bind_ret_l].
  destruct (compare_digest _ _) as [e|[|]]; try reflexivity.
  change (lift (inr true)) with (ret true).
  rewrite !bind_ret_l. cbv iota. simpl negb. cbv iota. by rewrite bind_ret_l.
Qed.
End Quiet.

(** C5 (as the code has it): when the app secret is configured and the
    request carries a non-empty X-Hub-Signature-256 header that is not
    "sha256=" followed by the hex HMAC-SHA256 of the body, the handler
    does not process the payload: [json.loads] is never consulted, none
    of the payload's messages or statuses is logged, and the reply is an
    error reply. *)
Theorem mismatched_signature_stops_processing
    (lib : Webhook.Lib) (APP_SECRET : string) (request : Webhook.Request) :
  APP_SECRET <> "" ->
  Webhook.signature request <> "" ->
  Webhook.signature request
    <> Webhook.expected_sig lib APP_SECRET (Webhook.body request) ->
  let r := Webhook.whatsapp_incoming lib APP_SECRET request in
  (exists e,
      Webhook.content r.2 = Webhook.Error e
      /\ (r.1 = [Webhook.WebhookError e]
          \/ r.1 = [Webhook.InvalidSignature; Webhook.WebhookError e]))
  /\ (forall f,
      Webhook.whatsapp_incoming (Inv.with_loads lib f) APP_SECRET request = r).
Proof.
  intros Hsecret Hsig Hneq r. subst r.
  assert (forall lib',
    Webhook.utf8_decode lib' = Webhook.utf8_decode lib ->
    Webhook.hmac_sha256_hexdigest lib' = Webhook.hmac_sha256_hexdigest lib ->
    Webhook.whatsapp_incoming lib' APP_SECRET request =
    match Webhook.utf8_decode lib (Webhook.body request) with
    | None =>
        ([Webhook.WebhookError Webhook.UnicodeDecodeError],
         {| Webhook.http_status := 200;
            Webhook.content := Webhook.Error Webhook.UnicodeDecodeError |})
    | Some _ =>
        if Webhook.is_ascii (Webhook.signature request)
           && Webhook.is_ascii (Webhook.expected_sig lib APP_SECRET (Webhook.body request))
        then
          ([Webhook.InvalidSignature;
            Webhook.WebhookError (Webhook.HTTPException 401 "Invalid signature")],
           {| Webhook.http_status := 200;
              Webhook.content :=
                Webhook.Error (Webhook.HTTPException 401 "Invalid signature") |})
        else
          ([Webhook.WebhookError Webhook.TypeError],
           {| Webhook.http_status := 200;
              Webhook.content := Webhook.Error Webhook.TypeError |})
    end) as Hcases.
  { intros lib' Hd Hh. rewrite incoming_cases.
    unfold Webhook.expected_sig, Webhook.compare_digest. rewrite Hd, Hh.
    destruct (Webhook.utf8_decode lib (Webhook.body request)); [|reflexivity].
    apply String.eqb_neq in Hsecret, Hsig. rewrite Hsecret, Hsig. simpl.
    apply String.eqb_neq in Hneq. unfold Webhook.expected_sig in Hneq.
    rewrite Hneq. by destruct (Webhook.is_ascii _ && Webhook.is_ascii _). }
  split.
  - rewrite (Hcases lib) by done.
    destruct (Webhook.utf8_decode lib (Webhook.body request)); [|by eauto].
    destruct (Webhook.is_ascii _ && Webhook.is_ascii _); eauto.
  - intros f. rewrite (Hcases lib) by done. by apply Hcases.
Qed.

(** A request with a wrong signature. *)
Lemma mismatched_signature_stops_processing_witness :
  let r := Webhook.whatsapp_incoming Inv.sample_lib "s3cret" Inv.missigned_request in
  (exists e,
      Webhook.content r.2 = Webhook.Error e
      /\ (r.1 = [Webhook.WebhookError e]
          \/ r.1 = [Webhook.InvalidSignature; Webhook.WebhookError e]))
  /\ (forall f,
      Webhook.whatsapp_incoming (Inv.with_loads Inv.sample_lib f) "s3cret"
        Inv.missigned_request = r).
Proof.
  apply (mismatched_signature_stops_processing Inv.sample_lib "s3cret"
           Inv.missigned_request); vm_compute; discriminate.
Defined.

(** C5 fails as stated: a request with no signature header is processed
    although the secret is configured and the (empty) header differs from
    the expected signature; and the request with a wrong signature is
    answered with status 200, the 401 of the [HTTPException] being caught
    by the handler's own [except Exception]. *)
Lemma unsigned_request_is_processed :
  String.eqb (Webhook.signature Inv.unsigned_request)
    (Webhook.expected_sig Inv.sample_lib "s3cret" (Webhook.body Inv.unsigned_request))
  = false
  /\ Webhook.whatsapp_incoming Inv.sample_lib "s3cret" Inv.unsigned_request
     = ([Webhook.WebhookReceived;
         Webhook.TextMessage (JStr "15550001") (JStr "hi")],
        {| Webhook.http_status := 200; Webhook.content := Webhook.Received |})
  /\ Webhook.whatsapp_incoming Inv.sample_lib "s3cret" Inv.missigned_request
     = ([Webhook.InvalidSignature;
         Webhook.WebhookError (Webhook.HTTPException 401 "Invalid signature")],
        {| Webhook.http_status := 200;
           Webhook.content :=
             Webhook.Error (Webhook.HTTPException 401 "Invalid signature") |}).
Proof. split_and!; vm_compute; reflexivity. Qed.

(** C9: when the X-Hub-Signature-256 header is absent or empty the
    signature check is skipped, also with a configured secret: the
    handler does what it does with the check taken out, which is also
    what it does for a request that carries the expected signature.  The
    handler rejects a request only when the secret is configured and the
    header is present, not empty, and different from the expected
    signature. *)
Theorem missing_signature_skips_check
    (lib : Webhook.Lib) (APP_SECRET : string) (request : Webhook.Request) :
  (Webhook.x_hub_signature_256 request = None
   \/ Webhook.x_hub_signature_256 request = Some "" ->
   Webhook.whatsapp_incoming lib APP_SECRET request = Webhook.accept lib request)
  /\ (Webhook.is_ascii (Webhook.expected_sig lib APP_SECRET (Webhook.body request)) = true ->
      Webhook.whatsapp_incoming lib APP_SECRET
        {| Webhook.x_hub_signature_256 :=
             Some (Webhook.expected_sig lib APP_SECRET (Webhook.body request));
           Webhook.body := Webhook.body request |}
      = Webhook.accept lib request)
  /\ (Inv.rejected (Webhook.whatsapp_incoming lib APP_SECRET request) ->
      APP_SECRET <> ""
      /\ (exists s, Webhook.x_hub_signature_256 request = Some s /\ s <> "")
      /\ Webhook.signature request
         <> Webhook.expected_sig lib APP_SECRET (Webhook.body request)).
Proof.
  split; [|split].
  - intros Hsig. rewrite incoming_cases.
    assert (Webhook.signature request = "") as ->.
    { unfold Webhook.signature. by destruct Hsig as [->| ->]. }
    rewrite andb_false_r.
    unfold Webhook.accept, Webhook.decode.
    by destruct (Webhook.utf8_decode lib (Webhook.body request)).
  - intros Hascii. rewrite incoming_cases.
    unfold Webhook.signature.
    cbn [Webhook.x_hub_signature_256 Webhook.body default from_option id].
    unfold Webhook.compare_digest. rewrite Hascii, String.eqb_refl. cbn [andb].
    unfold Webhook.accept, Webhook.decode. cbn [Webhook.body].
    destruct (Webhook.utf8_decode lib (Webhook.body request)); [|reflexivity].
    by destruct (negb _ && negb _).
  - rewrite incoming_cases. unfold Inv.rejected.
    pose proof (accept_not_rejected lib request) as Hacc. unfold Inv.rejected in Hacc.
    destruct (Webhook.utf8_decode lib (Webhook.body request)).
    2:{ simpl. intros Hin%list_elem_of_singleton. done. }
    destruct (String.eqb_spec APP_SECRET ""); simpl; [done|].
    destruct (String.eqb_spec (Webhook.signature request) ""); simpl; [done|].
    unfold Webhook.compare_digest.
    destruct (Webhook.is_ascii _ && Webhook.is_ascii _).
    2:{ simpl. intros Hin%list_elem_of_singleton. done. }
    destruct (String.eqb_spec (Webhook.signature request)
                (Webhook.expected_sig lib APP_SECRET (Webhook.body request))); [done|].
    intros _. split; [done|]. split; [|done].
    unfold Webhook.signature in *.
    destruct (Webhook.x_hub_signature_256 request) as [sig|]; [by exists sig | done].
Qed.

(** The request without the header, with the secret configured. *)
Lemma missing_signature_skips_check_witness :
  Webhook.whatsapp_incoming Inv.sample_lib "s3cret" Inv.unsigned_request
  = Webhook.accept Inv.sample_lib Inv.unsigned_request.
Proof.
  apply (proj1 (missing_signature_skips_check Inv.sample_lib "s3cret"
                  Inv.unsigned_request)).
  left. reflexivity.
Defined.

(** * Further properties *)

(** ** Order of the results *)

Section SortOrder.
Context {A : Type} (leb : A -> A -> bool).
Hypothesis leb_total : forall x y, leb x y = true \/ leb y x = true.
Hypothesis leb_trans : forall x y z, leb x y = true -> leb y z = true -> leb x z = true.

Lemma insert_sorted_Sorted (x : A) (l : list A) :
  Sorted (fun a b => leb a b = true) l ->
  Sorted (fun a b => leb a b = true) (Py.insert_sorted leb x l).
Proof.
  induction l as [|y l IH]; intros Hs; simpl.
  - repeat constructor.
  - destruct (leb x y) eqn:Hxy.
    + constructor; [done|]. by constructor.
    + apply Sorted_inv in Hs as [Hs Hhd]. constructor; [by apply IH|].
      assert (leb y x = true) as Hyx by (destruct (leb_total x y); congruence).
      destruct l as [|z l]; simpl; [by constructor|].
      destruct (leb x z); constructor; [done|].
      by apply HdRel_inv in Hhd.
Qed.

Lemma sort_by_Sorted (l : list A) :
  Sorted (fun a b => leb a b = true) (Py.sort_by leb l).
Proof.
  induction l as [|x l IH]; simpl; [constructor|].
  by apply insert_sorted_Sorted.
Qed.

Lemma sort_by_StronglySorted (l : list A) :
  StronglySorted (fun a b => leb a b = true) (Py.sort_by leb l).
Proof.
  apply Sorted.Sorted_StronglySorted; [|apply sort_by_Sorted].
  intros x y z. apply leb_trans.
Qed.
End SortOrder.

Lemma StronglySorted_take {A} (R : A -> A -> Prop) (n : nat) (l : list A) :
  StronglySorted R l -> StronglySorted R (take n l).
Proof.
  intros H. rewrite <- (take_drop n l) in H.
  by apply StronglySorted_app_1_l in H.
Qed.

Lemma slice_to_StronglySorted {A} (R : A -> A -> Prop) (n : Z) (l : list A) :
  StronglySorted R l -> StronglySorted R (Py.slice_to n l).
Proof.
  intros H. unfold Py.slice_to. destruct (0 <=? n); by apply StronglySorted_take.
Qed.

Lemma StronglySorted_impl {A} (R1 R2 : A -> A -> Prop) (l : list A) :
  (forall a b, R1 a b -> R2 a b) -> StronglySorted R1 l -> StronglySorted R2 l.
Proof.
  intros HR. induction 1 as [|x l Hs IH Hx]; constructor; [done|].
  eapply Forall_impl; [exact Hx|]. apply HR.
Qed.

Lemma slice_to_length_le {A} (n : Z) (l : list A) :
  0 <= n -> (Z.of_nat (length (Py.slice_to n l)) <= n).
Proof.
  intros Hn. unfold Py.slice_to. destruct (Z.leb_spec 0 n); [|lia].
  rewrite length_take. lia.
Qed.

(** A lexicographic key of an integer and a rational. *)
Lemma lex_key_total (a1 a2 : Z) (b1 b2 : Q) :
  (a1 <? a2) || ((a1 =? a2) && Qle_bool b1 b2) = true
  \/ (a2 <? a1) || ((a2 =? a1) && Qle_bool b2 b1) = true.
Proof.
  destruct (Z.lt_trichotomy a1 a2) as [H|[H|H]].
  - left. apply orb_true_iff. left. by apply Z.ltb_lt.
  - subst. rewrite Z.ltb_irrefl, Z.eqb_refl. simpl.
    destruct (Qlt_le_dec b2 b1) as [Hlt|Hle].
    + right. apply Qle_bool_iff. by apply Qlt_le_weak.
    + left. by apply Qle_bool_iff.
  - right. apply orb_true_iff. left. by apply Z.ltb_lt.
Qed.

Lemma lex_key_spec (a1 a2 : Z) (b1 b2 : Q) :
  (a1 <? a2) || ((a1 =? a2) && Qle_bool b1 b2) = true
  <-> a1 < a2 \/ (a1 = a2 /\ (b1 <= b2)%Q).
Proof.
  rewrite orb_true_iff, andb_true_iff, Z.ltb_lt, Z.eqb_eq, Qle_bool_iff. done.
Qed.

Lemma lex_key_trans (a1 a2 a3 : Z) (b1 b2 b3 : Q) :
  (a1 <? a2) || ((a1 =? a2) && Qle_bool b1 b2) = true ->
  (a2 <? a3) || ((a2 =? a3) && Qle_bool b2 b3) = true ->
  (a1 <? a3) || ((a1 =? a3) && Qle_bool b1 b3) = true.
Proof.
  rewrite !lex_key_spec. intros [H1|[H1 H1']] [H2|[H2 H2']]; try (left; lia).
  right. split; [lia|]. by eapply Qle_trans.
Qed.

Lemma hotel_key_before (a b : Hotel.HotelResult) :
  Hotel.key_leb a b = true -> Ext.hotel_before a b.
Proof.
  unfold Hotel.key_leb, Ext.hotel_before. rewrite lex_key_spec.
  intros [H|[H H']]; [left; lia | right; split; [lia|]].
  by apply Qopp_le_compat in H'; rewrite !Qopp_opp in H'.
Qed.

Lemma restaurant_key_before (a b : Restaurant.RestaurantResult) :
  Restaurant.key_leb a b = true -> Ext.restaurant_before a b.
Proof.
  unfold Restaurant.key_leb, Ext.restaurant_before. rewrite lex_key_spec.
  intros [H|[H H']]; [left; lia | right; split; [lia|]].
  by apply Qopp_le_compat in H'; rewrite !Qopp_opp in H'.
Qed.

(** X2: the hotels a hotel search returns are in order -- by deal score,
    highest first, and by rating, highest first, among equal scores --
    and there are at most ten of them. *)
Theorem hotel_search_sorted_and_capped
    (self : Hotel.HotelWidget) (params : Hotel.HotelSearchParams) :
  StronglySorted Ext.hotel_before (Hotel.search_hotels self params)
  /\ (length (Hotel.search_hotels self params) <= 10)%nat.
Proof.
  unfold Hotel.search_hotels. split.
  - apply slice_to_StronglySorted.
    eapply StronglySorted_impl; [apply hotel_key_before|].
    apply sort_by_StronglySorted.
    + intros x y. apply lex_key_total.
    + intros x y z. apply lex_key_trans.
  - pose proof (slice_to_length_le 10
      (Py.sort_by Hotel.key_leb (Hotel.dedupe (Hotel.candidates self params)))).
    lia.
Qed.

(** ** Scores move with price, stops and rating *)

Lemma int_of_float_mono (q1 q2 : Q) :
  (q1 <= q2)%Q -> Py.int_of_float q1 <= Py.int_of_float q2.
Proof.
  unfold Qle, Py.int_of_float. destruct q1 as [n1 d1], q2 as [n2 d2]. simpl.
  intros H.
  rewrite <- (Z.quot_mul_cancel_r n1 (Z.pos d1) (Z.pos d2)) by lia.
  rewrite <- (Z.quot_mul_cancel_r n2 (Z.pos d2) (Z.pos d1)) by lia.
  rewrite (Z.mul_comm (Z.pos d2) (Z.pos d1)).
  apply Z.quot_le_mono; lia.
Qed.

Lemma clamp_score_mono (a b : Z) : a <= b -> clamp_score a <= clamp_score b.
Proof. unfold clamp_score. lia. Qed.

Lemma flight_base_score_antitone (cabin : Flight.CabinClass) (p1 p2 : Q) :
  (p1 <= p2)%Q -> Flight.base_score p2 cabin <= Flight.base_score p1 cabin.
Proof.
  intros Hp. unfold Flight.base_score.
  destruct (Flight.thresholds cabin) as [[e g] a].
  repeat match goal with
         | |- context [Qle_bool ?x ?y] =>
             let H := fresh "H" in destruct (Qle_bool x y) eqn:H
         end; try lia;
    repeat match goal with
           | H : Qle_bool _ _ = true |- _ => apply Qle_bool_iff in H
           | H : Qle_bool ?x ?y = false |- _ =>
               assert (~ (x <= y)%Q) by (rewrite <- Qle_bool_iff; congruence);
               clear H
           end;
    exfalso; eauto using Qle_trans.
Qed.

(** X3: a flight's deal score never rises with its price and never rises
    with its number of stops: of two flights in the same cabin, the one
    that costs no more and stops no more often scores at least as
    well. *)
Theorem flight_score_monotone
    (cabin : Flight.CabinClass) (p1 p2 : Q) (s1 s2 : Z) :
  (p1 <= p2)%Q -> s1 <= s2 ->
  Flight._calculate_deal_score p2 cabin s2 <= Flight._calculate_deal_score p1 cabin s1.
Proof.
  intros Hp Hs. unfold Flight._calculate_deal_score.
  apply clamp_score_mono, int_of_float_mono.
  pose proof (flight_base_score_antitone cabin p1 p2 Hp) as Hb.
  unfold Qle. simpl. lia.
Qed.

(** Business class at 1900 nonstop against 2100 with one stop. *)
Lemma flight_score_monotone_witness :
  Flight._calculate_deal_score 2100 Flight.BUSINESS 1
  <= Flight._calculate_deal_score 1900 Flight.BUSINESS 0.
Proof.
  apply flight_score_monotone; [unfold Qle; simpl; lia | lia].
Defined.

Lemma hotel_price_score_antitone (p1 p2 : Q) :
  (p1 <= p2)%Q ->
  (if Qle_bool p2 300 then 9 else if Qle_bool p2 500 then 7
   else if Qle_bool p2 800 then 5 else 3)
  <= (if Qle_bool p1 300 then 9 else if Qle_bool p1 500 then 7
      else if Qle_bool p1 800 then 5 else 3).
Proof.
  intros Hp.
  repeat match goal with
         | |- context [Qle_bool ?x ?y] =>
             let H := fresh "H" in destruct (Qle_bool x y) eqn:H
         end; try lia;
    repeat match goal with
           | H : Qle_bool _ _ = true |- _ => apply Qle_bool_iff in H
           | H : Qle_bool ?x ?y = false |- _ =>
               assert (~ (x <= y)%Q) by (rewrite <- Qle_bool_iff; congruence);
               clear H
           end;
    exfalso; eauto using Qle_trans.
Qed.

Lemma hotel_rating_bonus_monotone (r1 r2 : Q) :
  (r1 <= r2)%Q ->
  ((if Qle_bool 4 r1 then (r1 - 4) * 2 else 0)
   <= (if Qle_bool 4 r2 then (r2 - 4) * 2 else 0))%Q.
Proof.
  intros Hr.
  destruct (Qle_bool 4 r1) eqn:H1, (Qle_bool 4 r2) eqn:H2.
  - apply Qmult_le_compat_r; [|done]. by apply Qplus_le_compat; [|apply Qle_refl].
  - apply Qle_bool_iff in H1.
    assert (Qle_bool 4 r2 = true) by (apply Qle_bool_iff; eauto using Qle_trans).
    congruence.
  - apply Qle_bool_iff in H2. destruct r2 as [n d].
    unfold Qle in *. simpl in *. lia.
  - apply Qle_refl.
Qed.

(** X4: a hotel's deal score never rises with its nightly price and never
    falls with its rating. *)
Theorem hotel_score_monotone (p1 p2 r1 r2 : Q) :
  (p1 <= p2)%Q -> (r1 <= r2)%Q ->
  Hotel._calculate_deal_score p2 r1 <= Hotel._calculate_deal_score p1 r2.
Proof.
  intros Hp Hr. unfold Hotel._calculate_deal_score.
  apply clamp_score_mono, int_of_float_mono.
  apply Qplus_le_compat; [|by apply hotel_rating_bonus_monotone].
  rewrite <- Zle_Qle. by apply hotel_price_score_antitone.
Qed.

(** 450 a night rated 4.9 against 550 a night rated 4.2. *)
Lemma hotel_score_monotone_witness :
  Hotel._calculate_deal_score 550 (42 # 10) <= Hotel._calculate_deal_score 450 (49 # 10).
Proof.
  apply hotel_score_monotone; unfold Qle; simpl; lia.
Defined.

(** ** Flags of a parsed flight offer *)

Lemma parse_offer_flags (now : Z) (params : Flight.FlightSearchParams)
    (offer : Flight.Offer) (d : Flight.FlightDeal) :
  Flight.parse_offer now params offer = Some d ->
  Flight.expires_at d
  = (if 8 <=? Flight.deal_score d then Some (now + Flight.hours 12) else None)
  /\ Flight.price d = default 0%Q (float_of 0 (Flight.price_total offer))
  /\ -1 <= Flight.stops d.
Proof.
  unfold Flight.parse_offer. intros H.
  destruct (float_of 0 (Flight.price_total offer)) as [price|]; [|done].
  simpl in H.
  destruct (Flight.itineraries offer) as [[|it its]|]; simplify_eq/=;
    (split; [done|split; [done|lia]]).
Qed.

Lemma flight_score_with_stops (price : Q) (cabin : Flight.CabinClass) (stops : Z) :
  (1 <= stops -> Flight._calculate_deal_score price cabin stops <= 8)
  /\ (3 <= stops -> Flight._calculate_deal_score price cabin stops <= 7)
  /\ (5 <= stops -> Flight._calculate_deal_score price cabin stops <= 6).
Proof.
  assert (Flight.base_score price cabin <= 9) as Hb.
  { unfold Flight.base_score. destruct (Flight.thresholds cabin) as [[e g] a].
    repeat case_match; lia. }
  unfold Flight._calculate_deal_score, Py.int_of_float, clamp_score. simpl.
  change (Z.pos (1 * 2)) with 2.
  split_and!; intros Hs; Z.to_euclidean_division_equations; lia.
Qed.

(** X5: for a deal parsed from an Amadeus offer, the mistake-fare flag is
    set exactly when the deal score is 9 or more and the expiry exactly
    when it is 8 or more (twelve hours after the clock reading).  Hence a
    flight with one stop or more is never flagged as a mistake fare,
    whatever its price; one with three stops or more never expires; one
    with five stops or more shows no savings; and a mistake fare always
    has the urgency critical, an expiry and the savings percent 26. *)
Theorem parsed_flight_flags (now : Z) (params : Flight.FlightSearchParams)
    (offer : Flight.Offer) (d : Flight.FlightDeal) :
  Flight.parse_offer now params offer = Some d ->
  (Flight.is_mistake_fare d = true <-> 9 <= Flight.deal_score d)
  /\ (is_Some (Flight.expires_at d) <-> 8 <= Flight.deal_score d)
  /\ (1 <= Flight.stops d -> Flight.is_mistake_fare d = false)
  /\ (3 <= Flight.stops d -> Flight.expires_at d = None)
  /\ (5 <= Flight.stops d ->
      Flight.savings_percent d = None /\ Flight.original_price d = None)
  /\ (Flight.is_mistake_fare d = true ->
      Flight.urgency d = Flight.CRITICAL
      /\ Flight.expires_at d = Some (now + Flight.hours 12)
      /\ Flight.savings_percent d = Some 26).
Proof.
  intros H.
  pose proof (parse_offer_fields _ _ _ _ H) as (Hs & Hu & Ho & Hp & Hm & _).
  pose proof (parse_offer_flags _ _ _ _ H) as (He & _ & _).
  cbv zeta in *.
  pose proof (flight_score_with_stops (Flight.price d) (Flight.cabin_class params)
                (Flight.stops d)) as (H1 & H3 & H5).
  rewrite <- Hs in *. rewrite Hm, He, Hp, Ho, Hu.
  unfold Flight._determine_urgency.
  split_and!.
  - apply Z.leb_le.
  - destruct (Z.leb_spec 8 (Flight.deal_score d)) as [Hge|Hlt]; split;
      intros Hx; try done; try lia; by destruct Hx.
  - intros Hst. apply Z.leb_gt. specialize (H1 Hst). lia.
  - intros Hst. specialize (H3 Hst).
    destruct (Z.leb_spec 8 (Flight.deal_score d)); [lia | done].
  - intros Hst. specialize (H5 Hst).
    destruct (Z.leb_spec 7 (Flight.deal_score d)); [lia | done].
  - intros H9. rewrite H9. apply Z.leb_le in H9.
    destruct (Z.leb_spec 8 (Flight.deal_score d)); [|lia].
    destruct (Z.leb_spec 7 (Flight.deal_score d)); [done | lia].
Qed.

(** The offer at 1500 with one stop: score 8, no mistake fare. *)
Lemma parsed_flight_flags_witness :
  exists d,
    Flight.parse_offer 0 Inv.jfk_cdg Ext.one_stop_offer = Some d
    /\ (Flight.is_mistake_fare d = true <-> 9 <= Flight.deal_score d)
    /\ (is_Some (Flight.expires_at d) <-> 8 <= Flight.deal_score d)
    /\ (1 <= Flight.stops d -> Flight.is_mistake_fare d = false)
    /\ (3 <= Flight.stops d -> Flight.expires_at d = None)
    /\ (5 <= Flight.stops d ->
        Flight.savings_percent d = None /\ Flight.original_price d = None)
    /\ (Flight.is_mistake_fare d = true ->
        Flight.urgency d = Flight.CRITICAL
        /\ Flight.expires_at d = Some (0 + Flight.hours 12)
        /\ Flight.savings_percent d = Some 26).
Proof.
  eexists. split; [vm_compute; reflexivity|].
  apply (parsed_flight_flags 0 Inv.jfk_cdg Ext.one_stop_offer).
  vm_compute. reflexivity.
Defined.

(** X6: an offer that names no price total is parsed with the price 0;
    with one segment or none it then gets the deal score 9 in every cabin
    and is flagged as a mistake fare with the urgency critical. *)
Theorem unpriced_offer_is_top_deal (now : Z) (params : Flight.FlightSearchParams)
    (offer : Flight.Offer) (d : Flight.FlightDeal) :
  Flight.price_total offer = Absent ->
  Flight.parse_offer now params offer = Some d ->
  Flight.price d = 0%Q
  /\ (Flight.stops d <= 0 ->
      Flight.deal_score d = 9
      /\ Flight.is_mistake_fare d = true
      /\ Flight.urgency d = Flight.CRITICAL).
Proof.
  intros Ha H.
  pose proof (parse_offer_fields _ _ _ _ H) as (Hs & Hu & _ & _ & Hm & _).
  pose proof (parse_offer_flags _ _ _ _ H) as (_ & Hp & Hst).
  cbv zeta in *. rewrite Ha in Hp. simpl in Hp. split; [done|].
  intros Hle.
  assert (Flight.deal_score d = 9) as H9.
  { rewrite Hs, Hp.
    assert (Flight.stops d = -1 \/ Flight.stops d = 0) as [-> | ->] by lia;
      by destruct (Flight.cabin_class params). }
  rewrite Hm, Hu, <- Hs, H9. done.
Qed.

(** The nonstop offer without a price. *)
Lemma unpriced_offer_is_top_deal_witness :
  exists d,
    Flight.parse_offer 0 Inv.jfk_cdg Ext.unpriced_offer = Some d
    /\ Flight.price d = 0%Q
    /\ (Flight.stops d <= 0 ->
        Flight.deal_score d = 9
        /\ Flight.is_mistake_fare d = true
        /\ Flight.urgency d = Flight.CRITICAL).
Proof.
  eexists. split; [vm_compute; reflexivity|].
  apply (unpriced_offer_is_top_deal 0 Inv.jfk_cdg Ext.unpriced_offer);
    vm_compute; reflexivity.
Defined.

(** ** More on the deduplication *)

Lemma dedupe_from_distinct (l : list Hotel.HotelResult) (seen : gset string) :
  NoDup (Hotel.name_key <$> l) ->
  Forall (fun h => Hotel.name_key h ∉ seen) l ->
  Inv.dedupe_from seen l = l.
Proof.
  revert seen. induction l as [|h t IH]; intros seen Hnd Hfresh; simpl; [done|].
  rewrite fmap_cons in Hnd. apply NoDup_cons in Hnd as [Hh Hnd].
  apply Forall_cons in Hfresh as [Hk Hfresh].
  rewrite decide_False by done. f_equal. apply IH; [done|].
  apply Forall_forall. intros x Hx.
  rewrite Forall_forall in Hfresh. specialize (Hfresh x Hx).
  apply not_elem_of_union. split; [|done].
  apply not_elem_of_singleton. intros Heq. apply Hh.
  rewrite <- Heq. apply list_elem_of_fmap. by exists x.
Qed.

(** X8: deduplicating twice is deduplicating once, a list whose name keys
    are all different is left as it is, and what is kept stays in the
    order of the input. *)
Theorem dedupe_idempotent (l : list Hotel.HotelResult) :
  Hotel.dedupe (Hotel.dedupe l) = Hotel.dedupe l
  /\ (NoDup (Hotel.name_key <$> l) -> Hotel.dedupe l = l)
  /\ Hotel.dedupe l `sublist_of` l.
Proof.
  assert (forall l', NoDup (Hotel.name_key <$> l') -> Hotel.dedupe l' = l') as Hd.
  { intros l' Hnd. rewrite dedupe_recursive. apply dedupe_from_distinct; [done|].
    apply Forall_forall. intros x _. apply not_elem_of_empty. }
  split_and!.
  - apply Hd, dedupe_NoDup.
  - apply Hd.
  - rewrite dedupe_recursive. apply dedupe_from_sublist.
Qed.

(** The three mock hotels of Paris have three different keys. *)
Lemma dedupe_idempotent_witness :
  Hotel.dedupe (Hotel._get_mock_hotels Inv.paris_stay)
  = Hotel._get_mock_hotels Inv.paris_stay.
Proof.
  apply (proj1 (proj2 (dedupe_idempotent _))).
  vm_compute. repeat constructor; set_solver.
Defined.

(** ** Nights and prices *)



(** ** The mock hotels *)

Lemma assoc_In {V} (k : string) (l : list (string * V)) (v : V) :
  Py.assoc String.eqb k l = Some v -> v ∈ l.*2.
Proof.
  induction l as [|[k' v'] l IH]; simpl; [done|].
  destruct (String.eqb k k'); intros H.
  - injection H as ->. apply elem_of_cons. by left.
  - apply elem_of_cons. right. by apply IH.
Qed.

Lemma fmap_imap_indep {A B C} (g : nat -> A -> B) (h : B -> C) (k : A -> C)
    (l : list A) :
  (forall i a, h (g i a) = k a) -> h <$> imap g l = k <$> l.
Proof.
  revert g. induction l as [|x l IH]; intros g Hg; simpl; [done|].
  rewrite Hg. f_equal. apply IH. intros i a. apply Hg.
Qed.

Lemma mock_result_key (ll dc : string) (nights : Z) (l : list Hotel.MockHotel) :
  Hotel.name_key <$> imap (Hotel.mock_result ll dc nights) l
  = (fun d => Py.str_take 20 (Py.replace " " "" (Py.lower (Hotel.mock_name d)))) <$> l.
Proof. by apply fmap_imap_indep. Qed.

Lemma mock_table_rows :
  Forall (fun data =>
            length data = 3%nat
            /\ NoDup ((fun d => Py.str_take 20
                                  (Py.replace " " "" (Py.lower (Hotel.mock_name d))))
                        <$> data))
         Hotel.mock_data.*2.
Proof.
  simpl. repeat (constructor; [split; [reflexivity|]; vm_compute;
                               repeat (constructor; [set_solver|]); constructor |]).
  constructor.
Qed.

Lemma mock_hotels_three (params : Hotel.HotelSearchParams) :
  length (Hotel._get_mock_hotels params) = 3%nat
  /\ NoDup (Hotel.name_key <$> Hotel._get_mock_hotels params).
Proof.
  unfold Hotel._get_mock_hotels. rewrite length_imap, mock_result_key.
  destruct (Py.assoc String.eqb _ Hotel.mock_data) as [data|] eqn:E.
  - apply assoc_In in E. pose proof mock_table_rows as Hrows.
    rewrite Forall_forall in Hrows. destruct (Hrows data E) as [Hlen Hnd].
    destruct data as [|d ds]; [done|]. done.
  - split; [reflexivity|]. simpl.
    repeat (constructor; [rewrite ?elem_of_cons, ?elem_of_nil; intros H;
                          repeat destruct H as [H|H]; discriminate || done |]).
    constructor.
Qed.

(** X10: with no provider configured, and equally when the provider raises
    or returns nothing usable, a hotel search returns exactly three
    hotels for every location, known to the mock table or not, each with
    the deal score 8, the urgency high, five stars and 20 percent
    savings. *)
Theorem unconfigured_hotel_search_returns_three (params : Hotel.HotelSearchParams) :
  length (Hotel.search_hotels Inv.hotels_unconfigured params) = 3%nat
  /\ Forall Ext.mock_hotel_shape (Hotel.search_hotels Inv.hotels_unconfigured params)
  /\ Hotel.search_hotels Inv.hotels_unconfigured params
     ≡ₚ Hotel._get_mock_hotels params
  /\ (forall results,
      Hotel._parse_amadeus_results results params = [] ->
      Hotel.search_hotels (Inv.hotels_from results) params
      = Hotel.search_hotels Inv.hotels_unconfigured params).
Proof.
  destruct (mock_hotels_three params) as [Hlen Hnd].
  assert (Hotel.search_hotels Inv.hotels_unconfigured params
          ≡ₚ Hotel._get_mock_hotels params) as Hperm.
  { unfold Hotel.search_hotels, Hotel.candidates. simpl.
    destruct (Hotel._get_mock_hotels params) as [|h t] eqn:E; [done|].
    rewrite <- E in *. rewrite dedupe_recursive.
    rewrite dedupe_from_distinct; [| done |].
    - rewrite slice_to_short; [apply sort_by_perm|].
      rewrite sort_by_length, Hlen. lia.
    - apply Forall_forall. intros x _. apply not_elem_of_empty. }
  split_and!.
  - by rewrite Hperm.
  - rewrite Hperm. apply imap_Forall. intros i a.
    unfold Ext.mock_hotel_shape. simpl. done.
  - done.
  - intros results Hr. unfold Hotel.search_hotels, Hotel.candidates. simpl.
    by rewrite Hr.
Qed.

(** An offer without a usable price falls back to the mock hotels. *)
Lemma unconfigured_hotel_search_returns_three_witness :
  Hotel.search_hotels
    (Inv.hotels_from [ {| Hotel.hotel := None; Hotel.offers := Some [] |} ]) Inv.paris_stay
  = Hotel.search_hotels Inv.hotels_unconfigured Inv.paris_stay.
Proof.
  apply (proj2 (proj2 (proj2 (unconfigured_hotel_search_returns_three Inv.paris_stay)))).
  reflexivity.
Defined.

(** ** Restaurants *)

Lemma restaurant_table_rows :
  Forall (fun data => length data = 3%nat) Restaurant.mock_data.*2.
Proof. simpl. repeat (constructor; [reflexivity|]). constructor. Qed.

(** X11: a restaurant search returns exactly three restaurants for every
    location, in order of Michelin stars, most first, and of rating,
    highest first, among equal stars.  For a location the mock table does
    not know it returns the three restaurants of Paris -- Le Cinq,
    L'Ambroisie, Septime -- shown with the requested location as their
    city. *)
Theorem restaurant_search_returns_three
    (samples : nat -> list string) (params : Restaurant.RestaurantSearchParams) :
  length (Restaurant.search_restaurants samples params) = 3%nat
  /\ StronglySorted Ext.restaurant_before (Restaurant.search_restaurants samples params)
  /\ (Py.assoc String.eqb (Py.lower (Restaurant.location params)) Restaurant.mock_data
      = None ->
      Restaurant.name <$> Restaurant.search_restaurants samples params
      = ["Le Cinq"; "L'Ambroisie"; "Septime"]
      /\ Forall (fun r => Restaurant.city r = Py.title (Restaurant.location params))
                (Restaurant.search_restaurants samples params)).
Proof.
  assert (length (Restaurant._get_mock_restaurants samples params) = 3%nat) as Hlen.
  { unfold Restaurant._get_mock_restaurants. rewrite length_imap.
    destruct (Py.assoc String.eqb _ Restaurant.mock_data) as [data|] eqn:E;
      [|reflexivity].
    apply assoc_In in E. pose proof restaurant_table_rows as Hrows.
    rewrite Forall_forall in Hrows. exact (Hrows data E). }
  unfold Restaurant.search_restaurants. split_and!.
  - rewrite slice_to_short; rewrite sort_by_length, Hlen; [done | lia].
  - apply slice_to_StronglySorted.
    eapply StronglySorted_impl; [apply restaurant_key_before|].
    apply sort_by_StronglySorted.
    + intros x y. apply lex_key_total.
    + intros x y z. apply lex_key_trans.
  - intros Hnone. unfold Restaurant._get_mock_restaurants. rewrite Hnone.
    split; [reflexivity|].
    apply slice_to_Forall, sort_by_Forall, imap_Forall. done.
Qed.

(** Berlin is not in the mock table. *)
Lemma restaurant_search_returns_three_witness :
  Restaurant.name <$> Restaurant.search_restaurants (fun _ => []) Ext.berlin_dinner
  = ["Le Cinq"; "L'Ambroisie"; "Septime"]
  /\ Forall (fun r => Restaurant.city r = Py.title (Restaurant.location Ext.berlin_dinner))
            (Restaurant.search_restaurants (fun _ => []) Ext.berlin_dinner).
Proof.
  apply (proj2 (proj2 (restaurant_search_returns_three (fun _ => []) Ext.berlin_dinner))).
  reflexivity.
Defined.

(** ** A message that is not an object *)

Section Keeps.
Import Webhook.
Context (P : event -> Prop) (E : exn -> Prop).

Lemma keeps_ret {A} (a : A) : Ext.keeps P E (ret a).
Proof. split; [constructor | done]. Qed.

Lemma keeps_lift {A} (x : exn + A) :
  (forall e, x = inl e -> E e) -> Ext.keeps P E (lift x).
Proof. intros H. split; [constructor | done]. Qed.

Lemma keeps_log (ev : event) : P ev -> Ext.keeps P E (log ev).
Proof. intros H. split; [by repeat constructor | done]. Qed.

Lemma keeps_bind {A B} (m : M A) (f : A -> M B) :
  Ext.keeps P E m -> (forall a, Ext.keeps P E (f a)) -> Ext.keeps P E (bind m f).
Proof.
  intros [Hl He] Hf. destruct m as [l [e|a]]; simpl in *.
  - split; [done|]. intros e' [= ->]. by apply He.
  - destruct (Hf a) as [Hl' He']. destruct (f a) as [l' r]. simpl in *.
    split; [by apply Forall_app | done].
Qed.

Lemma keeps_for_each {A} (xs : list A) (body : A -> M unit) :
  (forall x, Ext.keeps P E (body x)) -> Ext.keeps P E (for_each xs body).
Proof.
  intros Hb. induction xs as [|x xs IH]; simpl; [apply keeps_ret|].
  apply keeps_bind; [apply Hb | intros _; apply IH].
Qed.
End Keeps.

Lemma for_each_raises {A} (xs : list A) (body : A -> Webhook.M unit) (x : A)
    (e0 : Webhook.exn) :
  x ∈ xs -> (body x).2 = inl e0 ->
  exists e, (Webhook.for_each xs body).2 = inl e.
Proof.
  intros Hin Hx. induction xs as [|y ys IH]; [by apply elem_of_nil in Hin|].
  simpl. apply elem_of_cons in Hin as [<-|Hin].
  - destruct (body x) as [l [e|[]]]; simpl in *; [by eexists | done].
  - destruct (body y) as [l [e|[]]]; simpl; [by eexists|].
    destruct (IH Hin) as [e He].
    destruct (Webhook.for_each ys body) as [l' r]. simpl in *. by eexists.
Qed.

Lemma handle_message_keeps (message : json) :
  Ext.keeps Ext.not_status (fun e => e = Webhook.AttributeError)
            (Webhook.handle_message message).
Proof.
  assert (forall d k v, Ext.keeps Ext.not_status (fun e => e = Webhook.AttributeError)
                          (Webhook.lift (Webhook.get d k v))) as Hget.
  { intros d k v. apply keeps_lift. intros e. destruct d; simpl; congruence. }
  assert (forall v, Ext.keeps Ext.not_status (fun e => e = Webhook.AttributeError)
                      (Webhook.lift (Webhook.as_str v))) as Hstr.
  { intros v. apply keeps_lift. intros e. destruct v; simpl; congruence. }
  unfold Webhook.handle_message.
  repeat first [ apply Hget | apply Hstr | apply keeps_ret
               | apply keeps_log; intros ? ?; discriminate
               | apply keeps_bind; [|intros ?]
               | case_match ].
Qed.

Lemma bind_log {B} (ev : Webhook.event) (f : unit -> Webhook.M B) :
  Webhook.bind (Webhook.log ev) f = (ev :: (f tt).1, (f tt).2).
Proof. unfold Webhook.bind, Webhook.log. by destruct (f tt). Qed.

Lemma bind_raises {A B} (m : Webhook.M A) (f : A -> Webhook.M B) (e : Webhook.exn) :
  m.2 = inl e -> Webhook.bind m f = (m.1, inl e).
Proof. destruct m as [l [e'|a]]; simpl; congruence. Qed.

Lemma get_head (k : string) (v d : json) (rest : list (string * json)) :
  Webhook.get (JObj ((k, v) :: rest)) k d = inr v.
Proof. simpl. by rewrite String.eqb_refl. Qed.

(** What [process] does with a delivery, up to the loop over the
    messages. *)
Lemma process_delivery (messages statuses : list json) :
  exists K,
    Webhook.process (Ext.delivery messages statuses)
    = (Webhook.WebhookReceived
         :: (Webhook.bind (Webhook.for_each messages Webhook.handle_message) K).1,
       (Webhook.bind (Webhook.for_each messages Webhook.handle_message) K).2).
Proof.
  eexists. unfold Webhook.process, Ext.delivery. rewrite bind_log.
  repeat (rewrite get_head
          || change (Webhook.index0 (JArr (?x :: ?l))) with (@inr Webhook.exn _ x)
          || change (Webhook.iterate (JArr ?l)) with (@inr Webhook.exn _ l)
          || change (Webhook.lift (inr ?x)) with (Webhook.ret x)
          || rewrite bind_ret_l).
  reflexivity.
Qed.

(** X12: when a delivery that is not signature-checked carries a message
    that is not a JSON object, the handler stops at that message: it
    replies with the error [AttributeError], and none of the status
    updates of the delivery is handled. *)
Theorem malformed_message_drops_statuses
    (lib : Webhook.Lib) (APP_SECRET : string) (request : Webhook.Request)
    (body_str : string) (messages statuses : list json) (m : json) :
  Webhook.x_hub_signature_256 request = None ->
  Webhook.utf8_decode lib (Webhook.body request) = Some body_str ->
  Webhook.json_loads lib body_str = Some (Ext.delivery messages statuses) ->
  m ∈ messages ->
  (forall fields, m <> JObj fields) ->
  let r := Webhook.whatsapp_incoming lib APP_SECRET request in
  Webhook.content r.2 = Webhook.Error Webhook.AttributeError
  /\ Forall (fun ev => Ext.not_status ev \/ ev = Webhook.WebhookError Webhook.AttributeError)
            r.1.
Proof.
  intros Hsig Hdec Hjson Hin Hm r. subst r.
  rewrite incoming_cases, Hdec.
  unfold Webhook.signature. rewrite Hsig.
  cbn [default from_option id]. rewrite String.eqb_refl, andb_false_r.
  unfold Webhook.accept, Webhook.decode, Webhook.loads. rewrite Hdec.
  change (Webhook.lift (inr body_str)) with (Webhook.ret body_str).
  rewrite bind_ret_l, Hjson.
  change (Webhook.lift (inr (Ext.delivery messages statuses)))
    with (Webhook.ret (Ext.delivery messages statuses)).
  rewrite bind_ret_l.
  destruct (process_delivery messages statuses) as [K ->].
  assert ((Webhook.handle_message m).2 = inl Webhook.AttributeError) as Hbad.
  { unfold Webhook.handle_message. destruct m; try reflexivity. by destruct (Hm fields). }
  destruct (for_each_raises messages Webhook.handle_message m _ Hin Hbad) as [e He].
  pose proof (keeps_for_each Ext.not_status (fun e => e = Webhook.AttributeError)
                messages Webhook.handle_message handle_message_keeps) as [Hlog Hexn].
  rewrite (Hexn e He) in He. rewrite (bind_raises _ K _ He).
  cbn [fst snd]. unfold Webhook.respond. cbn [fst snd Webhook.content].
  split; [done|].
  constructor; [left; intros ? ?; discriminate|].
  apply Forall_app. split.
  - eapply Forall_impl; [exact Hlog|]. by left.
  - constructor; [by right|constructor].
Qed.

(** A delivery whose first message is a string. *)
Lemma malformed_message_drops_statuses_witness :
  let r := Webhook.whatsapp_incoming
             {| Webhook.hmac_sha256_hexdigest := fun _ _ => "abcd";
                Webhook.utf8_decode := Some;
                Webhook.json_loads := fun _ =>
                  Some (Ext.delivery [JStr "hello"]
                          [JObj [("status", JStr "read"); ("recipient_id", JStr "9")]]) |}
             "s3cret" Inv.unsigned_request in
  Webhook.content r.2 = Webhook.Error Webhook.AttributeError
  /\ Forall (fun ev => Ext.not_status ev \/ ev = Webhook.WebhookError Webhook.AttributeError)
            r.1.
Proof.
  apply (malformed_message_drops_statuses _ "s3cret" Inv.unsigned_request "{...}"
           [JStr "hello"]
           [JObj [("status", JStr "read"); ("recipient_id", JStr "9")]]
           (JStr "hello")); try reflexivity.
  - apply elem_of_cons. by left.
  - intros fields. discriminate.
Defined.

(** ** City codes *)

Lemma upper_char_idem (c : ascii) : Py.upper_char (Py.upper_char c) = Py.upper_char c.
Proof. destruct c as [[] [] [] [] [] [] [] []]; reflexivity. Qed.

Lemma upper_lower_char (c : ascii) :
  Py.upper_char c = c -> Py.upper_char (Py.lower_char c) = c.
Proof. destruct c as [[] [] [] [] [] [] [] []]; vm_compute; congruence. Qed.

Lemma upper_char_not_lower (c : ascii) : Py.is_lower c = false -> Py.upper_char c = c.
Proof. unfold Py.upper_char. by intros ->. Qed.

Lemma upper_idem (s : string) : Py.upper (Py.upper s) = Py.upper s.
Proof.
  induction s as [|c s IH]; [done|].
  unfold Py.upper in *. simpl. by rewrite upper_char_idem, IH.
Qed.

Lemma upper_lower (s : string) : Py.upper s = s -> Py.upper (Py.lower s) = s.
Proof.
  induction s as [|c s IH]; [done|].
  unfold Py.upper, Py.lower in *. simpl. intros [= Hc Hs].
  by rewrite upper_lower_char, IH.
Qed.

Lemma upper_no_lower (s : string) :
  existsb Py.is_lower (list_ascii_of_string s) = false -> Py.upper s = s.
Proof.
  induction s as [|c s IH]; [done|].
  unfold Py.upper in *. simpl. intros [Hc Hs]%orb_false_elim.
  by rewrite upper_char_not_lower, IH.
Qed.

Lemma str_map_length (f : ascii -> ascii) (s : string) :
  String.length (Py.str_map f s) = String.length s.
Proof. induction s; simpl; congruence. Qed.

Lemma str_take_length (n : nat) (s : string) :
  (String.length (Py.str_take n s) <= n)%nat.
Proof. revert s; induction n; intros [|c s]; simpl; try lia. specialize (IHn s). lia. Qed.

Lemma str_take_all (n : nat) (s : string) :
  (String.length s <= n)%nat -> Py.str_take n s = s.
Proof.
  revert s; induction n; intros [|c s]; simpl; try done; try lia.
  intros H. f_equal. apply IHn. lia.
Qed.

Lemma lstrip_length (s : string) : (String.length (Py.lstrip s) <= String.length s)%nat.
Proof. induction s as [|c s IH]; simpl; [lia|]. destruct (Py.is_space c); simpl; lia. Qed.

Lemma lstrip_full (s : string) :
  String.length (Py.lstrip s) = String.length s -> Py.lstrip s = s.
Proof.
  destruct s as [|c s]; simpl; [done|].
  destruct (Py.is_space c); [|done].
  pose proof (lstrip_length s). lia.
Qed.

Lemma length_string_of_list (l : list ascii) :
  String.length (string_of_list_ascii l) = length l.
Proof. induction l; simpl; congruence. Qed.

Lemma length_list_of_string (s : string) :
  length (list_ascii_of_string s) = String.length s.
Proof. induction s; simpl; congruence. Qed.

Lemma str_rev_length (s : string) : String.length (Py.str_rev s) = String.length s.
Proof.
  unfold Py.str_rev. by rewrite length_string_of_list, length_rev, length_list_of_string.
Qed.

Lemma str_rev_involutive (s : string) : Py.str_rev (Py.str_rev s) = s.
Proof.
  unfold Py.str_rev.
  by rewrite list_ascii_of_string_of_list_ascii, rev_involutive,
    string_of_list_ascii_of_string.
Qed.

Lemma strip_length (s : string) : (String.length (Py.strip s) <= String.length s)%nat.
Proof.
  unfold Py.strip. rewrite str_rev_length.
  pose proof (lstrip_length (Py.str_rev (Py.lstrip s))) as H.
  rewrite str_rev_length in H. pose proof (lstrip_length s). lia.
Qed.

Lemma strip_full (s : string) :
  String.length (Py.strip s) = String.length s -> Py.strip s = s.
Proof.
  unfold Py.strip. rewrite str_rev_length. intros H.
  pose proof (lstrip_length (Py.str_rev (Py.lstrip s))) as H1.
  rewrite str_rev_length in H1. pose proof (lstrip_length s) as H2.
  assert (Py.lstrip s = s) as Hs by (apply lstrip_full; lia).
  rewrite Hs in *.
  rewrite (lstrip_full (Py.str_rev s)) by (rewrite str_rev_length; lia).
  apply str_rev_involutive.
Qed.

(** Every entry of the table is three capital letters, and the only key
    of at most three characters is [nyc]. *)
Lemma city_map_entries (k code : string) :
  Py.assoc String.eqb k HotelClient.city_map = Some code ->
  String.length code = 3%nat /\ Py.upper code = code
  /\ ((String.length k <= 3)%nat -> k = "nyc" /\ code = "NYC").
Proof.
  unfold HotelClient.city_map. simpl.
  repeat (match goal with
          | |- context [String.eqb k ?s] => destruct (String.eqb_spec k s) as [->|_]
          end;
          [intros [= <-]; split_and!; try reflexivity; simpl; (lia || done)|]).
  done.
Qed.

Lemma city_code_of_code (code : string) :
  (String.length code <= 3)%nat -> Py.upper code = code ->
  HotelClient._get_city_code code = code.
Proof.
  intros Hlen Hup. unfold HotelClient._get_city_code.
  destruct (Py.assoc String.eqb _ HotelClient.city_map) as [c|] eqn:Hc.
  - apply city_map_entries in Hc as (_ & _ & Hk).
    pose proof (strip_length (Py.lower code)) as Hs.
    unfold Py.lower in Hs at 2. rewrite str_map_length in Hs.
    destruct Hk as [Hk ->]; [lia|].
    assert (String.length (Py.strip (Py.lower code)) = 3%nat) as H3 by by rewrite Hk.
    rewrite strip_full in Hk
      by (unfold Py.lower at 2; rewrite str_map_length; lia).
    rewrite <- (upper_lower code Hup), Hk. reflexivity.
  - destruct (_ && _); [done|]. by rewrite str_take_all, Hup.
Qed.

(** X13: the city code sent to the provider has at most three characters
    and no lowercase letter, and it is a fixed point: the code of a code
    is that code.  (For ASCII locations, on which [lower] and [upper] act
    letter by letter.) *)
Theorem city_code_is_stable (location : string) :
  Webhook.is_ascii location = true ->
  let code := HotelClient._get_city_code location in
  (String.length code <= 3)%nat
  /\ Py.upper code = code
  /\ HotelClient._get_city_code code = code.
Proof.
  intros _ code.
  assert ((String.length code <= 3)%nat /\ Py.upper code = code) as [Hlen Hup].
  { subst code. unfold HotelClient._get_city_code.
    destruct (Py.assoc String.eqb _ HotelClient.city_map) as [c|] eqn:Hc.
    - apply city_map_entries in Hc as (-> & ? & _). split; [lia|done].
    - destruct (_ && _) eqn:Hb.
      + apply andb_prop in Hb as [H3%Nat.eqb_eq Hu].
        split; [lia|]. apply upper_no_lower.
        unfold HotelClient.isupper in Hu. apply andb_prop in Hu as [_ Hu].
        by apply negb_true_iff in Hu.
      + split; [|apply upper_idem].
        unfold Py.upper. rewrite str_map_length. apply str_take_length. }
  split_and!; [done..|]. by apply city_code_of_code.
Qed.

(** San Francisco is in the table. *)
Lemma city_code_is_stable_witness :
  let code := HotelClient._get_city_code "San Francisco" in
  code = "SFO"
  /\ (String.length code <= 3)%nat
  /\ Py.upper code = code
  /\ HotelClient._get_city_code code = code.
Proof.
  split; [reflexivity|]. exact (city_code_is_stable "San Francisco" eq_refl).
Defined.

(** ** Widget data *)

(** A search capped at one result returns one deal, for the route that
    was asked. *)
Lemma search_one_deal (self : Flight.FlightWidget) (now jitter : Z)
    (params : Flight.FlightSearchParams) :
  Flight.max_results params = 1 ->
  exists d, Flight.search_flights self now jitter params = [d]
            /\ Flight.deal_origin d = Flight.origin params
            /\ Flight.deal_destination d = Flight.destination params.
Proof.
  intros Hcap.
  pose proof (flight_candidates_Forall
                (fun d => Flight.deal_origin d = Flight.origin params
                          /\ Flight.deal_destination d = Flight.destination params)
                self now jitter params) as Hall.
  assert (length (Flight.search_flights self now jitter params) = 1%nat) as Hlen.
  { unfold Flight.search_flights. rewrite Hcap. unfold Py.slice_to. simpl.
    rewrite length_take, sort_by_length.
    destruct (Flight.amadeus self) as [client|]; [|simpl; lia].
    destruct (client params) as [rs|e]; [|simpl; lia].
    destruct (Flight._parse_amadeus_results now rs params); simpl; lia. }
  destruct (Flight.search_flights self now jitter params) as [|d [|]]; try done.
  exists d. split; [done|].
  refine (Forall_inv (Hall _ _)).
  - intros offer d'. unfold Flight.parse_offer. intros H. by simplify_option_eq.
  - by repeat constructor.
Qed.

(** The loop of [get_widget_data] appends one deal per route, in the
    order of the routes, until [max_deals] deals are there; it takes the
    first route in any case. *)
Lemma collect_spec (self : Flight.FlightWidget) (r : FlightFeed.Readings) (max_deals : Z)
    (routes : list (string * string * string)) :
  forall (i : nat) (deals : list Flight.FlightDeal),
  exists ds,
    FlightFeed.collect self r max_deals i routes deals = deals ++ ds
    /\ length ds
       = (length routes `min` Z.to_nat (Z.max 1 (max_deals - Z.of_nat (length deals))))%nat
    /\ (fun d => (Flight.deal_origin d, Flight.deal_destination d)) <$> ds
       = take (length ds) (fst <$> routes).
Proof.
  induction routes as [|route rest IH]; intros i deals.
  { exists []. by rewrite app_nil_r. }
  cbn [FlightFeed.collect]. destruct (FlightFeed.search_reading r i) as [now jitter].
  destruct (search_one_deal self now jitter (FlightFeed.route_params r route) eq_refl)
    as (d & -> & Ho & Hd).
  assert ((Flight.deal_origin d, Flight.deal_destination d) = route.1) as Hroute.
  { rewrite Ho, Hd. simpl. by destruct route as [[] ?]. }
  cbv zeta. rewrite length_app. cbn [length].
  destruct (Z.leb_spec max_deals (Z.of_nat (length deals + 1))) as [Hle|Hgt].
  - exists [d]. split_and!; [done| |].
    + cbn [length]. lia.
    + cbn [length fmap list_fmap take]. by rewrite Hroute.
  - destruct (IH (S i) (deals ++ [d])) as (ds & -> & Hlen & Hod).
    rewrite length_app in Hlen. cbn [length] in Hlen.
    exists (d :: ds). split_and!.
    + by rewrite <- app_assoc.
    + cbn [length]. lia.
    + cbn [length fmap list_fmap take]. rewrite Hroute. f_equal. exact Hod.
Qed.

(** The deals [get_widget_data] has collected when it builds its result. *)
Lemma widget_deals_spec (self : Flight.FlightWidget) (r : FlightFeed.Readings)
    (max_deals : Z) :
  let deals := FlightFeed.widget_deals self r max_deals in
  (1 <= max_deals ->
   length deals = Z.to_nat (Z.min max_deals 5)
   /\ (fun d => (Flight.deal_origin d, Flight.deal_destination d)) <$> deals
      = take (Z.to_nat (Z.min max_deals 5)) (fst <$> FlightFeed.DEFAULT_ROUTES))
  /\ (max_deals <= 0 -> exists top, deals = [top]).
Proof.
  unfold FlightFeed.widget_deals.
  destruct (collect_spec self r max_deals
              (Py.slice_to (max_deals + 2) FlightFeed.DEFAULT_ROUTES) 0%nat [])
    as (ds & -> & Hlen & Hod).
  cbn [app length] in Hlen |- *. rewrite Z.sub_0_r in Hlen.
  assert ((0 <= max_deals + 2 ->
           length (Py.slice_to (max_deals + 2) FlightFeed.DEFAULT_ROUTES)
           = (Z.to_nat (max_deals + 2) `min` 5)%nat)
          /\ (max_deals + 2 < 0 ->
              length (Py.slice_to (max_deals + 2) FlightFeed.DEFAULT_ROUTES)
              = Z.to_nat (max_deals + 7))) as [Hsome Hfew].
  { unfold Py.slice_to.
    destruct (Z.leb_spec 0 (max_deals + 2)); rewrite length_take;
      change (length FlightFeed.DEFAULT_ROUTES) with 5%nat; lia. }
  split.
  - intros Hpos. rewrite Hsome in Hlen by lia.
    destruct ds as [|top ds]; [cbn [length] in Hlen; lia|].
    split; [rewrite Hlen; lia|].
    cbv beta in Hod |- *. rewrite Hod. unfold Py.slice_to.
    destruct (Z.leb_spec 0 (max_deals + 2)); [|lia].
    rewrite fmap_take, take_take. f_equal. rewrite Hlen. lia.
  - intros Hneg. destruct ds as [|top [|]]; [by eexists|by eexists|].
    cbn [length] in Hlen. lia.
Qed.

(** The deals listed under [allDeals]: [deals[:max_deals]]. *)
Lemma widget_all_deals (self : Flight.FlightWidget) (r : FlightFeed.Readings)
    (max_deals : Z) :
  let deals := FlightFeed.widget_deals self r max_deals in
  (1 <= max_deals -> Py.slice_to max_deals deals = deals)
  /\ (max_deals <= 0 -> Py.slice_to max_deals deals = []).
Proof.
  destruct (widget_deals_spec self r max_deals) as [Hpos Hneg].
  cbv zeta. split.
  - intros H. destruct (Hpos H) as [Hlen _].
    unfold Py.slice_to. destruct (Z.leb_spec 0 max_deals); [|lia].
    apply take_ge. lia.
  - intros H. destruct (Hneg H) as [top ->].
    unfold Py.slice_to. destruct (Z.leb_spec 0 max_deals).
    + by replace max_deals with 0 by lia.
    + cbn [length]. by replace (Z.to_nat (Z.of_nat 1 + max_deals)) with 0%nat by lia.
Qed.

(** X14: whatever the provider does, the widget data names a top deal,
    and [allDeals] holds [max_deals] deals, but none for a negative
    [max_deals] and at most five: one per default route, in the order of
    the routes.  From [max_deals = 1] on the top deal is the first of
    them; for [max_deals <= 0] there is a top deal beside an empty
    list. *)
Theorem widget_data_deal_count (isoformat : Z -> string) (self : Flight.FlightWidget)
    (r : FlightFeed.Readings) (user_id : option string) (max_deals : Z) :
  let data := FlightFeed.get_widget_data isoformat self r user_id max_deals in
  let n := Z.to_nat (Z.min (Z.max max_deals 0) 5) in
  exists top deals,
    Webhook.get data "topDeal" JNull = inr (FlightFeed.to_widget_format isoformat top)
    /\ Webhook.get data "allDeals" JNull
       = inr (JArr (FlightFeed.to_widget_format isoformat <$> deals))
    /\ length deals = n
    /\ (1 <= max_deals -> head deals = Some top)
    /\ (fun d => (Flight.deal_origin d, Flight.deal_destination d)) <$> deals
       = take n (fst <$> FlightFeed.DEFAULT_ROUTES).
Proof.
  intros data n. subst data n.
  unfold FlightFeed.get_widget_data.
  change (Webhook.get (JObj ?l) ?k ?d)
    with (@inr Webhook.exn _ (default d (Py.assoc String.eqb k l))).
  cbn [Py.assoc String.eqb Ascii.eqb Bool.eqb default from_option id].
  destruct (widget_deals_spec self r max_deals) as [Hpos Hneg].
  destruct (widget_all_deals self r max_deals) as [Hall Hnone].
  destruct (Z.le_gt_cases 1 max_deals) as [H|H].
  - destruct (Hpos H) as [Hlen Hod]. rewrite (Hall H).
    destruct (FlightFeed.widget_deals self r max_deals) as [|top ds] eqn:E;
      [cbn [length] in Hlen; lia|].
    exists top, (top :: ds).
    replace (Z.to_nat (Z.min (Z.max max_deals 0) 5))
      with (Z.to_nat (Z.min max_deals 5)) by lia.
    by split_and!.
  - rewrite Hnone by lia. destruct Hneg as [top ->]; [lia|].
    exists top, [].
    replace (Z.to_nat (Z.min (Z.max max_deals 0) 5)) with 0%nat by lia.
    split_and!; [done..|lia|done].
Qed.

(** ** The MCP formatters *)

Lemma format_each_dicts (entry : json -> Webhook.exn + json * list json) :
  (forall d, exists e c,
      entry (JObj d)
      = inr (e, from_option (fun u => [JObj [("url", u); ("caption", JStr c)]]) []
                  (Obs.image_url (JObj d)))) ->
  forall items, Forall Obs.is_dict items ->
  exists es imgs,
    MCP.format_each entry items = inr (es, imgs)
    /\ length es = length items
    /\ Obs.url_of <$> imgs = omap Obs.image_url items.
Proof.
  intros Hentry items Hitems.
  induction Hitems as [|x items [d ->] _ (es & imgs & IH & Hlen & Hurl)].
  { by exists [], []. }
  destruct (Hentry d) as (e & c & He).
  cbn [MCP.format_each]. rewrite He, IH. cbn [mbind MCP.exn_bind fst snd].
  eexists _, _. split_and!; [done|cbn [length]; by rewrite Hlen|].
  rewrite fmap_app, Hurl.
  change (omap Obs.image_url (JObj d :: items))
    with (from_option (fun u => u :: omap Obs.image_url items)
                      (omap Obs.image_url items) (Obs.image_url (JObj d))).
  by destruct (Obs.image_url (JObj d)).
Qed.

Lemma flight_entry_dict (str : json -> string) (d : list (string * json)) :
  exists e c,
    MCP.flight_entry str (JObj d)
    = inr (e, from_option (fun u => [JObj [("url", u); ("caption", JStr c)]]) []
                (Obs.image_url (JObj d))).
Proof.
  unfold MCP.flight_entry, Obs.image_url. cbn [MCP.as_dict mbind MCP.exn_bind].
  eexists _, _. destruct (MCP.truthy _); reflexivity.
Qed.

Lemma hotel_entry_dict (str : json -> string) (d : list (string * json)) :
  exists e c,
    MCP.hotel_entry str (JObj d)
    = inr (e, from_option (fun u => [JObj [("url", u); ("caption", JStr c)]]) []
                (Obs.image_url (JObj d))).
Proof.
  unfold MCP.hotel_entry, Obs.image_url. cbn [MCP.as_dict mbind MCP.exn_bind].
  eexists _, _. destruct (MCP.truthy _); reflexivity.
Qed.

Lemma slice_to_3 {A} (l : list A) : Py.slice_to 3 l = take 3 l.
Proof. reflexivity. Qed.

(** The flight formatter on a non-empty list of records. *)
Lemma format_flights_list (str : json -> string)
    (fields : list (string * json)) (items : list json) :
  items <> [] -> Forall Obs.is_dict items ->
  MCP.field fields "deals" (JArr []) = JArr items ->
  exists flights images,
    MCP._format_flights str (JObj fields)
    = inr (JObj [ ("type", JStr "flight_results");
                  ("count", JNum (inject_Z (Z.of_nat (length items))));
                  ("flights", JArr flights);
                  ("images", JArr images) ])
    /\ length flights = length items
    /\ Obs.url_of <$> images = take 3 (omap Obs.image_url items).
Proof.
  intros Hne Hitems Hdeals.
  destruct (format_each_dicts (MCP.flight_entry str) (flight_entry_dict str) items Hitems)
    as (es & imgs & Hr & Hlen & Hurl).
  unfold MCP._format_flights, Webhook.get. fold (MCP.field fields "deals" (JArr [])).
  cbn [mbind MCP.exn_bind]. rewrite Hdeals.
  destruct items as [|x items']; [done|].
  cbn [MCP.truthy negb Webhook.iterate mbind MCP.exn_bind].
  rewrite Hr. cbn [mbind MCP.exn_bind fst snd].
  eexists _, _. split_and!; [by rewrite Hlen|done|].
  by rewrite slice_to_3, fmap_take, Hurl.
Qed.

Lemma format_hotels_list (str : json -> string)
    (fields : list (string * json)) (items : list json) :
  items <> [] -> Forall Obs.is_dict items ->
  MCP.field fields "hotels" (JArr []) = JArr items ->
  exists hotels images,
    MCP._format_hotels str (JObj fields)
    = inr (JObj [ ("type", JStr "hotel_results");
                  ("count", JNum (inject_Z (Z.of_nat (length items))));
                  ("hotels", JArr hotels);
                  ("images", JArr images) ])
    /\ length hotels = length items
    /\ Obs.url_of <$> images = take 3 (omap Obs.image_url items).
Proof.
  intros Hne Hitems Hhotels.
  destruct (format_each_dicts (MCP.hotel_entry str) (hotel_entry_dict str) items Hitems)
    as (es & imgs & Hr & Hlen & Hurl).
  unfold MCP._format_hotels, Webhook.get. fold (MCP.field fields "hotels" (JArr [])).
  cbn [mbind MCP.exn_bind]. rewrite Hhotels.
  destruct items as [|x items']; [done|].
  cbn [MCP.truthy negb Webhook.iterate mbind MCP.exn_bind].
  rewrite Hr. cbn [mbind MCP.exn_bind fst snd].
  eexists _, _. split_and!; [by rewrite Hlen|done|].
  by rewrite slice_to_3, fmap_take, Hurl.
Qed.

(** X15: given a non-empty list of records under [deals] (or [hotels]),
    the formatter returns one entry per record, the count of the records,
    and as images the images of the first three records that have one, in
    the order of the records; a record without [imageUrl], or with an
    empty one, takes none of the three places.  Without the key, the
    answer is the text that nothing was found. *)
Theorem formatters_count_and_images (str : json -> string)
    (fields : list (string * json)) (items : list json) :
  items <> [] -> Forall Obs.is_dict items ->
  (MCP.field fields "deals" (JArr []) = JArr items ->
   exists flights images,
     MCP._format_flights str (JObj fields)
     = inr (JObj [ ("type", JStr "flight_results");
                   ("count", JNum (inject_Z (Z.of_nat (length items))));
                   ("flights", JArr flights);
                   ("images", JArr images) ])
     /\ length flights = length items
     /\ Obs.url_of <$> images = take 3 (omap Obs.image_url items))
  /\ (MCP.field fields "hotels" (JArr []) = JArr items ->
      exists hotels images,
        MCP._format_hotels str (JObj fields)
        = inr (JObj [ ("type", JStr "hotel_results");
                      ("count", JNum (inject_Z (Z.of_nat (length items))));
                      ("hotels", JArr hotels);
                      ("images", JArr images) ])
        /\ length hotels = length items
        /\ Obs.url_of <$> images = take 3 (omap Obs.image_url items))
  /\ (Py.assoc String.eqb "deals" fields = None ->
      MCP._format_flights str (JObj fields)
      = inr (JObj [ ("formatted", JStr "No flights found.");
                    ("raw", JObj fields); ("images", JArr []) ])).
Proof.
  intros Hne Hitems. split_and!.
  - by apply format_flights_list.
  - by apply format_hotels_list.
  - intros Hnone. unfold MCP._format_flights, Webhook.get. by rewrite Hnone.
Qed.

(** Two deals, of which the first has an image. *)
Lemma formatters_count_and_images_witness :
  let items := [ JObj [ ("airlineName", JStr "Air France");
                        ("imageUrl", JStr "https://example.org/1.jpg") ];
                 JObj [ ("airlineName", JStr "ANA") ] ] in
  items <> [] /\ Forall Obs.is_dict items
  /\ exists flights images,
       MCP._format_flights (fun _ => "None") (JObj [ ("deals", JArr items) ])
       = inr (JObj [ ("type", JStr "flight_results");
                     ("count", JNum (inject_Z (Z.of_nat (length items))));
                     ("flights", JArr flights);
                     ("images", JArr images) ])
       /\ length flights = length items
       /\ Obs.url_of <$> images = take 3 (omap Obs.image_url items).
Proof.
  intros items.
  assert (items <> []) as Hne by done.
  assert (Forall Obs.is_dict items) as Hdicts by (repeat constructor; by eexists).
  split; [exact Hne|]. split; [exact Hdicts|].
  exact (proj1 (formatters_count_and_images (fun _ => "None")
                  [ ("deals", JArr items) ] items Hne Hdicts) eq_refl).
Defined.

Lemma restaurant_entry_dict (str : json -> string) (d : list (string * json)) :
  (is_Some (Obs.image_url (JObj d)) -> Obs.stars_compare (JObj d)) ->
  exists e c,
    MCP.restaurant_entry str (JObj d)
    = inr (e, from_option (fun u => [JObj [("url", u); ("caption", JStr c)]]) []
                (Obs.image_url (JObj d))).
Proof.
  unfold MCP.restaurant_entry, Obs.image_url, Obs.stars_compare.
  cbn [MCP.as_dict mbind MCP.exn_bind].
  destruct (MCP.truthy _); [|by eexists _, ""].
  intros Hstars. specialize (Hstars (mk_is_Some _ _ eq_refl)).
  destruct (MCP.field d "michelinStars" (JNum 0)); try done;
    cbn [MCP.positive mbind MCP.exn_bind]; by eexists _, _.
Qed.

Lemma restaurant_entry_raises (str : json -> string) (d : list (string * json)) :
  is_Some (Obs.image_url (JObj d)) -> ~ Obs.stars_compare (JObj d) ->
  MCP.restaurant_entry str (JObj d) = inl Webhook.TypeError.
Proof.
  unfold MCP.restaurant_entry, Obs.image_url, Obs.stars_compare.
  cbn [MCP.as_dict mbind MCP.exn_bind].
  destruct (MCP.truthy _); [|by intros [? [=]]].
  intros _ Hstars.
  by destruct (MCP.field d "michelinStars" (JNum 0)); try done; destruct Hstars.
Qed.

Lemma format_each_raises (entry : json -> Webhook.exn + json * list json)
    (e : Webhook.exn) (items : list json) :
  Forall (fun x => entry x = inl e \/ exists r, entry x = inr r) items ->
  Exists (fun x => entry x = inl e) items ->
  MCP.format_each entry items = inl e.
Proof.
  induction 1 as [|x items Hx _ IH]; [by intros ?%Exists_nil|].
  intros Hex. cbn [MCP.format_each].
  destruct Hx as [->|[r Hr]]; [done|]. rewrite Hr. cbn [mbind MCP.exn_bind].
  apply Exists_cons in Hex as [Hex|Hex]; [congruence|].
  by rewrite (IH Hex).
Qed.

Lemma classic_stars (d : list (string * json)) :
  (is_Some (Obs.image_url (JObj d)) -> Obs.stars_compare (JObj d))
  \/ (is_Some (Obs.image_url (JObj d)) /\ ~ Obs.stars_compare (JObj d)).
Proof.
  unfold Obs.image_url, Obs.stars_compare.
  destruct (MCP.truthy _); [|left; by intros [? [=]]].
  destruct (MCP.field d "michelinStars" (JNum 0));
    first [by left | right; split; [by eexists|tauto]].
Qed.

(** X16: the restaurant formatter compares the Michelin stars of a record
    with 0 only when the record has an image.  Given a non-empty list of
    records, it returns -- one entry per record, and the images of the
    first three records that have one -- exactly when every record with
    an image has stars that are a number (or are absent); otherwise it
    raises [TypeError].  A record without image is formatted whatever its
    stars are. *)
Theorem restaurant_formatter_needs_numeric_stars (str : json -> string)
    (fields : list (string * json)) (items : list json) :
  items <> [] -> Forall Obs.is_dict items ->
  MCP.field fields "restaurants" (JArr []) = JArr items ->
  (Forall (fun v => is_Some (Obs.image_url v) -> Obs.stars_compare v) items ->
   exists restaurants images,
     MCP._format_restaurants str (JObj fields)
     = inr (JObj [ ("type", JStr "restaurant_results");
                   ("count", JNum (inject_Z (Z.of_nat (length items))));
                   ("restaurants", JArr restaurants);
                   ("images", JArr images) ])
     /\ length restaurants = length items
     /\ Obs.url_of <$> images = take 3 (omap Obs.image_url items))
  /\ (Exists (fun v => is_Some (Obs.image_url v) /\ ~ Obs.stars_compare v) items ->
      MCP._format_restaurants str (JObj fields) = inl Webhook.TypeError).
Proof.
  intros Hne Hitems Hfield.
  assert (forall r : Webhook.exn + list json * list json,
             MCP.format_each (MCP.restaurant_entry str) items = r ->
             MCP._format_restaurants str (JObj fields)
             = r ≫= fun r =>
                 inr (JObj [ ("type", JStr "restaurant_results");
                             ("count", JNum (inject_Z (Z.of_nat (length r.1))));
                             ("restaurants", JArr r.1);
                             ("images", JArr (Py.slice_to 3 r.2)) ])) as Hrun.
  { intros r <-. unfold MCP._format_restaurants, Webhook.get.
    fold (MCP.field fields "restaurants" (JArr [])).
    cbn [mbind MCP.exn_bind]. rewrite Hfield.
    by destruct items as [|x items']. }
  split.
  - intros Hok.
    assert (exists es imgs,
               MCP.format_each (MCP.restaurant_entry str) items = inr (es, imgs)
               /\ length es = length items
               /\ Obs.url_of <$> imgs = omap Obs.image_url items)
      as (es & imgs & Hr & Hlen & Hurl).
    { clear Hrun Hfield Hne.
      induction Hitems as [|x items [d ->] _ IH]; [by exists [], []|].
      apply Forall_cons in Hok as [Hd Hok].
      destruct (IH Hok) as (es & imgs & Hr & Hlen & Hurl).
      destruct (restaurant_entry_dict str d Hd) as (e & c & He).
      cbn [MCP.format_each]. rewrite He, Hr. cbn [mbind MCP.exn_bind fst snd].
      eexists _, _. split_and!; [done|cbn [length]; by rewrite Hlen|].
      rewrite fmap_app, Hurl.
      change (omap Obs.image_url (JObj d :: items))
        with (from_option (fun u => u :: omap Obs.image_url items)
                          (omap Obs.image_url items) (Obs.image_url (JObj d))).
      by destruct (Obs.image_url (JObj d)). }
    rewrite (Hrun _ Hr). cbn [mbind MCP.exn_bind fst snd].
    eexists _, _. split_and!; [by rewrite Hlen|done|].
    by rewrite slice_to_3, fmap_take, Hurl.
  - intros Hbad. rewrite (Hrun (inl Webhook.TypeError)); [done|].
    apply format_each_raises.
    + clear Hrun Hfield Hne Hbad.
      induction Hitems as [|x items [d ->] _ IH]; constructor; [|done].
      destruct (classic_stars d) as [Hok|[Himg Hno]].
      * right. destruct (restaurant_entry_dict str d Hok) as (e & c & He). eauto.
      * left. by apply restaurant_entry_raises.
    + eapply Exists_impl; [exact Hbad|].
      intros x [Himg Hstars]. cbv beta.
      assert (Obs.is_dict x) as [d ->].
      { destruct x; try by destruct Himg as [? [=]]. by eexists. }
      by apply restaurant_entry_raises.
Qed.

(** A restaurant with an image whose stars are a text. *)
Lemma restaurant_formatter_needs_numeric_stars_witness :
  let items := [ JObj [ ("name", JStr "Le Cinq");
                        ("michelinStars", JStr "3");
                        ("imageUrl", JStr "https://example.org/cinq.jpg") ] ] in
  items <> [] /\ Forall Obs.is_dict items
  /\ MCP._format_restaurants (fun _ => "None") (JObj [ ("restaurants", JArr items) ])
     = inl Webhook.TypeError.
Proof.
  intros items.
  assert (items <> []) as Hne by done.
  assert (Forall Obs.is_dict items) as Hdicts by (repeat constructor; by eexists).
  split; [exact Hne|]. split; [exact Hdicts|].
  apply (restaurant_formatter_needs_numeric_stars (fun _ => "None")
           [ ("restaurants", JArr items) ] items Hne Hdicts eq_refl).
  apply Exists_cons_hd. split; [by eexists|]. by intros [].
Defined.

(** The images of a formatter's result: a list of at most three dicts. *)
Lemma format_each_images (entry : json -> Webhook.exn + json * list json) :
  (forall x r, entry x = inr r -> Forall Obs.is_dict r.2) ->
  forall items r, MCP.format_each entry items = inr r -> Forall Obs.is_dict r.2.
Proof.
  intros Hentry items. induction items as [|x items IH]; intros r.
  - intros [= <-]. constructor.
  - cbn [MCP.format_each].
    destruct (entry x) as [|e] eqn:He; [done|].
    destruct (MCP.format_each entry items) as [|r'] eqn:Hr; [done|].
    cbn [mbind MCP.exn_bind]. intros [= <-]. cbn [snd].
    apply Forall_app. split; [by eapply Hentry|by apply IH].
Qed.

Lemma entries_give_dicts (str : json -> string) (x : json) (r : json * list json) :
  MCP.flight_entry str x = inr r \/ MCP.hotel_entry str x = inr r
  \/ MCP.restaurant_entry str x = inr r ->
  Forall Obs.is_dict r.2.
Proof.
  unfold MCP.flight_entry, MCP.hotel_entry, MCP.restaurant_entry.
  destruct x as [| | | | |d]; try by intros [[=]|[[=]|[=]]].
  cbn [MCP.as_dict mbind MCP.exn_bind].
  destruct (MCP.truthy _).
  - intros [[= <-]|[[= <-]|H]]; try (repeat constructor; by eexists).
    destruct (MCP.positive _); cbn [mbind MCP.exn_bind] in H; [done|].
    injection H as <-. repeat constructor; by eexists.
  - intros [[= <-]|[[= <-]|[= <-]]]; constructor.
Qed.

Lemma slice_to_3_length {A} (l : list A) : (length (Py.slice_to 3 l) <= 3)%nat.
Proof. rewrite slice_to_3, length_take. lia. Qed.

Lemma formatted_images (str : json -> string) (r0 result : json) :
  MCP._format_flights str r0 = inr result
  \/ MCP._format_hotels str r0 = inr result
  \/ MCP._format_restaurants str r0 = inr result ->
  exists images,
    Webhook.get result "images" (JArr []) = inr (JArr images)
    /\ (length images <= 3)%nat
    /\ Forall Obs.is_dict images.
Proof.
  unfold MCP._format_flights, MCP._format_hotels, MCP._format_restaurants.
  intros [H|[H|H]];
  repeat match type of H with
  | context [Webhook.get r0 ?k ?d] =>
      destruct (Webhook.get r0 k d) as [|?v]; cbn [mbind MCP.exn_bind] in H
  | context [MCP.truthy ?v] => destruct (MCP.truthy v); cbn [negb] in H
  | context [Webhook.iterate ?v] =>
      destruct (Webhook.iterate v) as [|?items]; cbn [mbind MCP.exn_bind] in H
  | context [MCP.format_each ?f ?l] =>
      let E := fresh "E" in
      destruct (MCP.format_each f l) as [|?r] eqn:E; cbn [mbind MCP.exn_bind] in H;
      [|apply format_each_images in E;
        [|intros; eapply (entries_give_dicts str); eauto]]
  end;
  try discriminate H; injection H as <-;
    (eexists; split; [reflexivity|]; split;
     [first [apply slice_to_3_length | cbn [length]; lia]
     |first [by apply slice_to_Forall | constructor]]).
Qed.

Lemma get_dict (fields : list (string * json)) (k : string) (d : json) :
  Webhook.get (JObj fields) k d = inr (MCP.field fields k d).
Proof. reflexivity. Qed.

Lemma image_blocks_dicts (images : list json) :
  Forall Obs.is_dict images ->
  exists blocks,
    MCP.image_blocks images = inr blocks
    /\ length blocks = length images
    /\ Forall Obs.image_block blocks.
Proof.
  induction 1 as [|x images [d ->] _ (blocks & IH & Hlen & Hb)]; [by exists []|].
  cbn [MCP.image_blocks]. rewrite get_dict, IH. cbn [mbind MCP.exn_bind].
  eexists. split_and!; [done|cbn [length]; by rewrite Hlen|].
  constructor; [by eexists|done].
Qed.

(** What a formatted tool returns comes out of a formatter. *)
Lemma call_tool_formatted (str : json -> string) (tools : MCP.Tools)
    (name : string) (arguments result : json) :
  name ∈ Obs.formatted_tools ->
  MCP._call_tool str tools (JStr name) arguments = inr result ->
  exists r0,
    MCP._format_flights str r0 = inr result
    \/ MCP._format_hotels str r0 = inr result
    \/ MCP._format_restaurants str r0 = inr result.
Proof.
  unfold Obs.formatted_tools. rewrite !elem_of_cons, elem_of_nil.
  unfold MCP._call_tool.
  intros [->|[->|[->|[->|[->|[->|[]]]]]]];
    cbn [Webhook.is_str String.eqb Ascii.eqb Bool.eqb andb];
    (destruct (MCP.as_dict arguments) as [|a]; [done|]);
    cbn [mbind MCP.exn_bind];
    match goal with
    | |- context [mbind _ (?tool tools ?kw)] =>
        destruct (tool tools kw) as [|r]; [done|]
    end;
    cbn [mbind MCP.exn_bind];
    try (destruct (MCP.recommended _ _ r) as [|r']; [done|]; cbn [mbind MCP.exn_bind]);
    eauto.
Qed.

(** X17: a [tools/call] of one of the six search and recommendation tools
    raises exactly when [_call_tool] does -- the tool or its formatter --
    and then the same exception.  When [_call_tool] returns, building the
    answer never raises: the content is at most three image blocks
    followed by one text block, which holds the dump of the whole
    result. *)
Theorem tool_call_answers_images_then_text
    (str dumps : json -> string) (dict_slice_error : Webhook.exn)
    (self : MCP.MCPServer) (fields params : list (string * json))
    (name : string) :
  MCP.field fields "method" JNull = JStr "tools/call" ->
  MCP.field fields "params" (JObj []) = JObj params ->
  MCP.field params "name" JNull = JStr name ->
  name ∈ Obs.formatted_tools ->
  match MCP._call_tool str (MCP.coroutines self) (JStr name)
          (MCP.field params "arguments" (JObj [])) with
  | inl e =>
      MCP.handle_request str dumps dict_slice_error self (JObj fields) = inl e
  | inr result =>
      exists blocks,
        MCP.handle_request str dumps dict_slice_error self (JObj fields)
        = inr (Some (MCP._response (MCP.field fields "id" JNull)
                       (JObj [ ("content",
                                JArr (blocks
                                      ++ [JObj [ ("type", JStr "text");
                                                 ("text", JStr (dumps result)) ]])) ])))
        /\ (length blocks <= 3)%nat
        /\ Forall Obs.image_block blocks
  end.
Proof.
  intros Hmethod Hparams Hname Hin.
  assert (MCP.handle_request str dumps dict_slice_error self (JObj fields)
          = result ← MCP._call_tool str (MCP.coroutines self) (JStr name)
                       (MCP.field params "arguments" (JObj []));
            images ← Webhook.get result "images" (JArr []);
            shown ← MCP.first_three dict_slice_error images;
            blocks ← MCP.image_blocks shown;
            inr (Some (MCP._response (MCP.field fields "id" JNull)
                         (JObj [ ("content",
                                  JArr (blocks
                                        ++ [JObj [ ("type", JStr "text");
                                                   ("text", JStr (dumps result)) ]])) ]))))
    as ->.
  { unfold MCP.handle_request. rewrite !get_dict. cbn [mbind MCP.exn_bind].
    rewrite Hmethod, Hparams. cbn [Webhook.is_str String.eqb Ascii.eqb Bool.eqb andb].
    rewrite !get_dict. cbn [mbind MCP.exn_bind]. by rewrite Hname. }
  destruct (MCP._call_tool _ _ _ _) as [e|result] eqn:Hcall; [done|].
  destruct (call_tool_formatted _ _ _ _ _ Hin Hcall) as [r0 Hr0].
  destruct (formatted_images _ _ _ Hr0) as (images & Himages & Hlen & Hdicts).
  destruct (image_blocks_dicts (Py.slice_to 3 images)) as (blocks & Hblocks & Hlen' & Hshape).
  { by apply slice_to_Forall. }
  exists blocks. cbn [mbind MCP.exn_bind]. rewrite Himages.
  cbn [mbind MCP.exn_bind MCP.first_three]. rewrite Hblocks. cbn [mbind MCP.exn_bind].
  split_and!; [done| |done].
  rewrite Hlen'. apply slice_to_3_length.
Qed.

(** A flight search that returns one deal with an image, and a hotel
    search whose tool raises. *)
Lemma tool_call_answers_images_then_text_witness :
  (exists blocks,
      MCP.handle_request (fun _ => "None") (fun _ => "{}") Webhook.TypeError
        Obs.sample_server (JObj Obs.sample_call)
      = inr (Some (MCP._response (JNum 7)
                     (JObj [ ("content",
                              JArr (blocks
                                    ++ [JObj [ ("type", JStr "text");
                                               ("text", JStr "{}") ]])) ])))
      /\ (length blocks <= 3)%nat
      /\ Forall Obs.image_block blocks)
  /\ MCP.handle_request (fun _ => "None") (fun _ => "{}") Webhook.TypeError
       Obs.sample_server
       (JObj [ ("id", JNum 8); ("method", JStr "tools/call");
               ("params", JObj [ ("name", JStr "search_hotels") ]) ])
     = inl Webhook.TypeError.
Proof.
  split.
  - exact (tool_call_answers_images_then_text (fun _ => "None") (fun _ => "{}")
             Webhook.TypeError Obs.sample_server Obs.sample_call
             [ ("name", JStr "search_flights");
               ("arguments", JObj [ ("origin", JStr "JFK") ]) ]
             "search_flights" eq_refl eq_refl eq_refl
             ltac:(unfold Obs.formatted_tools; apply elem_of_cons; by left)).
  - exact (tool_call_answers_images_then_text (fun _ => "None") (fun _ => "{}")
             Webhook.TypeError Obs.sample_server
             [ ("id", JNum 8); ("method", JStr "tools/call");
               ("params", JObj [ ("name", JStr "search_hotels") ]) ]
             [ ("name", JStr "search_hotels") ]
             "search_hotels" eq_refl eq_refl eq_refl
             ltac:(unfold Obs.formatted_tools; rewrite !elem_of_cons; tauto)).
Defined.

(** ** From the flight widget to the MCP answer *)

Lemma image_of_nonempty (d : Flight.FlightDeal) : FlightFeed.image_of d <> "".
Proof.
  unfold FlightFeed.image_of.
  assert (default FlightFeed.default_image
            (Py.assoc String.eqb (Flight.deal_destination d) FlightFeed.DESTINATION_IMAGES)
          <> "") as Htable.
  { destruct (Py.assoc _ _ _) as [v|] eqn:E; [|done].
    apply assoc_In in E. cbn [default from_option id].
    assert (Forall (fun v => v <> "") FlightFeed.DESTINATION_IMAGES.*2) as Hall
      by (repeat constructor; done).
    by eapply Forall_forall in Hall. }
  destruct (Flight.image_url d) as [u|]; [|done].
  by destruct (String.eqb_spec u "").
Qed.

Lemma widget_format_image (isoformat : Z -> string) (d : Flight.FlightDeal) :
  Obs.image_url (FlightFeed.to_widget_format isoformat d)
  = Some (JStr (FlightFeed.image_of d)).
Proof.
  unfold Obs.image_url, FlightFeed.to_widget_format, MCP.field.
  cbn [Py.assoc String.eqb Ascii.eqb Bool.eqb andb default from_option id MCP.truthy].
  pose proof (image_of_nonempty d) as H.
  by destruct (String.eqb_spec (FlightFeed.image_of d) "").
Qed.

Lemma widget_formats_dicts (isoformat : Z -> string) (deals : list Flight.FlightDeal) :
  Forall Obs.is_dict (FlightFeed.to_widget_format isoformat <$> deals).
Proof. apply Forall_fmap, Forall_true. intros d. by eexists. Qed.

Lemma widget_formats_images (isoformat : Z -> string) (deals : list Flight.FlightDeal) :
  omap Obs.image_url (FlightFeed.to_widget_format isoformat <$> deals)
  = (fun d => JStr (FlightFeed.image_of d)) <$> deals.
Proof.
  induction deals as [|d deals IH]; [done|].
  cbn [fmap list_fmap]. cbn [omap list_omap].
  rewrite widget_format_image. by f_equal.
Qed.

(** What the flight formatter makes of widget deals. *)
Lemma format_widget_deals (isoformat : Z -> string) (str : json -> string)
    (fields : list (string * json)) (deals : list Flight.FlightDeal) :
  deals <> [] ->
  MCP.field fields "deals" (JArr []) = JArr (FlightFeed.to_widget_format isoformat <$> deals) ->
  exists flights images,
    MCP._format_flights str (JObj fields)
    = inr (JObj [ ("type", JStr "flight_results");
                  ("count", JNum (inject_Z (Z.of_nat (length deals))));
                  ("flights", JArr flights);
                  ("images", JArr images) ])
    /\ length flights = length deals
    /\ Obs.url_of <$> images
       = (fun d => JStr (FlightFeed.image_of d)) <$> take 3 deals.
Proof.
  intros Hne Hfield.
  assert (FlightFeed.to_widget_format isoformat <$> deals <> []) as Hne'
    by (by destruct deals).
  destruct (format_flights_list str fields _
              Hne' (widget_formats_dicts isoformat deals) Hfield)
    as (flights & images & -> & Hlen & Hurl).
  rewrite length_fmap in Hlen.
  exists flights, images. rewrite length_fmap. split_and!; [done..|].
  by rewrite Hurl, widget_formats_images, fmap_take.
Qed.

Lemma flight_search_length_le (self : Flight.FlightWidget) (now jitter : Z)
    (params : Flight.FlightSearchParams) :
  0 <= Flight.max_results params ->
  Z.of_nat (length (Flight.search_flights self now jitter params))
  <= Flight.max_results params.
Proof. intros H. unfold Flight.search_flights. by apply slice_to_length_le. Qed.

(** X18: the MCP answer to a flight search is never the text that no
    flights were found.  For every result of [search_flights_tool] with a
    cap of at least 1 -- the MCP server asks for 10 -- the formatter
    returns between 1 and [max_results] flights, with their count, and
    the destination images of the first three. *)
Theorem mcp_flight_search_always_lists
    (isoformat : Z -> string) (str : json -> string)
    (widget : Flight.FlightWidget) (now jitter : Z)
    (origin destination departure_date : string) (return_date : option string)
    (adults : Z) (cabin_class : string) (max_results : Z) (result : json) :
  1 <= max_results ->
  FlightFeed.search_flights_tool isoformat widget now jitter origin destination
    departure_date return_date adults cabin_class max_results = Some result ->
  exists (n : nat) flights images,
    MCP._format_flights str result
    = inr (JObj [ ("type", JStr "flight_results");
                  ("count", JNum (inject_Z (Z.of_nat n)));
                  ("flights", JArr flights);
                  ("images", JArr images) ])
    /\ 1 <= Z.of_nat n <= max_results
    /\ length flights = n
    /\ length images = (n `min` 3)%nat
    /\ Forall (fun img => MCP.truthy (Obs.url_of img) = true) images.
Proof.
  intros Hcap. unfold FlightFeed.search_flights_tool.
  destruct (FlightFeed.cabin_of_value (Py.upper cabin_class)) as [cabin|]; [|done].
  cbn [mbind option_bind]. intros [= <-].
  set (params := {| Flight.origin := Py.upper origin |}).
  pose proof (flight_search_length_pos widget now jitter params Hcap) as Hpos.
  pose proof (flight_search_length_le widget now jitter params) as Hle.
  cbn [Flight.max_results params] in Hle.
  assert (Flight.search_flights widget now jitter params <> []) as Hne
    by (intros E; rewrite E in Hpos; cbn [length] in Hpos; lia).
  destruct (format_widget_deals isoformat str
              [ ("success", JBool true);
                ("count", JNum (inject_Z (Z.of_nat
                            (length (Flight.search_flights widget now jitter params)))));
                ("deals", JArr (FlightFeed.to_widget_format isoformat
                                <$> Flight.search_flights widget now jitter params)) ]
              (Flight.search_flights widget now jitter params) Hne eq_refl)
    as (flights & images & Hfmt & Hlen & Hurl).
  exists (length (Flight.search_flights widget now jitter params)), flights, images.
  split_and!; [done|lia|lia|done| |].
  - apply (f_equal length) in Hurl. rewrite !length_fmap, length_take in Hurl. lia.
  - assert (Forall (fun u => MCP.truthy u = true) (Obs.url_of <$> images)) as H.
    { rewrite Hurl. apply Forall_fmap, Forall_true. intros d.
      cbn [compose MCP.truthy]. pose proof (image_of_nonempty d).
      by destruct (String.eqb_spec (FlightFeed.image_of d) ""). }
    by apply Forall_fmap in H.
Qed.

(** The search of the example, with no provider configured. *)
Lemma mcp_flight_search_always_lists_witness :
  exists result (n : nat) flights images,
    1 <= 10
    /\ FlightFeed.search_flights_tool (fun _ => "2025-01-01T00:00:00")
         Inv.flights_unconfigured 0 0 "jfk" "cdg" "2025-06-01" None 1 "business" 10
       = Some result
    /\ MCP._format_flights (fun _ => "None") result
       = inr (JObj [ ("type", JStr "flight_results");
                     ("count", JNum (inject_Z (Z.of_nat n)));
                     ("flights", JArr flights);
                     ("images", JArr images) ])
    /\ 1 <= Z.of_nat n <= 10
    /\ length flights = n
    /\ length images = (n `min` 3)%nat
    /\ Forall (fun img => MCP.truthy (Obs.url_of img) = true) images.
Proof.
  eexists.
  destruct (mcp_flight_search_always_lists (fun _ => "2025-01-01T00:00:00")
              (fun _ => "None") Inv.flights_unconfigured 0 0 "jfk" "cdg" "2025-06-01"
              None 1 "business" 10 _ ltac:(lia) eq_refl)
    as (n & flights & images & H).
  exists n, flights, images. split; [lia|]. split; [reflexivity|]. exact H.
Defined.

(** X19: the MCP answer to [get_flight_deals] follows [max_deals]: from 1
    on it lists [max_deals] flights, at most five, with the images of the
    first three; for [max_deals <= 0] it is the text that no flights were
    found, although the widget data names a top deal. *)
Theorem mcp_flight_deals_follow_max_deals
    (isoformat : Z -> string) (str : json -> string)
    (widget : Flight.FlightWidget) (r : FlightFeed.Readings)
    (user_id : option string) (max_deals : Z) :
  let data := FlightFeed.get_flight_widget_data_tool isoformat widget r user_id max_deals in
  let answer := MCP.recommended "deals" "allDeals" data ≫= MCP._format_flights str in
  (1 <= max_deals ->
   exists flights images,
     answer = inr (JObj [ ("type", JStr "flight_results");
                          ("count", JNum (inject_Z (Z.min max_deals 5)));
                          ("flights", JArr flights);
                          ("images", JArr images) ])
     /\ Z.of_nat (length flights) = Z.min max_deals 5
     /\ Z.of_nat (length images) = Z.min max_deals 3)
  /\ (max_deals <= 0 ->
      answer = inr (JObj [ ("formatted", JStr "No flights found.");
                           ("raw", JObj [ ("deals", JArr []); ("count", JNum 0) ]);
                           ("images", JArr []) ])
      /\ exists top,
           Webhook.get data "topDeal" JNull
           = inr (FlightFeed.to_widget_format isoformat top)).
Proof.
  intros data answer. subst data answer.
  unfold FlightFeed.get_flight_widget_data_tool, FlightFeed.get_widget_data, MCP.recommended.
  rewrite !get_dict. unfold MCP.field at 1 2.
  cbn [Py.assoc String.eqb Ascii.eqb Bool.eqb andb default from_option id
       mbind MCP.exn_bind MCP.len].
  destruct (widget_deals_spec widget r max_deals) as [Hpos Hneg].
  destruct (widget_all_deals widget r max_deals) as [Hall Hnone].
  split.
  - intros H. destruct (Hpos H) as [Hlen _]. rewrite (Hall H).
    assert (FlightFeed.widget_deals widget r max_deals <> []) as Hne
      by (intros E; rewrite E in Hlen; cbn [length] in Hlen; lia).
    destruct (format_widget_deals isoformat str
                [ ("deals", JArr (FlightFeed.to_widget_format isoformat
                                  <$> FlightFeed.widget_deals widget r max_deals));
                  ("count", JNum (inject_Z (Z.of_nat (length
                              (FlightFeed.to_widget_format isoformat
                               <$> FlightFeed.widget_deals widget r max_deals))))) ]
                (FlightFeed.widget_deals widget r max_deals) Hne eq_refl)
      as (flights & images & -> & Hflights & Hurl).
    exists flights, images. split_and!.
    + by replace (Z.min max_deals 5)
        with (Z.of_nat (length (FlightFeed.widget_deals widget r max_deals))) by lia.
    + lia.
    + apply (f_equal length) in Hurl. rewrite !length_fmap, length_take in Hurl. lia.
  - intros H. rewrite (Hnone H). split; [done|].
    destruct (Hneg H) as [top ->]. by exists top.
Qed.

(** ** Cards and the webhook *)

Lemma replace_char (c : ascii) (s : string) :
  list_ascii_of_string (Py.replace (String c EmptyString) "" s)
  = filter (fun x => x <> c) (list_ascii_of_string s).
Proof.
  unfold Py.replace. induction s as [|x s IH]; [done|].
  cbn [Py.replace_from Py.startswith String.length Nat.sub list_ascii_of_string].
  rewrite andb_true_r, filter_cons.
  destruct (Ascii.eqb_spec c x) as [->|Hne].
  - rewrite decide_False by (intros H; by apply H). exact IH.
  - rewrite decide_True by congruence.
    cbn [list_ascii_of_string]. by rewrite IH.
Qed.

Lemma recipient_filter (to : string) :
  list_ascii_of_string (Cards.recipient to)
  = filter (fun x => x <> "+"%char /\ x <> " "%char) (list_ascii_of_string to).
Proof.
  unfold Cards.recipient. rewrite !replace_char.
  induction (list_ascii_of_string to) as [|x l IH]; [done|].
  rewrite !filter_cons.
  destruct (decide (x <> "+"%char)) as [H1|H1].
  - rewrite filter_cons. destruct (decide (x <> " "%char)) as [H2|H2].
    + rewrite decide_True by done. by rewrite IH.
    + rewrite decide_False by tauto. exact IH.
  - rewrite decide_False by tauto. exact IH.
Qed.

(** What the webhook logs for a pressed button. *)
Lemma click_log (from_number : json) (s : string) :
  (Webhook.handle_message (Obs.click from_number (JStr s))).1
  = Webhook.ButtonClick from_number (JStr s)
    :: (if Py.startswith "book_" s then [Webhook.BookingRequest s]
        else if Py.startswith "details_" s then [Webhook.DetailsRequest s]
        else if Py.startswith "cart_" s then [Webhook.AddToCart s]
        else []).
Proof.
  unfold Webhook.handle_message, Obs.click. cbn -[Py.startswith].
  by repeat (destruct (Py.startswith _ s)).
Qed.

Lemma button_message_ids (to : string) (header : option json) (body footer : string)
    (buttons : list json) :
  Obs.button_ids (Cards.button_message to header body footer buttons)
  = Obs.reply_id <$> buttons.
Proof. by destruct header. Qed.

Lemma button_message_to (to : string) (header : option json) (body footer : string)
    (buttons : list json) :
  Webhook.get (Cards.button_message to header body footer buttons) "to" JNull
  = inr (JStr (Cards.recipient to)).
Proof. reflexivity. Qed.

(** Every card is a button message with three buttons. *)
Lemma cards_are_button_messages (str : json -> string)
    (stars_times join_first_three : json -> Webhook.exn + string)
    (format_total : Q -> string) (to : string) (item : json) (items : list json)
    (total : Q) (msg : json) :
  Cards.flight_card str to item = inr msg
  \/ Cards.hotel_card str stars_times to item = inr msg
  \/ Cards.restaurant_card str stars_times join_first_three to item = inr msg
  \/ Cards.cart_summary str format_total to items total = inr msg ->
  exists header body footer b1 b2 b3,
    msg = Cards.button_message to header body footer [b1; b2; b3].
Proof.
  unfold Cards.flight_card, Cards.hotel_card, Cards.restaurant_card, Cards.cart_summary.
  intros [H|[H|[H|H]]];
    repeat match type of H with
    | context [MCP.as_dict ?v] =>
        destruct (MCP.as_dict v) as [|?d]; cbn [mbind MCP.exn_bind] in H
    | context [stars_times ?v] =>
        destruct (stars_times v) as [|?s]; cbn [mbind MCP.exn_bind] in H
    | context [MCP.positive ?v] =>
        destruct (MCP.positive v) as [|[]]; cbn [mbind MCP.exn_bind] in H
    | context [MCP.truthy ?v] =>
        destruct (MCP.truthy v); cbn [mbind MCP.exn_bind] in H
    | context [join_first_three ?v] =>
        destruct (join_first_three v) as [|?s]; cbn [mbind MCP.exn_bind] in H
    | context [Cards.cart_lines ?a ?b ?c] =>
        destruct (Cards.cart_lines a b c) as [|?s]; cbn [mbind MCP.exn_bind] in H
    end;
    try discriminate H; injection H as <-; by eexists _, _, _, _, _, _.
Qed.

(** X20: the recipient of every card is the number given with every [+]
    and every space taken out, and nothing else changed. *)
Theorem card_recipient_is_normalised (str : json -> string)
    (stars_times join_first_three : json -> Webhook.exn + string)
    (format_total : Q -> string) (to : string) (item : json) (items : list json)
    (total : Q) (msg : json) :
  Cards.flight_card str to item = inr msg
  \/ Cards.hotel_card str stars_times to item = inr msg
  \/ Cards.restaurant_card str stars_times join_first_three to item = inr msg
  \/ Cards.cart_summary str format_total to items total = inr msg ->
  exists r,
    Webhook.get msg "to" JNull = inr (JStr r)
    /\ list_ascii_of_string r
       = filter (fun x => x <> "+"%char /\ x <> " "%char) (list_ascii_of_string to).
Proof.
  intros H.
  destruct (cards_are_button_messages _ _ _ _ _ _ _ _ _ H)
    as (header & body & footer & b1 & b2 & b3 & ->).
  exists (Cards.recipient to). split; [apply button_message_to|apply recipient_filter].
Qed.

(** A flight card for a number written with a plus sign and spaces. *)
Lemma card_recipient_is_normalised_witness :
  exists msg r,
    Cards.flight_card (fun _ => "None") "+1 234 567-8900" (JObj [ ("id", JStr "AF1") ])
    = inr msg
    /\ Webhook.get msg "to" JNull = inr (JStr r)
    /\ list_ascii_of_string r
       = filter (fun x => x <> "+"%char /\ x <> " "%char)
                (list_ascii_of_string "+1 234 567-8900").
Proof.
  eexists.
  destruct (card_recipient_is_normalised (fun _ => "None")
              (fun _ => inl Webhook.TypeError) (fun _ => inl Webhook.TypeError)
              (fun _ => "0.00") "+1 234 567-8900" (JObj [ ("id", JStr "AF1") ]) [] 0%Q
              _ (or_introl eq_refl))
    as (r & Hto & Hr).
  exists r. split; [reflexivity|]. by split.
Defined.

Lemma reply_button_id (id title : string) :
  Obs.reply_id (Cards.reply_button id title) = JStr id.
Proof. reflexivity. Qed.

(** X21: a press on any of the three buttons of a flight or hotel card is
    recognised by the webhook -- as a booking request, a details request
    and an addition to the cart.  Of the restaurant card only the third
    button is: a press on Reserve Now or on View Menu is logged as a
    click and nothing more, and so is a press on any button of the cart
    summary. *)
Theorem card_buttons_and_webhook (str : json -> string)
    (stars_times join_first_three : json -> Webhook.exn + string)
    (format_total : Q -> string) (to : string) (item : json) (items : list json)
    (total : Q) (msg from_number : json) :
  let logged id := (Webhook.handle_message (Obs.click from_number id)).1 in
  (Cards.flight_card str to item = inr msg
   \/ Cards.hotel_card str stars_times to item = inr msg ->
   exists book details cart,
     Obs.button_ids msg = [JStr book; JStr details; JStr cart]
     /\ logged (JStr book)
        = [Webhook.ButtonClick from_number (JStr book); Webhook.BookingRequest book]
     /\ logged (JStr details)
        = [Webhook.ButtonClick from_number (JStr details); Webhook.DetailsRequest details]
     /\ logged (JStr cart)
        = [Webhook.ButtonClick from_number (JStr cart); Webhook.AddToCart cart])
  /\ (Cards.restaurant_card str stars_times join_first_three to item = inr msg ->
      exists reserve menu cart,
        Obs.button_ids msg = [JStr reserve; JStr menu; JStr cart]
        /\ logged (JStr reserve) = [Webhook.ButtonClick from_number (JStr reserve)]
        /\ logged (JStr menu) = [Webhook.ButtonClick from_number (JStr menu)]
        /\ logged (JStr cart)
           = [Webhook.ButtonClick from_number (JStr cart); Webhook.AddToCart cart])
  /\ (Cards.cart_summary str format_total to items total = inr msg ->
      length (Obs.button_ids msg) = 3%nat
      /\ Forall (fun id => logged id = [Webhook.ButtonClick from_number id])
                (Obs.button_ids msg)).
Proof.
  intros logged. subst logged.
  unfold Cards.flight_card, Cards.hotel_card, Cards.restaurant_card, Cards.cart_summary.
  split_and!.
  - intros [H|H];
      repeat match type of H with
      | context [MCP.as_dict ?v] =>
          destruct (MCP.as_dict v) as [|?d]; cbn [mbind MCP.exn_bind] in H
      | context [stars_times ?v] =>
          destruct (stars_times v) as [|?s]; cbn [mbind MCP.exn_bind] in H
      end;
      try discriminate H; injection H as <-;
      rewrite button_message_ids; cbn [fmap list_fmap]; rewrite !reply_button_id;
      eexists _, _, _; (split; [reflexivity|]); by rewrite !click_log.
  - intros H.
    repeat match type of H with
    | context [MCP.as_dict ?v] =>
        destruct (MCP.as_dict v) as [|?d]; cbn [mbind MCP.exn_bind] in H
    | context [stars_times ?v] =>
        destruct (stars_times v) as [|?s]; cbn [mbind MCP.exn_bind] in H
    | context [MCP.positive ?v] =>
        destruct (MCP.positive v) as [|[]]; cbn [mbind MCP.exn_bind] in H
    | context [MCP.truthy ?v] =>
        destruct (MCP.truthy v); cbn [mbind MCP.exn_bind] in H
    | context [join_first_three ?v] =>
        destruct (join_first_three v) as [|?s]; cbn [mbind MCP.exn_bind] in H
    end;
    try discriminate H; injection H as <-;
    rewrite button_message_ids; cbn [fmap list_fmap]; rewrite !reply_button_id;
    eexists _, _, _; (split; [reflexivity|]); by rewrite !click_log.
  - intros H.
    destruct (Cards.cart_lines _ _ _) as [|body]; cbn [mbind MCP.exn_bind] in H;
      [done|].
    injection H as <-. rewrite button_message_ids. split; [done|].
    cbn [fmap list_fmap]. rewrite !reply_button_id.
    repeat constructor; by rewrite click_log.
Qed.

(** ** The token cache *)

(** X22: a token that was just fetched with an integer validity is served
    again, without a new request and without a change to the client,
    exactly until sixty seconds before it expires, and only if it is not
    empty (nor null or false); one that is valid for sixty seconds or
    less is never served from the cache.  The token is stored before the
    expiry is computed: when the validity is so large that the expiry
    cannot be computed, the call raises and the client keeps the new
    token with the old expiry. *)
Theorem token_reused_until_a_minute_before_expiry
    (self : Token.AmadeusClient) (now_check now_store : Z)
    (token : json) (expires_in : Z) :
  Token.cached self now_check = None ->
  let first := Token._get_token self now_check now_store
                 (Token.Data (Some token) (Some (Token.IntSeconds expires_in))) in
  first.1.2 = true
  /\ (forall e,
      Token.expiry_at now_store (Token.IntSeconds expires_in) = inl e ->
      e = Token.OverflowError
      /\ first.2 = inl Token.OverflowError
      /\ first.1.1 = {| Token._access_token := token;
                        Token._token_expiry := Token._token_expiry self |})
  /\ (forall expiry,
      Token.expiry_at now_store (Token.IntSeconds expires_in) = inr expiry ->
      expiry = now_store + (expires_in - 60) * 1000000
      /\ first.2 = inr token
      /\ forall (later now_store' : Z) (post : Token.reply),
           let second := Token._get_token first.1.1 later now_store' post in
           (second.1.2 = false <-> MCP.truthy token = true /\ later < expiry)
           /\ (second.1.2 = false -> second.2 = inr token /\ second.1.1 = first.1.1)
           /\ (expires_in <= 60 -> now_store <= later -> second.1.2 = true)).
Proof.
  intros Hnone first.
  assert (first = match Token.expiry_at now_store (Token.IntSeconds expires_in) with
                  | inl e => ({| Token._access_token := token;
                                 Token._token_expiry := Token._token_expiry self |},
                              true, inl e)
                  | inr expiry => ({| Token._access_token := token;
                                      Token._token_expiry := Some expiry |},
                                   true, inr token)
                  end) as ->.
  { subst first. unfold Token._get_token. by rewrite Hnone. }
  destruct (Token.expiry_at now_store (Token.IntSeconds expires_in)) as [e|expiry] eqn:He;
    cbn [fst snd]; split_and!; try done.
  - intros e' [= <-].
    assert (e = Token.OverflowError) as ->; [|done].
    unfold Token.expiry_at, Token.validity, Token.timedelta_seconds,
      Token.datetime_add in He.
    repeat case_match; congruence.
  - intros expiry' [= <-].
    assert (expiry = now_store + (expires_in - 60) * 1000000) as Hexp.
    { unfold Token.expiry_at, Token.validity, Token.timedelta_seconds,
        Token.datetime_add in He.
      repeat case_match; congruence. }
    split_and!; [done..|].
    intros later now_store' post.
    unfold Token._get_token, Token.cached. cbn [Token._access_token Token._token_expiry].
    destruct (MCP.truthy token); cbn [andb].
    + destruct (Z.ltb_spec later expiry) as [Hlt|Hge]; cbn [fst snd].
      * split_and!; [done|done|lia].
      * split_and!; [|by destruct post as [| |[] [[]|]]; repeat case_match..].
        split; [|lia]. by destruct post as [| |[] [[]|]]; repeat case_match.
    + split_and!; [|by destruct post as [| |[] [[]|]]; repeat case_match..].
      split; [|by intros [[=] _]].
      by destruct post as [| |[] [[]|]]; repeat case_match.
Qed.

(** A first call, and a second one ten minutes into an hour's validity. *)
Lemma token_reused_until_a_minute_before_expiry_witness :
  let self := {| Token._access_token := JNull; Token._token_expiry := None |} in
  let now := 63900000000000000 in
  let first := Token._get_token self now now
                 (Token.Data (Some (JStr "tok")) (Some (Token.IntSeconds 3600))) in
  Token.cached self now = None
  /\ Token.expiry_at now (Token.IntSeconds 3600) = inr (now + 3540 * 1000000)
  /\ first.1.2 = true /\ first.2 = inr (JStr "tok")
  /\ (Token._get_token first.1.1 (now + 600 * 1000000) (now + 600 * 1000000)
        (Token.PostRaised "down")).2 = inr (JStr "tok").
Proof.
  intros self now first.
  assert (Token.cached self now = None) as Hnone by reflexivity.
  assert (Token.expiry_at now (Token.IntSeconds 3600) = inr (now + 3540 * 1000000))
    as Hexp by reflexivity.
  destruct (token_reused_until_a_minute_before_expiry self now now (JStr "tok") 3600 Hnone)
    as (Hsent & _ & Hok).
  destruct (Hok _ Hexp) as (_ & Hfirst & Hlater).
  split; [exact Hnone|]. split; [exact Hexp|]. split; [exact Hsent|].
  split; [exact Hfirst|].
  destruct (Hlater (now + 600 * 1000000) (now + 600 * 1000000) (Token.PostRaised "down"))
    as (Hiff & Hsame & _).
  apply Hsame, Hiff. split; [reflexivity|]. subst now. lia.
Defined.
